(** * Connect plugin manager, self-update dialog and launch hook

    A shallow embedding of the Python sources

    - [ftrack_connect/plugin_manager/__init__.py]  (class [PluginManager]),
    - [ftrack_connect/ui/update_dialog.py]          (download, download URL,
      deferred installation and release notes),
    - [ftrack_connect/__main__.py]       (functions [main_connect] and [main]),
    - [connect-mana-location/resource/hook/connect_plugin_hook.py]
      (functions [append_path] and [modify_application_launch]),

    together with the properties of these functions that the specification
    states and further properties read off the code.

    Conventions.  A Python [str] is a Rocq [string]; release notes, version
    strings and plugin names are ASCII text, on which [str.strip],
    [str.lower], [str.capitalize], [len] and the ordering of [str] are the
    functions of module [PyStr] (the bullet sign U+2022, which the code
    only ever prepends to its output, is written as its UTF-8 bytes).  A
    [dict] is a [gmap].  A call that may raise returns a [result];
    [try]/[except] is [try_except].  Signals, log records, dialogs and
    calls into collaborators that are not part of these files are recorded
    as events of a trace, in program order. *)

From Stdlib Require Import ZArith NArith List Ascii Bool Lia.
From Stdlib Require String.
From stdpp Require Import base gmap strings list.

Local Open Scope stdpp_scope.

(** ** Exceptions *)

Module Py.

(** The exceptions the modelled code names or catches.  Every constructor
    is an instance of Python's [Exception], which is what the [except
    Exception] and bare [except] clauses of the sources catch. *)
Inductive exn : Type :=
| KeyError (key : string)
| InvalidVersion (text : string)
| PyException (message : string).

Inductive result (A : Type) : Type :=
| Ok (a : A)
| Raise (e : exn).

Arguments Ok {A} a.
Arguments Raise {A} e.

Definition bind {A B : Type} (m : result A) (k : A -> result B) : result B :=
  match m with
  | Ok a => k a
  | Raise e => Raise e
  end.

(** [try: body except Exception as e: handler e] *)
Definition try_except {A : Type} (body : result A) (handler : exn -> result A)
  : result A :=
  match body with
  | Ok a => Ok a
  | Raise e => handler e
  end.

Definition is_KeyError (e : exn) : bool :=
  match e with
  | KeyError _ => true
  | _ => false
  end.

(** [try: body except KeyError: handler]; other exceptions propagate. *)
Definition try_except_KeyError {A : Type} (body : result A)
  (handler : result A) : result A :=
  match body with
  | Ok a => Ok a
  | Raise e => if is_KeyError e then handler else Raise e
  end.

Definition returns {A : Type} (m : result A) : Prop :=
  exists a, m = Ok a.

(** [d[key]] on a dict. *)
Definition getitem {V : Type} (d : gmap string V) (key : string) : result V :=
  match d !! key with
  | Some v => Ok v
  | None => Raise (KeyError key)
  end.

(** A computation that leaves a trace of events of type [E] and returns or
    raises. *)
Definition M (E A : Type) : Type := (list E * result A)%type.

Definition ret {E A : Type} (a : A) : M E A := ([], Ok a).

Definition tell {E : Type} (ev : E) : M E unit := ([ev], Ok tt).

Definition then_ {E A B : Type} (m : M E A) (k : A -> M E B) : M E B :=
  match m with
  | (t, Ok a) => (t ++ fst (k a), snd (k a))
  | (t, Raise e) => (t, Raise e)
  end.

Definition seq {E A : Type} (m : M E unit) (k : M E A) : M E A :=
  then_ m (fun _ => k).

(** A call into a collaborator: the call is recorded, then it returns or
    raises. *)
Definition call {E A : Type} (ev : E) (r : result A) : M E A := ([ev], r).

(** A step that leaves no trace. *)
Definition lift {E A : Type} (r : result A) : M E A := ([], r).

(** [try: body except Exception as e: handler(e)] *)
Definition try_catch {E A : Type} (body : M E A) (handler : exn -> M E A)
  : M E A :=
  match body with
  | (t, Ok a) => (t, Ok a)
  | (t, Raise e) => (t ++ fst (handler e), snd (handler e))
  end.

(** [for x in xs: body(x)] *)
Fixpoint for_each {E A : Type} (body : A -> M E unit) (xs : list A)
  : M E unit :=
  match xs with
  | [] => ret tt
  | x :: rest => seq (body x) (for_each body rest)
  end.

End Py.

#[global] Instance result_ret : MRet Py.result := @Py.Ok.
#[global] Instance result_bind : MBind Py.result :=
  fun A B k m => Py.bind m k.

(** ** connect_plugin_hook.py *)

Module Hook.

Section AppendPath.

(** [os.pathsep], [":"] or [";"] with the platform. *)
Variable pathsep : string.

(** [append_path(path, key, environment)].  The dict is updated in place and
    returned: the mapping the function yields is the caller's mapping after
    the call. *)
Definition append_path (path key : string) (environment : gmap string string)
  : Py.result (gmap string string) :=
  Py.try_except_KeyError
    (old ← Py.getitem environment key;
     Py.Ok (<[key := String.concat pathsep [old; path]]> environment))
    (Py.Ok (<[key := path]> environment)).

End AppendPath.

End Hook.

(** ** Python [str] operations *)

Module PyStr.

Definition LF : ascii := Ascii.ascii_of_nat 10.

(** [str.isspace] on ASCII: tab, line feed, vertical tab, form feed,
    carriage return, the four separators 28..31 and the space. *)
Definition isspace (c : ascii) : bool :=
  let n := Ascii.nat_of_ascii c in
  ((9 <=? n)%nat && (n <=? 13)%nat) || ((28 <=? n)%nat && (n <=? 32)%nat).

Fixpoint lstrip (s : string) : string :=
  match s with
  | EmptyString => EmptyString
  | String c r => if isspace c then lstrip r else s
  end.

Fixpoint rstrip (s : string) : string :=
  match s with
  | EmptyString => EmptyString
  | String c r =>
      match rstrip r with
      | EmptyString => if isspace c then EmptyString else String c EmptyString
      | r' => String c r'
      end
  end.

(** [s.strip()] *)
Definition strip (s : string) : string := rstrip (lstrip s).

(** [s.split(sep)] for a one-character separator: never empty,
    [''.split(sep) == ['']]. *)
Fixpoint split_char (sep : ascii) (s : string) : list string :=
  match s with
  | EmptyString => [EmptyString]
  | String c r =>
      if Ascii.eqb c sep then EmptyString :: split_char sep r
      else match split_char sep r with
           | h :: t => String c h :: t
           | [] => [String c EmptyString]
           end
  end.

(** [s.split('\n')] *)
Definition split_lines (s : string) : list string := split_char LF s.

(** [s.startswith(p)] *)
Definition startswith (s p : string) : bool := String.prefix p s.

(** [k in s] *)
Fixpoint contains (k s : string) : bool :=
  String.prefix k s ||
  match s with
  | EmptyString => false
  | String _ r => contains k r
  end.

(** [s[n:]] *)
Fixpoint drop (n : nat) (s : string) : string :=
  match n, s with
  | O, _ => s
  | S _, EmptyString => EmptyString
  | S m, String _ r => drop m r
  end.

Definition lower_char (c : ascii) : ascii :=
  let n := Ascii.nat_of_ascii c in
  if (65 <=? n)%nat && (n <=? 90)%nat then Ascii.ascii_of_nat (n + 32) else c.

Definition upper_char (c : ascii) : ascii :=
  let n := Ascii.nat_of_ascii c in
  if (97 <=? n)%nat && (n <=? 122)%nat then Ascii.ascii_of_nat (n - 32) else c.

(** [s.lower()] *)
Fixpoint lower (s : string) : string :=
  match s with
  | EmptyString => EmptyString
  | String c r => String (lower_char c) (lower r)
  end.

(** [s.capitalize()]: first character upper case, the rest lower case. *)
Definition capitalize (s : string) : string :=
  match s with
  | EmptyString => EmptyString
  | String c r => String (upper_char c) (lower r)
  end.

(** [len(s)] *)
Definition len (s : string) : nat := String.length s.

(** [sep.join(parts)] *)
Definition join (sep : string) (parts : list string) : string :=
  String.concat sep parts.

(** [a > b] on [str]: lexicographic on the character codes. *)
Definition gt (a b : string) : bool := String.ltb b a.

(** Number of lines of a text, [len(s.split('\n'))]. *)
Definition line_count (s : string) : nat := length (split_lines s).

End PyStr.

(** ** Version numbers of the [packaging] library

    [packaging.version] is not part of the repository.  What the comparator
    relies on for versions written as dot-separated decimal numbers is
    described here: such a string parses to its release tuple, and two
    such versions compare as Python compares the tuples once the trailing
    zeros are removed (the release part of [_cmpkey]). *)

Module Packaging.

Definition is_digit (c : ascii) : bool :=
  let n := Ascii.nat_of_ascii c in (48 <=? n)%nat && (n <=? 57)%nat.

Definition digit_value (c : ascii) : N := N.of_nat (Ascii.nat_of_ascii c - 48).

Fixpoint parse_digits (s : string) (acc : N) : option N :=
  match s with
  | EmptyString => Some acc
  | String c r =>
      if is_digit c then parse_digits r (10 * acc + digit_value c)%N else None
  end.

(** [int(component)] for a non-empty run of decimal digits. *)
Definition parse_component (s : string) : option N :=
  match s with
  | EmptyString => None
  | _ => parse_digits s 0%N
  end.

(** The release tuple of a dotted numeric version string such as
    ["1.20.3"]; [None] for any other text. *)
Definition dotted_numeric (s : string) : option (list N) :=
  mapM parse_component (PyStr.split_char "." s).

(** Release part of [_cmpkey]:
    [reversed(dropwhile(lambda x: x == 0, reversed(release)))]. *)
Fixpoint dropwhile_zero (l : list N) : list N :=
  match l with
  | [] => []
  | x :: r => if (x =? 0)%N then dropwhile_zero r else l
  end.

Definition cmpkey_release (release : list N) : list N :=
  rev (dropwhile_zero (rev release)).

(** [a > b] on tuples of integers: the first differing position decides,
    and a proper prefix is smaller. *)
Fixpoint tuple_gt (a b : list N) : bool :=
  match a, b with
  | [], _ => false
  | _ :: _, [] => true
  | x :: a', y :: b' =>
      if (y <? x)%N then true
      else if (x <? y)%N then false
      else tuple_gt a' b'
  end.

(** Component-wise numeric comparison of two release tuples, a missing
    component counting as zero: the order in which ["1.10"] is above
    ["1.9"] and ["1.0"] equals ["1.0.0"]. *)
Fixpoint numeric_gt (a b : list N) : bool :=
  match a, b with
  | [], _ => false
  | _ :: _, [] => negb (forallb (fun x => (x =? 0)%N) a)
  | x :: a', y :: b' =>
      if (y <? x)%N then true
      else if (x <? y)%N then false
      else numeric_gt a' b'
  end.

End Packaging.

(** ** plugin_manager/__init__.py *)

Module PluginManager.

(** The members of [processor.STATUSES] the manager compares with.  The
    enumeration lives in [processor.py]; its values are left open. *)
Record StatusCodes : Type := {
  NEW : Z;
  UPDATE : Z;
  DOWNLOAD : Z
}.

(** A row of the plugin model: the data roles the manager reads and the
    check state of the row. *)
Record Item : Type := {
  PLUGIN_NAME : string;
  PLUGIN_VERSION : string;
  PLUGIN_STATUS : Z;
  checked : bool
}.

(** An installed plugin as Connect reports it; [version] is [None] when
    the dict has no ['version'] key. *)
Record InstalledPlugin : Type := {
  name : string;
  version : option string;
  incompatible : bool;
  deprecated : bool
}.

(** The tuple [(item, action, plugin_name, version_info)]. *)
Record Entry : Type := {
  item : Item;
  action : string;
  plugin_name : string;
  version_info : string
}.

Inductive StandardButton : Type := Yes | No | Cancel.

Inductive ConflictKind : Type := Incompatible | Deprecated.

(** What a function does besides changing [self], in program order. *)
Inductive Event : Type :=
| RefreshStarted                       (* refresh_started.emit() *)
| FetchPlugins                         (* fetchPlugins.emit(callback) *)
| RefreshDone                          (* refresh_done.emit() *)
| ShowWelcome (downloadable : nat)     (* show_welcome.emit(count) *)
| LogAutoInstalling (downloadable : nat)
| LogAutoUpdating (update_count : nat)
| AutoProcessingStarted (total : nat)  (* 'Starting auto-processing of ...' *)
| LogAutoCompleted                     (* 'Auto-installation/update ... completed' *)
| LogNothingToAuto                     (* 'No plugins to auto-install or auto-update.' *)
| LogNothingToProcess                  (* 'No plugins to install or update.' *)
| LogProcessingBatch (total : nat)     (* 'Processing N plugins...' *)
| LogProcessing (e : Entry) (index total : nat)
| ProcessCalled (it : Item)            (* self._plugin_processor.process(item) *)
| Progress (index total : nat) (action info : string)
| LogFailed (e : Entry) (error : Py.exn)   (* logger.error('Failed to ...') *)
| LogProcessed (processed total : nat) (* 'Successfully processed i/N plugins' *)
| RestartPrompt (processed total : nat) (entries : list Entry)
| RequestConnectRestart                (* requestConnectRestart.emit() *)
| ConflictPrompt (kind : ConflictKind) (names : list string)
| ApplyChanges (archive : list string) (* apply_changes.emit(names) *)
| InstallationStarted
| ArchiveLegacyPlugin (plugin : string)
| InstallationInProgress (it : Item)
| InstallationDone
| TrackUsage (plugins : list Item)
| InstallationFailed (error : Py.exn). (* installation_failed.emit(traceback) *)

(** The attributes of [self] and of the list widget that the modelled
    methods read or write.  [_installed_plugins] is [None] until the first
    fetch sets it; the methods below read it only after a fetch, so it is
    a list here. *)
Record PM : Type := {
  _initialised : bool;
  _installed_plugins : list InstalledPlugin;
  _plugins_to_install : list Item;
  _counter : nat;
  plugin_model : list Item;             (* _plugin_list_widget.plugin_model *)
  widget_installed_plugins : nat;       (* len(_plugin_list_widget.installed_plugins) *)
  downloadable_plugin_count : nat       (* _plugin_list_widget.downloadable_plugin_count *)
}.

(** [__init__] *)
Definition init : PM := {|
  _initialised := false;
  _installed_plugins := [];
  _plugins_to_install := [];
  _counter := 0;
  plugin_model := [];
  widget_installed_plugins := 0;
  downloadable_plugin_count := 0
|}.

Definition set_initialised (b : bool) (self : PM) : PM := {|
  _initialised := b;
  _installed_plugins := _installed_plugins self;
  _plugins_to_install := _plugins_to_install self;
  _counter := _counter self;
  plugin_model := plugin_model self;
  widget_installed_plugins := widget_installed_plugins self;
  downloadable_plugin_count := downloadable_plugin_count self
|}.

(** [_reset_plugin_list] *)
Definition _reset_plugin_list (self : PM) : PM := {|
  _initialised := _initialised self;
  _installed_plugins := _installed_plugins self;
  _plugins_to_install := [];
  _counter := 0;
  plugin_model := plugin_model self;
  widget_installed_plugins := widget_installed_plugins self;
  downloadable_plugin_count := downloadable_plugin_count self
|}.

(** [_enable_apply_button]: the checked rows become [_plugins_to_install]. *)
Definition _enable_apply_button (self : PM) : PM := {|
  _initialised := _initialised self;
  _installed_plugins := _installed_plugins self;
  _plugins_to_install := filter (fun it => checked it = true) (plugin_model self);
  _counter := _counter self;
  plugin_model := plugin_model self;
  widget_installed_plugins := widget_installed_plugins self;
  downloadable_plugin_count := downloadable_plugin_count self
|}.

(** What a fetch delivers: the installed plugins handed to the callback and
    the widget as [populate_installed_plugins] and
    [populate_download_plugins] leave it. *)
Record Fetched : Type := {
  plugins : list InstalledPlugin;
  rows : list Item;
  installed_in_widget : nat;
  downloadable : nat
}.

Definition populate (f : Fetched) (self : PM) : PM := {|
  _initialised := _initialised self;
  _installed_plugins := plugins f;
  _plugins_to_install := _plugins_to_install self;
  _counter := _counter self;
  plugin_model := rows f;
  widget_installed_plugins := installed_in_widget f;
  downloadable_plugin_count := downloadable f
|}.

(** [_get_incompatible_plugin_names] *)
Definition _get_incompatible_plugin_names (self : PM) : list string :=
  fold_left
    (fun result plugin =>
       if incompatible plugin then result ++ [name plugin] else result)
    (_installed_plugins self) [].

(** [_get_deprecated_plugin_names] *)
Definition _get_deprecated_plugin_names (self : PM) : list string :=
  fold_left
    (fun result plugin =>
       if deprecated plugin then result ++ [name plugin] else result)
    (_installed_plugins self) [].

(** [_on_apply_changes].  [answer] is what the user clicks in the message
    box of each kind.  The function ends either by emitting
    [apply_changes] or by returning early. *)
Definition _on_apply_changes (answer : ConflictKind -> StandardButton)
  (self : PM) : list Event :=
  let incompatible_plugin_names := _get_incompatible_plugin_names self in
  let deprecated_plugins := _get_deprecated_plugin_names self in
  let after_deprecated (incompatible_plugin_names : list string)
      : list Event :=
    match deprecated_plugins with
    | _ :: _ =>
        ConflictPrompt Deprecated deprecated_plugins ::
        match answer Deprecated with
        | Yes => [ApplyChanges (incompatible_plugin_names ++ deprecated_plugins)]
        | No => [ApplyChanges (incompatible_plugin_names ++ [])]
        | Cancel => []
        end
    | [] => [ApplyChanges (incompatible_plugin_names ++ deprecated_plugins)]
    end in
  match incompatible_plugin_names with
  | _ :: _ =>
      ConflictPrompt Incompatible incompatible_plugin_names ::
      match answer Incompatible with
      | Yes => after_deprecated incompatible_plugin_names
      | No => after_deprecated []
      | Cancel => []
      end
  | [] => after_deprecated incompatible_plugin_names
  end.

Section Driver.

Variable STATUSES : StatusCodes.

(** [PluginProcessor.process], [archive_legacy_plugin] of the list widget
    and the usage tracker behind [_emit_downloaded_plugins]: each returns
    or raises. *)
Variable process : Item -> Py.result unit.
Variable archive_legacy_plugin : string -> Py.result unit.
Variable track_usage : list Item -> Py.result unit.

(** [_count_plugin_updates] *)
Definition _count_plugin_updates (self : PM) : nat :=
  fold_left
    (fun update_count item =>
       if (PLUGIN_STATUS item =? 2)%Z then S update_count else update_count)
    (plugin_model self) 0.

(** [_count_plugins_to_process] *)
Definition _count_plugins_to_process (self : PM) (do_install do_update : bool)
  : nat :=
  fold_left
    (fun count item =>
       let status := PLUGIN_STATUS item in
       if (status =? NEW STATUSES)%Z && do_install then S count
       else if (status =? UPDATE STATUSES)%Z && do_update then S count
       else if (status =? DOWNLOAD STATUSES)%Z then
         if do_install then S count else count
       else count)
    (plugin_model self) 0.

(** The inner loop over [self._installed_plugins] of the update branch: the
    version text of the first installed plugin of that name. *)
Fixpoint update_version_info (installed : list InstalledPlugin)
  (plugin_name available_version : string) (version_info : string) : string :=
  match installed with
  | [] => version_info
  | installed_plugin :: rest =>
      if String.eqb (name installed_plugin) plugin_name then
        let installed_version := default "0.0.0" (version installed_plugin) in
        installed_version +:+ " -> " +:+ available_version
      else update_version_info rest plugin_name available_version version_info
  end.

(** The first loop of [_on_auto_install_update_callback], which builds
    [plugins_to_process]. *)
Definition plugins_to_process (self : PM) (do_install do_update : bool)
  : list Entry :=
  fold_left
    (fun plugins_to_process item =>
       let status := PLUGIN_STATUS item in
       let plugin_name := PLUGIN_NAME item in
       let available_version := PLUGIN_VERSION item in
       let version_info := "v" +:+ available_version in
       if (status =? NEW STATUSES)%Z && do_install then
         plugins_to_process ++ [Build_Entry item "Installing" plugin_name version_info]
       else if (status =? UPDATE STATUSES)%Z && do_update then
         let version_info :=
           update_version_info (_installed_plugins self) plugin_name
             available_version version_info in
         plugins_to_process ++ [Build_Entry item "Updating" plugin_name version_info]
       else if (status =? DOWNLOAD STATUSES)%Z then
         if do_install then
           plugins_to_process ++ [Build_Entry item "Installing" plugin_name version_info]
         else plugins_to_process
       else plugins_to_process)
    (plugin_model self) [].

Definition progress_info (e : Entry) : string :=
  plugin_name e +:+ " (" +:+ version_info e +:+ ")".

(** One round of the processing loop, [processed_count] already
    incremented (the increment is the first statement of the [try] block
    and cannot raise). *)
Definition process_entry (total_to_process : nat) (e : Entry)
  (processed_count : nat) : Py.M Event unit :=
  Py.try_catch
    (Py.seq (Py.tell (LogProcessing e processed_count total_to_process))
    (Py.seq (Py.call (ProcessCalled (item e)) (process (item e)))
         (Py.tell (Progress processed_count total_to_process (action e)
                  (progress_info e)))))
    (fun error => Py.tell (LogFailed e error)).

(** The processing loop; yields the final [processed_count]. *)
Fixpoint process_loop (total_to_process : nat) (entries : list Entry)
  (processed_count : nat) : nat * list Event :=
  match entries with
  | [] => (processed_count, [])
  | e :: rest =>
      let processed_count := S processed_count in
      let round := fst (process_entry total_to_process e processed_count) in
      let '(n, t) := process_loop total_to_process rest processed_count in
      (n, round ++ t)
  end.

(** [_show_auto_install_restart_message] *)
Definition _show_auto_install_restart_message (answer : StandardButton)
  (processed_count total_count : nat) (plugins_processed : list Entry)
  : list Event :=
  RestartPrompt processed_count total_count plugins_processed ::
  match answer with
  | Yes => [RequestConnectRestart]
  | _ => []
  end.

(** What a run of [_on_auto_install_update_callback] leaves: [self], the
    locals [processed_count] and [total_to_process] at the end, and the
    trace. *)
Record AutoRun : Type := {
  self_after : PM;
  processed_count : nat;
  total_to_process : nat;
  trace : list Event
}.

(** [_on_auto_install_update_callback]; [answer] is the user's reply to the
    restart question, should it be asked. *)
Definition _on_auto_install_update_callback (answer : StandardButton)
  (self : PM) (do_install do_update : bool) : AutoRun :=
  let entries := plugins_to_process self do_install do_update in
  let total_to_process := length entries in
  if (total_to_process =? 0)%nat then
    Build_AutoRun self 0 total_to_process [LogNothingToProcess]
  else
    let '(processed_count, t) := process_loop total_to_process entries 0 in
    Build_AutoRun (_reset_plugin_list self) processed_count total_to_process
      (LogProcessingBatch total_to_process :: t
       ++ LogProcessed processed_count total_to_process
       :: (if (0 <? processed_count)%nat then
             _show_auto_install_restart_message answer processed_count
               total_to_process entries
           else [])).

(** The two policy switches, fixed in the source. *)
Definition auto_install : string := "true".
Definition auto_update : string := "true".

(** [value in ['true', '1', 'yes']] *)
Definition enabled (value : string) : bool :=
  existsb (String.eqb value) ["true"; "1"; "yes"].

(** [_check_and_run_auto_operations] *)
Definition _check_and_run_auto_operations (answer : StandardButton)
  (self : PM) : PM * list Event :=
  if _initialised self then (self, [])
  else
    let '(self, t) :=
      if enabled auto_install || enabled auto_update then
        let t1 :=
          if enabled auto_install
          then [LogAutoInstalling (downloadable_plugin_count self)] else [] in
        let t2 :=
          if enabled auto_update
          then [LogAutoUpdating (_count_plugin_updates self)] else [] in
        let total_to_process :=
          _count_plugins_to_process self (enabled auto_install)
            (enabled auto_update) in
        if (0 <? total_to_process)%nat then
          let run :=
            _on_auto_install_update_callback answer self
              (enabled auto_install) (enabled auto_update) in
          (self_after run,
           t1 ++ t2 ++ AutoProcessingStarted total_to_process
           :: trace run ++ [LogAutoCompleted])
        else (self, t1 ++ t2 ++ [LogNothingToAuto])
      else (self, []) in
    (set_initialised true self, t).

(** [_on_plugin_fetch_callback]; [disable_startup_widget] is the value of
    the environment switch of that name. *)
Definition _on_plugin_fetch_callback (answer : StandardButton)
  (disable_startup_widget : bool) (f : Fetched) (self : PM)
  : PM * list Event :=
  let self := populate f self in
  let '(self, t) := _check_and_run_auto_operations answer self in
  if negb (_initialised self) && (widget_installed_plugins self =? 0)%nat then
    if negb disable_startup_widget
    then (self, t ++ [ShowWelcome (downloadable_plugin_count self)])
    else (self, t)
  else (self, t).

(** How the slot connected to [fetchPlugins] reaches the callback: within
    the emission, or from the event loop once [refresh] has finished. *)
Inductive Delivery : Type := Direct | Queued.

(** One refresh pass and its inputs. *)
Record Pass : Type := {
  delivery : Delivery;
  fetched : Fetched;
  restart_answer : StandardButton;
  disable_startup_widget : bool
}.

(** The statements of [refresh] after the emission of [fetchPlugins]. *)
Definition refresh_tail (self : PM) : PM * list Event :=
  let self := _enable_apply_button self in
  let self := _reset_plugin_list self in
  (set_initialised false self, [RefreshDone]).

(** [refresh], together with the callback it hands to [fetchPlugins]. *)
Definition refresh (p : Pass) (self : PM) : PM * list Event :=
  let callback :=
    _on_plugin_fetch_callback (restart_answer p) (disable_startup_widget p)
      (fetched p) in
  match delivery p with
  | Direct =>
      let '(self, t1) := callback self in
      let '(self, t2) := refresh_tail self in
      (self, RefreshStarted :: FetchPlugins :: t1 ++ t2)
  | Queued =>
      let '(self, t2) := refresh_tail self in
      let '(self, t1) := callback self in
      (self, RefreshStarted :: FetchPlugins :: t2 ++ t1)
  end.

(** A session: the passes one after the other on one manager; the trace
    of each pass is kept apart. *)
Fixpoint session (passes : list Pass) (self : PM) : PM * list (list Event) :=
  match passes with
  | [] => (self, [])
  | p :: rest =>
      let '(self, t) := refresh p self in
      let '(self, ts) := session rest self in
      (self, t :: ts)
  end.

Definition is_AutoProcessingStarted (ev : Event) : bool :=
  match ev with
  | AutoProcessingStarted _ => true
  | _ => false
  end.

(** Did this pass run the automatic install/update processing? *)
Definition auto_processing_ran (t : list Event) : bool :=
  existsb is_AutoProcessingStarted t.

(** Number of passes of a session that ran it. *)
Definition auto_processing_passes (ts : list (list Event)) : nat :=
  length (filter (fun t => auto_processing_ran t = true) ts).

(** [on_apply_changes_confirmed_callback] *)
Definition on_apply_changes_confirmed_callback (self : PM)
  (archive_plugins : list string) : PM * list Event :=
  let body : Py.M Event unit :=
    Py.seq (Py.for_each
           (fun plugin =>
              Py.call (ArchiveLegacyPlugin plugin) (archive_legacy_plugin plugin))
           archive_plugins)
    (Py.seq (Py.for_each
            (fun item =>
               if checked item then
                 Py.seq (Py.tell (InstallationInProgress item))
                     (Py.call (ProcessCalled item) (process item))
               else Py.ret tt)
            (plugin_model self))
    (Py.seq (Py.tell InstallationDone)
         (Py.call (TrackUsage (_plugins_to_install self))
            (track_usage (_plugins_to_install self))))) in
  match body with
  | (t, Py.Ok _) => (_reset_plugin_list self, InstallationStarted :: t)
  | (t, Py.Raise e) => (self, InstallationStarted :: t ++ [InstallationFailed e])
  end.

(** The items handed to the processor, in order. *)
Definition attempted (t : list Event) : list Item :=
  omap (fun ev => match ev with ProcessCalled it => Some it | _ => None end) t.

End Driver.

Section Comparator.

(** [packaging.version]: the import statement inside the [try] block, the
    parser (which raises [InvalidVersion] on text it rejects) and [>] on
    parsed versions. *)
Variable Version : Type.
Variable import_parse : Py.result unit.
Variable parse_version : string -> Py.result Version.
Variable version_gt : Version -> Version -> bool.

(** [_is_newer_version] *)
Definition _is_newer_version (available_version installed_version : string)
  : Py.result bool :=
  Py.try_except
    (_ ← import_parse;
     available ← parse_version available_version;
     installed ← parse_version installed_version;
     Py.Ok (version_gt available installed))
    (fun _ => Py.Ok (PyStr.gt available_version installed_version)).

End Comparator.

End PluginManager.

(** ** ui/update_dialog.py *)

Module UpdateDialog.

(** *** Release notes *)

(** The bullet sign U+2022 followed by a space. *)
Definition bullet : string := "• ".

Definition NL : string := String PyStr.LF EmptyString.

(** The text [_format_release_notes] returns for missing or blank notes. *)
Definition generic_benefits : string :=
  "• New features and improvements" +:+ NL +:+
  "• Bug fixes and stability enhancements".

(** The final fallback of [_parse_markdown_to_bullets]. *)
Definition generic_fallback : string :=
  "• New features and improvements" +:+ NL +:+
  "• Bug fixes and stability enhancements" +:+ NL +:+
  "• Latest security updates".

Definition nonempty (s : string) : bool :=
  match s with
  | EmptyString => false
  | String _ _ => true
  end.

(** One round of the first loop: the bullet the line contributes, if any. *)
Definition bullet_of_line (raw : string) : option string :=
  let line := PyStr.strip raw in
  if negb (nonempty line) || PyStr.startswith line "#" then None
  else if PyStr.startswith line "- " || PyStr.startswith line "* " then
    let clean_line := PyStr.strip (PyStr.drop 2 line) in
    if nonempty clean_line then Some (bullet +:+ clean_line) else None
  else if PyStr.startswith line "## " then None
  else if nonempty line && negb (PyStr.startswith line "![")
          && negb (PyStr.startswith line "[") then
    if (PyStr.len line <? 100)%nat then Some (bullet +:+ line) else None
  else None.

Definition keywords : list string :=
  ["fix"; "add"; "improve"; "update"; "enhance"; "support"; "new"].

(** One round of the keyword loop. *)
Definition keyword_bullet (raw : string) : option string :=
  let line := PyStr.lower (PyStr.strip raw) in
  if existsb (fun keyword => PyStr.contains keyword line) keywords
     && (PyStr.len line <? 100)%nat
  then Some (bullet +:+ PyStr.capitalize line)
  else None.

(** [_parse_markdown_to_bullets] *)
Definition _parse_markdown_to_bullets (markdown_text : string) : string :=
  let lines := PyStr.split_lines (PyStr.strip markdown_text) in
  let bullet_points := omap bullet_of_line lines in
  let bullet_points :=
    match bullet_points with
    | [] => omap keyword_bullet lines
    | _ :: _ => bullet_points
    end in
  match bullet_points with
  | [] => generic_fallback
  | _ :: _ => PyStr.join NL (take 5 bullet_points)
  end.

(** [_format_release_notes]; [release_notes] is
    [update_info.get('release_notes', '')]. *)
Definition _format_release_notes (release_notes : string) : string :=
  if negb (nonempty release_notes) || negb (nonempty (PyStr.strip release_notes))
  then generic_benefits
  else
    let formatted_notes := _parse_markdown_to_bullets release_notes in
    let lines := PyStr.split_lines formatted_notes in
    let lines :=
      if (5 <? length lines)%nat
      then take 4 lines ++ ["• ...and more improvements"]
      else lines in
    PyStr.join NL lines.

(** *** Download *)

Definition bytes : Type := list Byte.byte.

(** The response of [requests.get(url, stream=True)] once
    [raise_for_status] has passed: the size announced by the
    [content-length] header as [int(...)] reads it, the chunks
    [iter_content] yields, and the exception the stream ends with, if it
    breaks off. *)
Record Response : Type := {
  total_size : Py.result nat;
  chunks : list bytes;
  stream_error : option Py.exn
}.

(** The network and the disk as the download meets them. *)
Record Environment : Type := {
  get : Py.result Response;         (* requests.get + raise_for_status *)
  open_destination : Py.result unit (* open(destination, 'wb') *)
}.

(** The first argument of [update_progress]: a literal percentage, or the
    float [(downloaded / total_size) * 100], kept as the two integers it is
    computed from. *)
Inductive Percent : Type :=
| Fixed (percent : nat)
| Ratio (downloaded total : nat).

Inductive Event : Type :=
| UpdateProgress (p : Percent)      (* progress_dialog.update_progress *)
| ProcessEvents                     (* QCoreApplication.processEvents() *)
| CancelClicked                     (* DownloadProgressDialog._on_cancel *)
| Written (chunk : bytes)           (* f.write(chunk) *)
| LogError (e : Py.exn)             (* 'Error downloading file: ...' *)
| ProgressDialogClosed
| Unlinked (path : string)          (* os.unlink(temp_file.name) succeeded *)
| DownloadErrorDialog               (* 'Failed to download update.' *)
| UpdateReadyDialog.                (* 'Update downloaded successfully!' *)

(** The disk, the progress dialog and the trace. *)
Record State : Type := {
  disk : gmap string bytes;
  cancelled : bool;                 (* progress_dialog.cancelled *)
  callbacks : nat;                  (* calls of the progress callback so far *)
  events : list Event
}.

Definition emit (evs : list Event) (st : State) : State := {|
  disk := disk st;
  cancelled := cancelled st;
  callbacks := callbacks st;
  events := events st ++ evs
|}.

Section AutoUpdate.

(** The user: [cancel_at = Some n] when the click on Cancel is handled by
    the event loop during the [n]-th call of the progress callback (the
    download runs on the thread of the event loop, which only gets to run
    inside [processEvents]); [None] when Cancel is not clicked while the
    download runs. *)
Variable cancel_at : option nat.

(** The closure [progress_callback] of [_on_auto_update_clicked]. *)
Definition progress_callback (downloaded total : nat) (st : State) : State :=
  let n := S (callbacks st) in
  if cancelled st then
    {| disk := disk st; cancelled := true; callbacks := n;
       events := events st |}
  else
    let click := bool_decide (cancel_at = Some n) in
    {| disk := disk st;
       cancelled := click;
       callbacks := n;
       events := events st ++ [UpdateProgress (Ratio downloaded total); ProcessEvents]
                 ++ (if click then [CancelClicked] else []) |}.

(** [f.write(chunk)] on the file opened at [destination]. *)
Definition write (destination : string) (chunk : bytes) (st : State) : State := {|
  disk := <[destination := default [] (disk st !! destination) ++ chunk]> (disk st);
  cancelled := cancelled st;
  callbacks := callbacks st;
  events := events st ++ [Written chunk]
|}.

(** The loop over [response.iter_content]; yields the state and
    [downloaded]. *)
Fixpoint write_loop (destination : string) (total : nat)
  (stream : list bytes) (downloaded : nat) (st : State) : State * nat :=
  match stream with
  | [] => (st, downloaded)
  | chunk :: rest =>
      match chunk with
      | [] => write_loop destination total rest downloaded st
      | _ :: _ =>
          let st := write destination chunk st in
          let downloaded := (downloaded + length chunk)%nat in
          let st :=
            if (0 <? total)%nat then progress_callback downloaded total st
            else st in
          write_loop destination total rest downloaded st
      end
  end.

(** [download_file_with_progress(url, destination, progress_callback)] *)
Definition download_file_with_progress (env : Environment)
  (destination : string) (st : State) : State * bool :=
  match get env with
  | Py.Raise e => (emit [LogError e] st, false)
  | Py.Ok response =>
      match total_size response with
      | Py.Raise e => (emit [LogError e] st, false)
      | Py.Ok total =>
          match open_destination env with
          | Py.Raise e => (emit [LogError e] st, false)
          | Py.Ok _ =>
              let st :=
                {| disk := <[destination := []]> (disk st);
                   cancelled := cancelled st;
                   callbacks := callbacks st;
                   events := events st |} in
              let '(st, _) := write_loop destination total (chunks response) 0 st in
              match stream_error response with
              | Some e => (emit [LogError e] st, false)
              | None => (st, true)
              end
          end
      end
  end.

(** [os.unlink(path)] inside [try: ... except: pass]. *)
Definition unlink_quietly (path : string) (st : State) : State :=
  match disk st !! path with
  | Some _ =>
      {| disk := delete path (disk st);
         cancelled := cancelled st;
         callbacks := callbacks st;
         events := events st ++ [Unlinked path] |}
  | None => st
  end.

(** How the download part of [_on_auto_update_clicked] ends. *)
Inductive Outcome : Type :=
| ReturnedCancelled   (* the early [return] of the cancelled branch *)
| ReadyToInstall      (* the branch [if success:] *)
| DownloadFailed.     (* the branch that shows 'Failed to download update.' *)

(** The statements of [_on_auto_update_clicked] that follow the call of
    [download_file_with_progress]. *)
Definition after_download (temp_file : string) (st : State) (success : bool)
  : State * Outcome :=
  if cancelled st then
    (unlink_quietly temp_file (emit [ProgressDialogClosed] st),
     ReturnedCancelled)
  else if success then
    (emit [UpdateProgress (Fixed 100); ProcessEvents;
           UpdateProgress (Fixed 10); ProcessEvents;
           UpdateProgress (Fixed 100); ProcessEvents;
           ProgressDialogClosed; UpdateReadyDialog] st, ReadyToInstall)
  else
    (emit [ProgressDialogClosed; DownloadErrorDialog] st, DownloadFailed).

(** [_on_auto_update_clicked] from the creation of the temporary file to
    the branch taken after the download; [temp_file] is the name of the
    file [NamedTemporaryFile(delete=False)] has just created. *)
Definition download_update (env : Environment) (temp_file : string)
  (disk0 : gmap string bytes) : State * Outcome :=
  let st :=
    {| disk := <[temp_file := []]> disk0;
       cancelled := false;
       callbacks := 0;
       events := [UpdateProgress (Fixed 0)] |} in
  let '(st, success) := download_file_with_progress env temp_file st in
  after_download temp_file st success.

End AutoUpdate.

Definition written (t : list Event) : list bytes :=
  omap (fun ev => match ev with Written c => Some c | _ => None end) t.

Definition shown (t : list Event) : list Percent :=
  omap (fun ev => match ev with UpdateProgress p => Some p | _ => None end) t.


End UpdateDialog.

(** ** __main__.py *)

Module Main.

(** Values found in the dict [check_connect_version_update] returns. *)
Inductive value : Type :=
| VNone
| VBool (b : bool)
| VStr (s : string).

(** Truth value of an object in an [if]. *)
Definition truthy (v : value) : bool :=
  match v with
  | VNone => false
  | VBool b => b
  | VStr s => negb (String.eqb s EmptyString)
  end.

(** The command-line switches [main_connect] consults around the update
    check. *)
Record Namespace : Type := {
  skip_version_check : bool;
  silent : bool
}.

Inductive LogRecord : Type :=
| DebugChecking (current_version : string) (* 'Checking for Connect updates ...' *)
| WarningMessage (message : value)         (* logger.warning(update_info['message']) *)
| InfoSilent (message : value)             (* 'Update available but running in silent mode: ...' *)
| DebugMessage (message : value)           (* logger.debug(update_info['message']) *)
| DebugError (e : Py.exn)                  (* 'Error checking for updates: ...' *)
| UpdateDialogShown                        (* show_update_dialog(...) called *)
| WarningDialog (e : Py.exn).              (* 'Error showing update dialog: ...' *)

Section Startup.

(** [from ftrack_connect import __version__], [check_connect_version_update]
    of [ftrack_connect.utils.plugin] and [show_update_dialog]: each returns
    or raises. *)
Variable import_version : Py.result string.
Variable check_connect_version_update : string -> Py.result (gmap string value).
Variable show_update_dialog : gmap string value -> Py.result unit.

(** The body of the [try] block of the update check; it yields the value
    [_pending_update_info] has at its end. *)
Definition check_body (namespace : Namespace)
  : Py.M LogRecord (option (gmap string value)) :=
  Py.then_ (Py.lift import_version) (fun __version__ =>
  Py.seq (Py.tell (DebugChecking __version__))
  (Py.then_ (Py.lift (check_connect_version_update __version__)) (fun update_info =>
   Py.then_ (Py.lift (Py.getitem update_info "has_update")) (fun has_update =>
   if truthy has_update then
     Py.then_ (Py.lift (Py.getitem update_info "message")) (fun message =>
     Py.seq (Py.tell (WarningMessage message))
       (if negb (silent namespace) then Py.ret (Some update_info)
        else
          Py.then_ (Py.lift (Py.getitem update_info "message")) (fun message =>
          Py.seq (Py.tell (InfoSilent message)) (Py.ret None))))
   else
     Py.then_ (Py.lift (Py.getitem update_info "message")) (fun message =>
     Py.seq (Py.tell (DebugMessage message)) (Py.ret None)))))).

(** The update check of [main_connect]: the statement
    [if not namespace.skip_version_check: try: ... except Exception ...].
    [_pending_update_info] is [None] before it and is assigned last in its
    branch, so a block that raises leaves it [None]. *)
Definition update_check (namespace : Namespace)
  : Py.M LogRecord (option (gmap string value)) :=
  if negb (skip_version_check namespace) then
    Py.try_catch (check_body namespace)
      (fun e => Py.seq (Py.tell (DebugError e)) (Py.ret None))
  else Py.ret None.

(** [if _pending_update_info:], the truth value of [None] or of a dict. *)
Definition pending_is_set (pending : option (gmap string value)) : bool :=
  match pending with
  | None => false
  | Some update_info => negb (bool_decide (update_info = ∅))
  end.

(** The statement that shows the update dialog, once the main window
    exists. *)
Definition update_dialog (pending : option (gmap string value))
  : Py.M LogRecord unit :=
  if pending_is_set pending then
    Py.try_catch
      (Py.call UpdateDialogShown
         (show_update_dialog (default ∅ pending)))
      (fun e => Py.tell (WarningDialog e))
  else Py.ret tt.

(** The two statements of [main_connect] that deal with the self-update,
    in the order in which startup reaches them. *)
Definition startup_update (namespace : Namespace) : Py.M LogRecord unit :=
  Py.then_ (update_check namespace) update_dialog.

End Startup.

End Main.

(** * Further functions of the same files *)

(** ** connect_plugin_hook.py: [modify_application_launch] *)

Module Launch.

(** The objects an event is made of, as far as the hook looks at them:
    [None], a [str] or a [dict]. *)
#[warnings="-register-all"]
Inductive value : Type :=
| VNone
| VStr (s : string)
| VDict (d : gmap string value).

Definition type_error : Py.exn := Py.PyException "TypeError".

Definition is_dict (v : value) : bool :=
  match v with
  | VDict _ => true
  | _ => false
  end.

(** [key in v]: a key of a dict, a substring of a str; [None] is not
    iterable. *)
Definition contains (v : value) (key : string) : Py.result bool :=
  match v with
  | VDict d => Py.Ok (match d !! key with Some _ => true | None => false end)
  | VStr s => Py.Ok (PyStr.contains key s)
  | VNone => Py.Raise type_error
  end.

(** [v[key]] with a [str] key. *)
Definition getitem (v : value) (key : string) : Py.result value :=
  match v with
  | VDict d => Py.getitem d key
  | _ => Py.Raise type_error
  end.

(** [v[key] = x]; yields the object after the assignment. *)
Definition setitem (key : string) (x : value) (v : value) : Py.result value :=
  match v with
  | VDict d => Py.Ok (VDict (<[key := x]> d))
  | _ => Py.Raise type_error
  end.

(** [v[k1][k2]...] *)
Fixpoint get_at (path : list string) (v : value) : Py.result value :=
  match path with
  | [] => Py.Ok v
  | key :: rest => x ← getitem v key; get_at rest x
  end.

(** An update in place of the object found at [v[k1][k2]...]: the objects
    on the way are dicts that hold it, so they show the change. *)
Fixpoint update_at (path : list string) (f : value -> Py.result value)
  (v : value) : Py.result value :=
  match path with
  | [] => f v
  | key :: rest =>
      x ← getitem v key; x' ← update_at rest f x; setitem key x' v
  end.

Inductive LogRecord : Type :=
| DebugLaunch                  (* 'Application launch event detected' *)
| DebugApi                     (* 'API/publisher event detected' *)
| InfoModified                 (* 'Connect plugin modified launch hook ...' *)
| ErrorModifying (e : Py.exn)  (* 'Error modifying application launch: ...' *)
| DebugEvent (event : value).  (* 'Event structure: ...' *)

(** A step that reads or changes the event, leaves log records and returns
    or raises; what was changed before a [raise] stays changed. *)
Definition Step (A : Type) : Type := value -> value * Py.M LogRecord A.

Definition unit_step {A : Type} (a : A) : Step A :=
  fun event => (event, Py.ret a).

Definition and_then {A B : Type} (m : Step A) (k : A -> Step B) : Step B :=
  fun event =>
    match m event with
    | (event1, (t1, Py.Ok a)) =>
        match k a event1 with
        | (event2, (t2, r)) => (event2, (t1 ++ t2, r))
        end
    | (event1, (t1, Py.Raise e)) => (event1, (t1, Py.Raise e))
    end.

Definition log (r : LogRecord) : Step unit :=
  fun event => (event, Py.tell r).

(** An expression evaluated on the event. *)
Definition eval {A : Type} (f : value -> Py.result A) : Step A :=
  fun event => (event, Py.lift (f event)).

(** A statement that changes the event, or raises and changes nothing. *)
Definition mutate (f : value -> Py.result value) : Step unit :=
  fun event =>
    match f event with
    | Py.Ok event' => (event', Py.ret tt)
    | Py.Raise e => (event, Py.lift (Py.Raise e))
    end.

Definition when (condition : bool) (body : Step unit) : Step unit :=
  if condition then body else unit_step tt.

(** [try: body except Exception as e: handler(e)] *)
Definition try_except (body : Step unit) (handler : Py.exn -> Step unit)
  : Step unit :=
  fun event =>
    match body event with
    | (event1, (t1, Py.Ok a)) => (event1, (t1, Py.Ok a))
    | (event1, (t1, Py.Raise e)) =>
        match handler e event1 with
        | (event2, (t2, r)) => (event2, (t1 ++ t2, r))
        end
    end.

Section Hook.

(** [os.pathsep] and the module constant [LOCATION_DIRECTORY]. *)
Variable pathsep : string.
Variable LOCATION_DIRECTORY : string.

(** [append_path(path, key, environment)] on an object of any type:
    [environment[key]] raises [KeyError] on a dict without the key and
    [TypeError] on what is not a dict, and [os.pathsep.join] raises
    [TypeError] on a value that is not a [str]. *)
Definition append_path (path key : string) (environment : value)
  : Py.result value :=
  Py.try_except_KeyError
    (old ← getitem environment key;
     joined ← match old with
              | VStr s => Py.Ok (String.concat pathsep [s; path])
              | _ => Py.Raise type_error
              end;
     setitem key (VStr joined) environment)
    (setitem key (VStr path) environment).

(** The body of the [try] block of [modify_application_launch]. *)
Definition launch_body : Step unit :=
  and_then (eval (get_at ["data"])) (fun data =>
  and_then (eval (fun _ => contains data "options"))
    (fun has_options : bool =>
  and_then
    (if has_options
     then and_then (eval (get_at ["data"; "options"]))
            (fun options => unit_step (is_dict options))
     else unit_step false) (fun application_launch : bool =>
  and_then
    (if application_launch then
       and_then (log DebugLaunch) (fun _ =>
       and_then (eval (get_at ["data"; "options"])) (fun options =>
       and_then (eval (fun _ => contains options "env")) (fun has_env =>
       when (negb has_env)
         (mutate (update_at ["data"; "options"] (setitem "env" (VDict ∅)))))))
     else
       and_then (log DebugApi) (fun _ =>
       and_then (eval (fun event => contains event "data")) (fun has_data =>
       and_then
         (when (negb has_data) (mutate (setitem "data" (VDict ∅)))) (fun _ =>
       and_then (eval (get_at ["data"])) (fun data =>
       and_then (eval (fun _ => contains data "options")) (fun has_options =>
       and_then
         (when (negb has_options)
            (mutate (update_at ["data"] (setitem "options" (VDict ∅)))))
         (fun _ =>
       and_then (eval (get_at ["data"; "options"])) (fun options =>
       and_then (eval (fun _ => contains options "env")) (fun has_env =>
       when (negb has_env)
         (mutate (update_at ["data"; "options"] (setitem "env" (VDict ∅)))))))))))))
    (fun _ =>
  and_then (eval (get_at ["data"; "options"; "env"])) (fun _ =>
  and_then
    (mutate (update_at ["data"; "options"; "env"]
               (append_path LOCATION_DIRECTORY "FTRACK_EVENT_PLUGIN_PATH")))
    (fun _ =>
  and_then
    (mutate (update_at ["data"; "options"; "env"]
               (append_path LOCATION_DIRECTORY "PYTHONPATH")))
    (fun _ => log InfoModified))))))).

(** [modify_application_launch(event)]: the event after the call and the
    log. *)
Definition modify_application_launch (event : value)
  : value * Py.M LogRecord unit :=
  try_except launch_body
    (fun e =>
       and_then (log (ErrorModifying e)) (fun _ =>
       and_then (eval (fun event => Py.Ok event)) (fun event =>
       log (DebugEvent event))))
    event.

End Hook.

End Launch.

(** ** plugin_manager/__init__.py: the welcome path *)

Module Welcome.

Import PluginManager.

(** The events of the manager, and what the welcome path adds to them. *)
Inductive Event : Type :=
| Manager (ev : PluginManager.Event)
| WarningNoPlugins                      (* QMessageBox.warning(...) *)
| WelcomeDialogExec (downloadable : nat) (* self._welcome_dialog.exec_() *)
| PluginInstalled (index : nat).        (* on_plugin_installed_callback(i + 1) *)

Section Welcome.

Variable STATUSES : StatusCodes.
Variable process : Item -> Py.result unit.

(** The callback the welcome dialog hands to [_on_install_all_callback]. *)
Variable on_plugin_installed_callback : nat -> Py.result unit.

(** [_on_show_welcome_callback]; the two switches are locals of the
    function, with the same fixed values as in
    [_check_and_run_auto_operations]. *)
Definition _on_show_welcome_callback (answer : StandardButton) (self : PM)
  (downloadable_plugin_count : nat) : PM * list Event :=
  if (downloadable_plugin_count =? 0)%nat then (self, [WarningNoPlugins])
  else
    let auto_install := "true" in
    let auto_update := "true" in
    if enabled auto_install || enabled auto_update then
      let t1 :=
        if enabled auto_install
        then [LogAutoInstalling downloadable_plugin_count] else [] in
      let t2 :=
        if enabled auto_update
        then [LogAutoUpdating (_count_plugin_updates self)] else [] in
      let run :=
        _on_auto_install_update_callback STATUSES process answer self
          (enabled auto_install) (enabled auto_update) in
      (self_after run,
       map Manager (t1 ++ t2 ++ trace run ++ [LogAutoCompleted]))
    else (self, [WelcomeDialogExec downloadable_plugin_count]).

(** The loop of [_on_install_all_callback] from row [i] on. *)
Fixpoint install_loop (items : list Item) (i : nat) : Py.M Event unit :=
  match items with
  | [] => Py.ret tt
  | item :: rest =>
      Py.seq (Py.call (Manager (ProcessCalled item)) (process item))
     (Py.seq (Py.call (PluginInstalled (i + 1))
                (on_plugin_installed_callback (i + 1)))
             (install_loop rest (S i)))
  end.

(** [_on_install_all_callback] *)
Definition _on_install_all_callback (self : PM) : PM * Py.M Event unit :=
  match install_loop (plugin_model self) 0 with
  | (t, Py.Ok _) => (_reset_plugin_list self, (t, Py.Ok tt))
  | (t, Py.Raise e) => (self, (t, Py.Raise e))
  end.

End Welcome.

End Welcome.

(** ** ui/update_dialog.py: the download URL *)

Module PyStrExt.

(** [s.endswith(p)]: some suffix of [s] is [p]. *)
Fixpoint endswith (s p : string) : bool :=
  String.eqb s p ||
  match s with
  | EmptyString => false
  | String _ r => endswith r p
  end.

(** [s.endswith((p1, p2, ...))] *)
Definition endswith_any (s : string) (ps : list string) : bool :=
  existsb (endswith s) ps.

(** [s.replace(old, new)] for a non-empty [old]: the occurrences of [old]
    are found from the left and do not overlap.  [skip] counts the
    characters of the occurrence just found that are still to be passed
    over. *)
Fixpoint replace_from (old new : string) (skip : nat) (s : string) : string :=
  match s with
  | EmptyString => EmptyString
  | String c r =>
      match skip with
      | S k => replace_from old new k r
      | O =>
          if String.prefix old s
          then new +:+ replace_from old new (String.length old - 1) r
          else String c (replace_from old new 0 r)
      end
  end.

Definition replace (old new s : string) : string := replace_from old new 0 s.

(** [s.rstrip(ch)] for a single character [ch]. *)
Fixpoint rstrip_char (ch : ascii) (s : string) : string :=
  match s with
  | EmptyString => EmptyString
  | String c r =>
      match rstrip_char ch r with
      | EmptyString =>
          if Ascii.eqb c ch then EmptyString else String c EmptyString
      | r' => String c r'
      end
  end.

End PyStrExt.

Module DownloadUrl.

Import PyStrExt.

(** What [_get_platform_specific_download_url] reads of
    [self.update_info]: the dict under ['download_urls'] when the key is
    there, and [update_info.get('download_url', '')]. *)
Record UpdateInfo : Type := {
  download_urls : option (gmap string string);
  download_url : string
}.

(** [_get_platform_specific_download_url]; [system] is
    [platform.system().lower()]. *)
Definition _get_platform_specific_download_url (system : string)
  (update_info : UpdateInfo) : option string :=
  let platform_url : option string :=
    match download_urls update_info with
    | Some platform_urls =>
        if String.eqb system "darwin"
           && bool_decide (is_Some (platform_urls !! "macos"))
        then platform_urls !! "macos"
        else if String.eqb system "windows"
                && bool_decide (is_Some (platform_urls !! "windows"))
        then platform_urls !! "windows"
        else if String.eqb system "linux"
                && bool_decide (is_Some (platform_urls !! "linux"))
        then platform_urls !! "linux"
        else None
    | None => None
    end in
  match platform_url with
  | Some url => Some url
  | None =>
      let base_url := download_url update_info in
      if negb (UpdateDialog.nonempty base_url) then None
      else if String.eqb system "windows" then
        if endswith base_url ".dmg"
        then Some (replace ".dmg" ".exe" base_url)
        else
          let base_url :=
            replace "darwin" "windows" (replace "macos" "windows" base_url) in
          if negb (endswith_any base_url [".exe"; ".msi"])
          then Some (rstrip_char "/" base_url +:+ ".exe")
          else Some base_url
      else if String.eqb system "linux" then
        if endswith base_url ".dmg"
        then Some (replace ".dmg" ".tar.gz" base_url)
        else
          let base_url :=
            replace "darwin" "linux" (replace "macos" "linux" base_url) in
          if negb (endswith_any base_url
                     [".tar.gz"; ".deb"; ".rpm"; ".appimage"])
          then Some (rstrip_char "/" base_url +:+ ".tar.gz")
          else Some base_url
      else if String.eqb system "darwin" then
        if negb (endswith base_url ".dmg")
        then Some (rstrip_char "/" base_url +:+ ".dmg")
        else Some base_url
      else Some base_url
  end.

End DownloadUrl.

(** ** __main__.py: the entry point *)

Module EntryPoint.

Definition index_error : Py.exn := Py.PyException "IndexError".
Definition attribute_error : Py.exn := Py.PyException "AttributeError".

Definition standalone_flag : string := "--run-framework-standalone".

(** The locals [framework_standalone_module] and [script] after the loop
    over [enumerate(sys.argv)], [None] being Python's [None].  [args] is
    [sys.argv[index:]], so [sys.argv[index + 1]] is the head of the rest
    and raises [IndexError] when there is none. *)
Fixpoint pre_parse (args : list string) (index : nat)
  : Py.result (option string * option string) :=
  match args with
  | [] => Py.Ok (None, None)
  | arg :: rest =>
      if String.eqb arg standalone_flag then
        match rest with
        | next :: _ => Py.Ok (Some next, None)
        | [] => Py.Raise index_error
        end
      else if (index =? 1)%nat && PyStrExt.endswith arg ".py" then
        Py.Ok (None, Some arg)
      else pre_parse rest (S index)
  end.

(** Truth value of a local that is [None] or a [str]. *)
Definition truthy (v : option string) : bool :=
  match v with
  | Some s => UpdateDialog.nonempty s
  | None => false
  end.

(** [sys.path]; the entry [None] is Python's [None]. *)
Definition SysPath : Type := list (option string).

Definition in_path (path : string) (sys_path : SysPath) : bool :=
  existsb (fun entry => bool_decide (entry = Some path)) sys_path.

(** The loop over the entries of [PYTHONPATH]; yields [dependencies_path]
    and [sys.path]. *)
Definition bootstrap_loop (entries : list string)
  (dependencies_path : option string) (sys_path : SysPath)
  : option string * SysPath :=
  fold_left
    (fun '(dependencies_path, sys_path) path =>
       if PyStr.contains "dependencies" path then (Some path, sys_path)
       else if negb (in_path path sys_path)
       then (dependencies_path, sys_path ++ [Some path])
       else (dependencies_path, sys_path))
    entries (dependencies_path, sys_path).

(** How [main] ends: the call it makes last, and [sys.path] at that
    point where it has been changed. *)
Inductive Outcome : Type :=
| ImportModule (module : string) (sys_path : SysPath)
| ExecScript (script : string)     (* exec(...) and then SystemExit *)
| MainConnect.                     (* return main_connect(arguments) *)

Section Main.

(** [os.pathsep] *)
Variable pathsep : ascii.

(** [main]; [pythonpath] is [os.environ.get('PYTHONPATH')], [None] when
    the variable is not set. *)
Definition main (argv : list string) (pythonpath : option string)
  (sys_path : SysPath) : Py.result Outcome :=
  '(framework_standalone_module, script) ← pre_parse argv 0;
  if truthy framework_standalone_module then
    match framework_standalone_module, pythonpath with
    | Some module, Some value =>
        let '(dependencies_path, sys_path) :=
          bootstrap_loop (PyStr.split_char pathsep value) None sys_path in
        Py.Ok (ImportModule module (dependencies_path :: sys_path))
    | _, _ => Py.Raise attribute_error   (* [].split *)
    end
  else if truthy script then
    match script with
    | Some script => Py.Ok (ExecScript script)
    | None => Py.Ok MainConnect
    end
  else Py.Ok MainConnect.

End Main.

End EntryPoint.

(** ** ui/update_dialog.py: how the automatic update starts and ends *)

Module AutoUpdateStart.

Import DownloadUrl.

(** How [_on_auto_update_clicked] leaves its first part. *)
Inductive Start : Type :=
| ManualDownload                  (* no ['download_url']: manual download *)
| ManualDownloadBehindProgress    (* progress dialog shown, then manual download *)
| Download (download_url : string).

(** [_on_auto_update_clicked] up to the creation of the temporary file. *)
Definition start (system : string) (update_info : UpdateInfo) : Start :=
  if negb (UpdateDialog.nonempty (download_url update_info)) then ManualDownload
  else
    match _get_platform_specific_download_url system update_info with
    | Some url =>
        if negb (UpdateDialog.nonempty url) then ManualDownloadBehindProgress
        else Download url
    | None => ManualDownloadBehindProgress
    end.

End AutoUpdateStart.

Module DeferredInstall.

Inductive Event : Type :=
| CreateScript (suffix : string)       (* tempfile.NamedTemporaryFile(...) *)
| WriteScript (system installer_path : string)  (* script_file.write(...) *)
| CloseScript
| Chmod (script : string)              (* os.chmod(script_file.name, 0o755) *)
| Popen (args : list string)           (* subprocess.Popen(args, ...) *)
| Run (args : list string)             (* subprocess.run(args) *)
| LogStarted (script : string)
| LogUnsupported (system : string)     (* logger.warning *)
| LogError (e : Py.exn)                (* 'Error starting deferred installation' *)
| LogCannotOpen (system : string).     (* logger.error in the fallback *)

Definition unsupported (system : string) : Py.exn :=
  Py.PyException ("Unsupported platform: " +:+ system).

Section Install.

(** The operating system as the function meets it: every call returns or
    raises. *)
Variable create_script : string -> Py.result string.
Variable write_script : Py.result unit.
Variable close_script : Py.result unit.
Variable chmod : string -> Py.result unit.
Variable popen : list string -> Py.result unit.
Variable run : list string -> Py.result unit.

(** The branch of a system that runs its script through [bash]. *)
Definition bash_script (system installer_path : string)
  : Py.M Event unit :=
  Py.then_ (Py.call (CreateScript ".sh") (create_script ".sh"))
    (fun script =>
  Py.seq (Py.call (WriteScript system installer_path) write_script)
 (Py.seq (Py.call CloseScript close_script)
 (Py.seq (Py.call (Chmod script) (chmod script))
 (Py.seq (Py.call (Popen ["bash"; script]) (popen ["bash"; script]))
         (Py.tell (LogStarted script)))))).

(** [_start_deferred_installation]; [system] is
    [platform.system().lower()]. *)
Definition _start_deferred_installation (system installer_path : string)
  : Py.M Event unit :=
  Py.try_catch
    (if String.eqb system "darwin" then bash_script system installer_path
     else if String.eqb system "windows" then
       Py.then_ (Py.call (CreateScript ".bat") (create_script ".bat"))
         (fun script =>
       Py.seq (Py.call (WriteScript system installer_path) write_script)
      (Py.seq (Py.call CloseScript close_script)
      (Py.seq (Py.call (Popen [script]) (popen [script]))
              (Py.tell (LogStarted script)))))
     else if String.eqb system "linux" then bash_script system installer_path
     else
       Py.seq (Py.tell (LogUnsupported system))
              (Py.lift (Py.Raise (unsupported system))))
    (fun e =>
       Py.seq (Py.tell (LogError e))
         (if String.eqb system "darwin"
          then Py.call (Run ["open"; installer_path])
                 (run ["open"; installer_path])
          else if String.eqb system "windows"
          then Py.call (Run ["start"; EmptyString; installer_path])
                 (run ["start"; EmptyString; installer_path])
          else if String.eqb system "linux"
          then Py.call (Run ["xdg-open"; installer_path])
                 (run ["xdg-open"; installer_path])
          else Py.tell (LogCannotOpen system))).

End Install.

End DeferredInstall.

(** * Observations

    What the properties below read off a trace or a state, the words of
    the specification as definitions, and the sample data the properties
    are tried on. *)

Section ManagerObservations.

Import PluginManager.

(** The rows both loops pick. *)
Definition selected (STATUSES : StatusCodes) (do_install do_update : bool)
  (it : Item) : bool :=
  ((PLUGIN_STATUS it =? NEW STATUSES)%Z && do_install)
  || ((PLUGIN_STATUS it =? UPDATE STATUSES)%Z && do_update)
  || ((PLUGIN_STATUS it =? DOWNLOAD STATUSES)%Z && do_install).

(** Something in the model is NEW, UPDATE or DOWNLOAD. *)
Definition has_work (STATUSES : StatusCodes) (f : Fetched) : bool :=
  existsb (selected STATUSES true true) (rows f).



(** What one round of the automatic loop leaves in the trace. *)
Definition round_events (process : Item -> Py.result unit) (total : nat)
  (e : Entry) (index : nat) : list Event :=
  LogProcessing e index total :: ProcessCalled (item e) ::
  match process (item e) with
  | Py.Ok _ => [Progress index total (action e) (progress_info e)]
  | Py.Raise error => [LogFailed e error]
  end.



Definition is_ConflictPrompt (ev : Event) : bool :=
  match ev with
  | ConflictPrompt _ _ => true
  | _ => false
  end.

(** The list [apply_changes] was emitted with, if it was emitted. *)
Definition emitted (t : list Event) : option (list string) :=
  head (omap (fun ev => match ev with
                        | ApplyChanges archive => Some archive
                        | _ => None
                        end) t).

(** Some installed plugin is marked incompatible or deprecated. *)
Definition has_conflict (self : PM) : bool :=
  existsb (fun plugin => incompatible plugin || deprecated plugin)
    (_installed_plugins self).

Definition incompatible_names (self : PM) : list string :=
  map name (List.filter incompatible (_installed_plugins self)).

Definition deprecated_names (self : PM) : list string :=
  map name (List.filter deprecated (_installed_plugins self)).

(** What one answer contributes to the archive list. *)
Definition archived (names : list string) (answer : StandardButton)
  : list string :=
  match answer with
  | Yes => names
  | No | Cancel => []
  end.

(** The user cancels at a message box that is shown. *)
Definition cancels (names : list string) (answer : StandardButton) : bool :=
  match names, answer with
  | _ :: _, Cancel => true
  | _, _ => false
  end.

End ManagerObservations.

Section DownloadObservations.

Import UpdateDialog.








End DownloadObservations.

Section TextObservations.

Import PyStr UpdateDialog.

(** The text has no line feed. *)
Fixpoint no_lf (s : string) : bool :=
  match s with
  | EmptyString => true
  | String c r => negb (Ascii.eqb c LF) && no_lf r
  end.





End TextObservations.

Section VersionObservations.

Import Packaging.

(** Trailing zeros removed, by recursion from the front. *)
Fixpoint trim (release : list N) : list N :=
  match release with
  | [] => []
  | x :: r =>
      match trim r with
      | [] => if (x =? 0)%N then [] else [x]
      | r' => x :: r'
      end
  end.

End VersionObservations.

(** What the comparator relies on from [packaging]: a dotted numeric
    version parses, and two of them compare by their release tuples as
    [_cmpkey] prepares them. *)
Definition packaging_orders_releases {Version : Type}
  (parse_version : string -> Py.result Version)
  (version_gt : Version -> Version -> bool) : Prop :=
  forall (a i : string) (release_a release_i : list N),
    Packaging.dotted_numeric a = Some release_a ->
    Packaging.dotted_numeric i = Some release_i ->
    exists va vi : Version,
      parse_version a = Py.Ok va
      /\ parse_version i = Py.Ok vi
      /\ version_gt va vi
         = Packaging.tuple_gt (Packaging.cmpkey_release release_a)
             (Packaging.cmpkey_release release_i).

(** ** Sample data *)

(** Status codes with [UPDATE = 2], the value [_count_plugin_updates]
    spells out. *)
Definition sample_statuses : PluginManager.StatusCodes :=
  {| PluginManager.NEW := 1;
     PluginManager.UPDATE := 2;
     PluginManager.DOWNLOAD := 4 |}.

Definition sample_row (plugin version : string) (status : Z)
  : PluginManager.Item :=
  {| PluginManager.PLUGIN_NAME := plugin;
     PluginManager.PLUGIN_VERSION := version;
     PluginManager.PLUGIN_STATUS := status;
     PluginManager.checked := true |}.

Definition row_a : PluginManager.Item := sample_row "plugin-a" "1.0.0" 1.
Definition row_b : PluginManager.Item := sample_row "plugin-b" "2.1.0" 1.

(** A manager whose model holds the two rows, both checked. *)
Definition two_rows : PluginManager.PM :=
  PluginManager.populate
    {| PluginManager.plugins := [];
       PluginManager.rows := [row_a; row_b];
       PluginManager.installed_in_widget := 0;
       PluginManager.downloadable := 2 |}
    PluginManager.init.

Definition disk_full : Py.exn := Py.PyException "No space left on device".

(** A processor that fails on the plugin of the given name. *)
Definition fails_on (plugin : string) (it : PluginManager.Item)
  : Py.result unit :=
  if String.eqb (PluginManager.PLUGIN_NAME it) plugin
  then Py.Raise disk_full else Py.Ok tt.

Definition succeeds {A : Type} (_ : A) : Py.result unit := Py.Ok tt.

(** A refresh pass that finds one plugin new, the user declining the
    restart. *)
Definition pass_with_new_plugin (d : PluginManager.Delivery)
  (row : PluginManager.Item) : PluginManager.Pass :=
  {| PluginManager.delivery := d;
     PluginManager.fetched :=
       {| PluginManager.plugins := [];
          PluginManager.rows := [row];
          PluginManager.installed_in_widget := 0;
          PluginManager.downloadable := 1 |};
     PluginManager.restart_answer := PluginManager.No;
     PluginManager.disable_startup_widget := false |}.

Definition three_chunks : UpdateDialog.Response :=
  {| UpdateDialog.total_size := Py.Ok 3;
     UpdateDialog.chunks := [[Byte.x01]; [Byte.x02]; [Byte.x03]];
     UpdateDialog.stream_error := None |}.

Definition online : UpdateDialog.Environment :=
  {| UpdateDialog.get := Py.Ok three_chunks;
     UpdateDialog.open_destination := Py.Ok tt |}.

Definition temp_dmg : string := "/tmp/ftrack-connect-24.5.0-x1.dmg".

Definition parse_dotted (text : string) : Py.result (list N) :=
  match Packaging.dotted_numeric text with
  | Some release => Py.Ok release
  | None => Py.Raise (Py.InvalidVersion text)
  end.

Definition release_gt (a b : list N) : bool :=
  Packaging.tuple_gt (Packaging.cmpkey_release a) (Packaging.cmpkey_release b).




(** A manager with one installed plugin, marked incompatible. *)
Definition with_incompatible_plugin : PluginManager.PM :=
  PluginManager.populate
    {| PluginManager.plugins :=
         [{| PluginManager.name := "pluginA";
             PluginManager.version := Some "1.0.0";
             PluginManager.incompatible := true;
             PluginManager.deprecated := false |}];
       PluginManager.rows := [row_b];
       PluginManager.installed_in_widget := 1;
       PluginManager.downloadable := 1 |}
    PluginManager.init.

Definition keep (_ : PluginManager.ConflictKind) : PluginManager.StandardButton :=
  PluginManager.No.

Definition connection_refused : Py.exn := Py.PyException "Connection refused".

Definition unreachable_feed (_ : string) : Py.result (gmap string Main.value) :=
  Py.Raise connection_refused.

Definition interactive : Main.Namespace :=
  {| Main.skip_version_check := false; Main.silent := false |}.

Section WelcomeObservations.

Import PluginManager.

Definition is_ShowWelcome (ev : PluginManager.Event) : bool :=
  match ev with
  | ShowWelcome _ => true
  | _ => false
  end.

(** [show_welcome] has been emitted. *)
Definition welcomed (t : list PluginManager.Event) : bool :=
  existsb is_ShowWelcome t.

(** The manager's events within a trace of the welcome path. *)
Definition manager_events (t : list Welcome.Event) : list PluginManager.Event :=
  omap (fun ev => match ev with Welcome.Manager ev => Some ev | _ => None end) t.

(** The arguments [on_plugin_installed_callback] was called with. *)
Definition installed_indices (t : list Welcome.Event) : list nat :=
  omap (fun ev => match ev with
                  | Welcome.PluginInstalled index => Some index
                  | _ => None
                  end) t.

Definition is_WelcomeDialogExec (ev : Welcome.Event) : bool :=
  match ev with
  | Welcome.WelcomeDialogExec _ => true
  | _ => false
  end.



End WelcomeObservations.

Section StreamObservations.

Import UpdateDialog.

(** The values [downloaded] takes after each chunk that carries data. *)
Fixpoint running_totals (downloaded : nat) (stream : list bytes) : list nat :=
  match stream with
  | [] => []
  | chunk :: rest =>
      match chunk with
      | [] => running_totals downloaded rest
      | _ :: _ =>
          (downloaded + length chunk)%nat
          :: running_totals (downloaded + length chunk)%nat rest
      end
  end.

Definition is_Unlinked (ev : Event) : bool :=
  match ev with
  | Unlinked _ => true
  | _ => false
  end.

End StreamObservations.

Section UrlObservations.

(** The key of [download_urls] the code consults for a system. *)
Definition platform_key (system : string) : option string :=
  if String.eqb system "darwin" then Some "macos"
  else if String.eqb system "windows" then Some "windows"
  else if String.eqb system "linux" then Some "linux"
  else None.

(** The installer extensions the fallback accepts for a system; [None]
    for a system the fallback does not know. *)
Definition installer_extensions (system : string) : option (list string) :=
  if String.eqb system "windows" then Some [".exe"; ".msi"]
  else if String.eqb system "linux"
  then Some [".tar.gz"; ".deb"; ".rpm"; ".appimage"]
  else if String.eqb system "darwin" then Some [".dmg"]
  else None.

End UrlObservations.

Section UrlEntryObservations.

(** The entry of [download_urls] for a system, if there is one. *)
Definition platform_entry (system : string)
  (update_info : DownloadUrl.UpdateInfo) : option string :=
  match DownloadUrl.download_urls update_info, platform_key system with
  | Some platform_urls, Some key => platform_urls !! key
  | _, _ => None
  end.

End UrlEntryObservations.

Section EntryObservations.

Import EntryPoint.

(** No argument before the flag ends the scan: none is the flag, and the
    one at index 1, if there is one, does not end with [.py]. *)
Definition scan_passes (before : list string) : Prop :=
  Forall (fun arg => arg <> standalone_flag) before
  /\ forall arg, before !! 1 = Some arg -> PyStrExt.endswith arg ".py" = false.

Definition is_dependencies (path : string) : bool :=
  PyStr.contains "dependencies" path.

End EntryObservations.

Section InstallObservations.

Import DeferredInstall.

Definition is_Popen (ev : Event) : bool :=
  match ev with
  | Popen _ => true
  | _ => false
  end.

Definition is_Run (ev : Event) : bool :=
  match ev with
  | Run _ => true
  | _ => false
  end.

(** Number of times the waiting script was started. *)
Definition scripts_started (t : list Event) : nat :=
  length (List.filter is_Popen t).

(** Number of times the installer was handed to the system directly. *)
Definition installers_opened (t : list Event) : nat :=
  length (List.filter is_Run t).

(** The script was started and the start did not fail. *)
Definition script_runs (popen : list string -> Py.result unit)
  (t : list Event) : bool :=
  existsb (fun ev => match ev with
                     | Popen args =>
                         match popen args with
                         | Py.Ok _ => true
                         | Py.Raise _ => false
                         end
                     | _ => false
                     end) t.

Definition supported (system : string) : bool :=
  String.eqb system "darwin" || String.eqb system "windows"
  || String.eqb system "linux".

End InstallObservations.

Section LaunchObservations.

Import Launch.

Variable pathsep : string.
Variable LOCATION_DIRECTORY : string.

(** The event holds a dict [data], that a dict [options], that an object
    [environment] under ["env"]. *)
Definition launch_event (event data options : gmap string value)
  (environment : value) : Prop :=
  event !! "data" = Some (VDict data)
  /\ data !! "options" = Some (VDict options)
  /\ options !! "env" = Some environment.

(** The event with the object under ["env"] replaced. *)
Definition with_env (event data options : gmap string value)
  (environment : value) : gmap string value :=
  <["data" := VDict (<["options" := VDict (<["env" := environment]> options)]>
                       data)]> event.

(** The last three statements of the [try] block, on an event that holds
    an environment. *)
Definition append_both : Step unit :=
  and_then (eval (get_at ["data"; "options"; "env"])) (fun _ =>
  and_then
    (mutate (update_at ["data"; "options"; "env"]
               (append_path pathsep LOCATION_DIRECTORY
                  "FTRACK_EVENT_PLUGIN_PATH")))
    (fun _ =>
  and_then
    (mutate (update_at ["data"; "options"; "env"]
               (append_path pathsep LOCATION_DIRECTORY "PYTHONPATH")))
    (fun _ => log InfoModified))).

(** An event the hook cannot use: no ["data"], a ["data"] that is not a
    dict, or ["options"] present and not a dict. *)
Definition malformed (event : gmap string value) : Prop :=
  event !! "data" = None
  \/ (exists v, event !! "data" = Some v /\ is_dict v = false)
  \/ (exists data v,
        event !! "data" = Some (VDict data)
        /\ data !! "options" = Some v /\ is_dict v = false).

End LaunchObservations.

(** ** Further sample data *)

Definition sample_env : gmap string string :=
  {["PYTHONPATH" := "/usr/lib/python"]}.

Definition sample_options : gmap string Launch.value :=
  {["env" := Launch.VDict (Launch.VStr <$> sample_env)]}.

Definition sample_data : gmap string Launch.value :=
  {["options" := Launch.VDict sample_options]}.

(** An application launch event as Connect sends it. *)
Definition sample_launch : gmap string Launch.value :=
  {["data" := Launch.VDict sample_data]}.

(** An event of the API: [data] without [options]. *)
Definition sample_api_event : gmap string Launch.value :=
  {["data" := Launch.VDict {["selection" := Launch.VNone]}]}.

(** An environment whose [PYTHONPATH] is [None]. *)
Definition odd_env : gmap string Launch.value :=
  {["PYTHONPATH" := Launch.VNone]}.

Definition odd_options : gmap string Launch.value :=
  {["env" := Launch.VDict odd_env]}.

Definition odd_data : gmap string Launch.value :=
  {["options" := Launch.VDict odd_options]}.

Definition odd_launch : gmap string Launch.value :=
  {["data" := Launch.VDict odd_data]}.

Definition location : string := "/plugins/location".

(** The state a download starts from. *)
Definition idle : UpdateDialog.State :=
  {| UpdateDialog.disk := ∅;
     UpdateDialog.cancelled := false;
     UpdateDialog.callbacks := 0;
     UpdateDialog.events := [] |}.

(** A stream that breaks off after two chunks. *)
Definition broken_stream : UpdateDialog.Response :=
  {| UpdateDialog.total_size := Py.Ok 3;
     UpdateDialog.chunks := [[Byte.x01]; [Byte.x02]];
     UpdateDialog.stream_error := Some connection_refused |}.

Definition flaky : UpdateDialog.Environment :=
  {| UpdateDialog.get := Py.Ok broken_stream;
     UpdateDialog.open_destination := Py.Ok tt |}.



Definition with_macos_url : DownloadUrl.UpdateInfo :=
  {| DownloadUrl.download_urls :=
       Some {["macos" := "https://example.com/connect-24.5.0.dmg"]};
     DownloadUrl.download_url := "https://example.com/connect" |}.

Definition with_dmg_url : DownloadUrl.UpdateInfo :=
  {| DownloadUrl.download_urls := None;
     DownloadUrl.download_url := "https://example.com/connect-24.5.0.dmg" |}.

(** * Properties *)

(** ** The launch hook *)

(** C9.  [append_path(p, k, env)] returns the mapping with [env[k]] set to
    [p] when [k] was absent and to the previous value joined with [p] by
    [os.pathsep] when it was present; every other key keeps its binding. *)
Theorem append_path_frame (pathsep p k : string) (env : gmap string string) :
  exists env' : gmap string string,
    Hook.append_path pathsep p k env = Py.Ok env'
    /\ env' !! k = Some (match env !! k with
                         | None => p
                         | Some old => old +:+ pathsep +:+ p
                         end)
    /\ (forall k' : string, k' <> k -> env' !! k' = env !! k').
Proof.
  unfold Hook.append_path, Py.getitem.
  destruct (env !! k) as [old|] eqn:Hk; simpl.
  - exists (<[k := old +:+ pathsep +:+ p]> env). split; [reflexivity|]. split.
    + apply lookup_insert_eq.
    + intros k' Hne. apply lookup_insert_ne. congruence.
  - exists (<[k := p]> env). split; [reflexivity|]. split.
    + apply lookup_insert_eq.
    + intros k' Hne. apply lookup_insert_ne. congruence.
Qed.

(** ** Counting and selecting the plugins to process *)

Section Selection.

Import PluginManager.

Variable STATUSES : StatusCodes.
Variables do_install do_update : bool.

Lemma count_loop_invariant (installed : list InstalledPlugin)
  (items : list Item) (acc : list Entry) (self : PM) :
  _installed_plugins self = installed ->
  let step_entries := fun (plugins_to_process : list Entry) (item : Item) =>
       let status := PLUGIN_STATUS item in
       let plugin_name := PLUGIN_NAME item in
       let available_version := PLUGIN_VERSION item in
       let version_info := "v" +:+ available_version in
       if (status =? NEW STATUSES)%Z && do_install then
         plugins_to_process ++ [Build_Entry item "Installing" plugin_name version_info]
       else if (status =? UPDATE STATUSES)%Z && do_update then
         let version_info :=
           update_version_info (_installed_plugins self) plugin_name
             available_version version_info in
         plugins_to_process ++ [Build_Entry item "Updating" plugin_name version_info]
       else if (status =? DOWNLOAD STATUSES)%Z then
         if do_install then
           plugins_to_process ++ [Build_Entry item "Installing" plugin_name version_info]
         else plugins_to_process
       else plugins_to_process in
  let step_count := fun (count : nat) (item : Item) =>
       let status := PLUGIN_STATUS item in
       if (status =? NEW STATUSES)%Z && do_install then S count
       else if (status =? UPDATE STATUSES)%Z && do_update then S count
       else if (status =? DOWNLOAD STATUSES)%Z then
         if do_install then S count else count
       else count in
  length (fold_left step_entries items acc)
  = fold_left step_count items (length acc)
  /\ map item (fold_left step_entries items acc)
     = map item acc ++ List.filter (selected STATUSES do_install do_update) items.
Proof.
  intros _ step_entries step_count. revert acc.
  induction items as [|it items IH]; intros acc; simpl.
  - split; [reflexivity|]. now rewrite app_nil_r.
  - destruct (IH (step_entries acc it)) as [IHlen IHmap].
    rewrite IHlen, IHmap. clear IH IHlen IHmap.
    unfold step_entries, step_count, selected; simpl.
    destruct (PLUGIN_STATUS it =? NEW STATUSES)%Z,
             (PLUGIN_STATUS it =? UPDATE STATUSES)%Z,
             (PLUGIN_STATUS it =? DOWNLOAD STATUSES)%Z,
             do_install, do_update; simpl;
      rewrite ?length_app, ?map_app, <- ?app_assoc; simpl;
      (split; [f_equal; lia | reflexivity]).
Qed.

Lemma entries_selected (self : PM) :
  map item (plugins_to_process STATUSES self do_install do_update)
  = List.filter (selected STATUSES do_install do_update) (plugin_model self).
Proof.
  pose proof (count_loop_invariant (_installed_plugins self)
                (plugin_model self) [] self eq_refl) as H.
  cbv zeta in H. destruct H as [_ Hmap]. exact Hmap.
Qed.

Lemma count_selected (self : PM) :
  _count_plugins_to_process STATUSES self do_install do_update
  = length (List.filter (selected STATUSES do_install do_update) (plugin_model self)).
Proof.
  pose proof (count_loop_invariant (_installed_plugins self)
                (plugin_model self) [] self eq_refl) as H.
  cbv zeta in H. destruct H as [Hlen Hmap].
  apply (f_equal (@length Item)) in Hmap. rewrite length_map in Hmap.
  etransitivity; [symmetry; exact Hlen | exact Hmap].
Qed.

End Selection.

(** C10.  The count [_count_plugins_to_process] returns is the length of the
    list [_on_auto_install_update_callback] builds from the same model under
    the same flags, and both pick the same rows: the NEW ones when
    [do_install], the UPDATE ones when [do_update], the DOWNLOAD ones when
    [do_install]. *)
Theorem count_is_length_of_plugins_to_process
  (STATUSES : PluginManager.StatusCodes) (self : PluginManager.PM)
  (do_install do_update : bool) :
  PluginManager._count_plugins_to_process STATUSES self do_install do_update
  = length (PluginManager.plugins_to_process STATUSES self do_install do_update)
  /\ map PluginManager.item
       (PluginManager.plugins_to_process STATUSES self do_install do_update)
     = List.filter (selected STATUSES do_install do_update)
         (PluginManager.plugin_model self).
Proof.
  split.
  - rewrite count_selected, <- entries_selected. now rewrite length_map.
  - apply entries_selected.
Qed.

(** ** Batches *)

Section Batches.

Import PluginManager.

Variable STATUSES : StatusCodes.
Variable process : Item -> Py.result unit.
Variable archive_legacy_plugin : string -> Py.result unit.
Variable track_usage : list Item -> Py.result unit.

Lemma process_entry_round (total : nat) (e : Entry) (index : nat) :
  process_entry process total e index
  = (round_events process total e index, Py.Ok tt).
Proof.
  unfold process_entry, round_events, Py.try_catch, Py.seq, Py.then_,
    Py.call, Py.tell.
  simpl. destruct (process (item e)) as [[]|error]; reflexivity.
Qed.


Lemma attempted_app (t1 t2 : list Event) :
  attempted (t1 ++ t2) = attempted t1 ++ attempted t2.
Proof. unfold attempted. apply omap_app. Qed.

Lemma attempted_round (total : nat) (e : Entry) (index : nat) :
  attempted (round_events process total e index) = [item e].
Proof.
  unfold round_events. destruct (process (item e)); reflexivity.
Qed.

Lemma process_loop_attempted (total : nat) (entries : list Entry) (n : nat) :
  attempted (snd (process_loop process total entries n)) = map item entries.
Proof.
  revert n. induction entries as [|e entries IH]; intros n.
  - reflexivity.
  - cbn [process_loop]. rewrite process_entry_round. specialize (IH (S n)).
    destruct (process_loop process total entries (S n)) as [m t].
    cbn [fst snd] in *.
    rewrite attempted_app, attempted_round, IH. reflexivity.
Qed.






End Batches.





(** ** The gate of the automatic processing *)

Section Gate.

Import PluginManager.

Variable STATUSES : StatusCodes.
Variable process : Item -> Py.result unit.

Lemma count_positive (f : Fetched) (self : PM) :
  has_work STATUSES f = true ->
  (0 <? _count_plugins_to_process STATUSES (populate f self) true true)%nat
  = true.
Proof.
  intros Hwork. apply Nat.ltb_lt. rewrite count_selected.
  cbn [plugin_model populate]. unfold has_work in Hwork.
  apply existsb_exists in Hwork.
  destruct Hwork as (it & Hin & Hsel).
  assert (Hin' : In it (List.filter (selected STATUSES true true) (rows f)))
    by (apply filter_In; auto).
  destruct (List.filter (selected STATUSES true true) (rows f));
    [destruct Hin' | simpl; lia].
Qed.

Lemma open_gate_runs (answer : StandardButton) (f : Fetched) (self : PM) :
  _initialised self = false ->
  has_work STATUSES f = true ->
  auto_processing_ran
    (snd (_check_and_run_auto_operations STATUSES process answer
            (populate f self))) = true
  /\ _initialised
       (fst (_check_and_run_auto_operations STATUSES process answer
               (populate f self))) = true.
Proof.
  intros Hopen Hwork. unfold _check_and_run_auto_operations.
  cbn [_initialised populate]. rewrite Hopen.
  change (enabled auto_install) with true.
  change (enabled auto_update) with true. cbn [orb].
  rewrite (count_positive f self Hwork).
  cbn [fst snd set_initialised _initialised]. split; [|reflexivity].
  unfold auto_processing_ran. cbn. reflexivity.
Qed.

Lemma callback_with_open_gate (answer : StandardButton) (disable : bool)
  (f : Fetched) (self : PM) :
  _initialised self = false ->
  has_work STATUSES f = true ->
  auto_processing_ran
    (snd (_on_plugin_fetch_callback STATUSES process answer disable f self))
  = true
  /\ _initialised
       (fst (_on_plugin_fetch_callback STATUSES process answer disable f self))
     = true.
Proof.
  intros Hopen Hwork. unfold _on_plugin_fetch_callback.
  destruct (open_gate_runs answer f self Hopen Hwork) as [Hran Hset].
  destruct (_check_and_run_auto_operations STATUSES process answer
              (populate f self)) as [self' t].
  cbn [fst snd] in *. rewrite Hset. cbn. auto.
Qed.

Lemma refresh_tail_reopens (self : PM) :
  _initialised (fst (refresh_tail self)) = false
  /\ snd (refresh_tail self) = [RefreshDone].
Proof. split; reflexivity. Qed.

Lemma ran_app (t1 t2 : list Event) :
  auto_processing_ran (t1 ++ t2)
  = auto_processing_ran t1 || auto_processing_ran t2.
Proof. unfold auto_processing_ran. apply existsb_app. Qed.

(** One pass whose plugin model holds work runs the processing when it
    finds the gate open, and a direct pass leaves the gate open again. *)
Lemma refresh_runs (p : Pass) (self : PM) :
  (delivery p = Direct -> _initialised self = false) ->
  has_work STATUSES (fetched p) = true ->
  auto_processing_ran (snd (refresh STATUSES process p self)) = true
  /\ (delivery p = Direct ->
      _initialised (fst (refresh STATUSES process p self)) = false).
Proof.
  intros Hopen Hwork. unfold refresh.
  destruct (delivery p) eqn:Hd.
  - destruct (callback_with_open_gate (restart_answer p)
                (disable_startup_widget p) (fetched p) self
                (Hopen eq_refl) Hwork) as [Hran _].
    destruct (_on_plugin_fetch_callback STATUSES process (restart_answer p)
                (disable_startup_widget p) (fetched p) self) as [self1 t1].
    cbn [fst snd] in *.
    destruct (refresh_tail_reopens self1) as [Hre Htail].
    destruct (refresh_tail self1) as [self2 t2]. cbn [fst snd] in *.
    split; [|auto].
    change (auto_processing_ran (RefreshStarted :: FetchPlugins :: t1 ++ t2))
      with (auto_processing_ran (t1 ++ t2)).
    rewrite ran_app, Hran. reflexivity.
  - destruct (refresh_tail_reopens self) as [Hre Htail].
    destruct (refresh_tail self) as [self1 t2]. cbn [fst snd] in *.
    destruct (callback_with_open_gate (restart_answer p)
                (disable_startup_widget p) (fetched p) self1 Hre Hwork)
      as [Hran _].
    destruct (_on_plugin_fetch_callback STATUSES process (restart_answer p)
                (disable_startup_widget p) (fetched p) self1) as [self2 t1].
    cbn [fst snd] in *. split; [|discriminate].
    change (auto_processing_ran (RefreshStarted :: FetchPlugins :: t2 ++ t1))
      with (auto_processing_ran (t2 ++ t1)).
    rewrite ran_app, Hran. apply orb_true_r.
Qed.

Lemma session_runs_every_pass (d : Delivery) (passes : list Pass) (self : PM) :
  (d = Direct -> _initialised self = false) ->
  Forall (fun p => delivery p = d /\ has_work STATUSES (fetched p) = true)
    passes ->
  auto_processing_passes (snd (session STATUSES process passes self))
  = length passes.
Proof.
  intros Hopen Hall. revert self Hopen.
  induction Hall as [|p passes [Hd Hwork] _ IH]; intros self Hopen.
  - reflexivity.
  - cbn [session].
    assert (Hopen' : delivery p = Direct -> _initialised self = false)
      by (intros Hp; apply Hopen; congruence).
    destruct (refresh_runs p self Hopen' Hwork) as [Hran Hnext].
    destruct (refresh STATUSES process p self) as [self1 t].
    cbn [fst snd] in *.
    assert (Hopen1 : d = Direct -> _initialised self1 = false)
      by (intros Hp; apply Hnext; congruence).
    specialize (IH self1 Hopen1).
    destruct (session STATUSES process passes self1) as [self2 ts].
    cbn [fst snd] in *. unfold auto_processing_passes in *.
    cbn [List.filter]. rewrite filter_cons_True by exact Hran.
    cbn [length]. now rewrite IH.
Qed.

End Gate.

(** C1 (the code does otherwise).  The gate does not hold for the lifetime
    of the process: [refresh] ends with [self._initialised = False], so in
    a session of refresh passes, all delivered the same way, every pass
    whose model holds a NEW, UPDATE or DOWNLOAD row runs the automatic
    processing again. *)
Theorem auto_processing_runs_on_every_refresh
  (STATUSES : PluginManager.StatusCodes)
  (process : PluginManager.Item -> Py.result unit)
  (d : PluginManager.Delivery) (passes : list PluginManager.Pass) :
  Forall (fun p => PluginManager.delivery p = d
                   /\ has_work STATUSES (PluginManager.fetched p) = true)
    passes ->
  PluginManager.auto_processing_passes
    (snd (PluginManager.session STATUSES process passes PluginManager.init))
  = length passes.
Proof.
  intros Hall.
  apply (session_runs_every_pass STATUSES process d); [reflexivity | exact Hall].
Qed.

(** Two refresh passes on one manager, the second (say, after the user
    ticked "Show pre-releases") finding another plugin new: the automatic
    processing runs in both. *)
Lemma auto_processing_runs_twice :
  PluginManager.auto_processing_passes
    (snd (PluginManager.session sample_statuses succeeds
            [pass_with_new_plugin PluginManager.Direct row_a;
             pass_with_new_plugin PluginManager.Direct row_b]
            PluginManager.init))
  = 2.
Proof.
  apply (auto_processing_runs_on_every_refresh sample_statuses succeeds
           PluginManager.Direct
           [pass_with_new_plugin PluginManager.Direct row_a;
            pass_with_new_plugin PluginManager.Direct row_b]).
  repeat constructor.
Defined.

(** ** Conflicting plugins *)

Section Conflicts.

Import PluginManager.

Lemma names_loop (flag : InstalledPlugin -> bool)
  (installed : list InstalledPlugin) (acc : list string) :
  fold_left
    (fun result plugin => if flag plugin then result ++ [name plugin] else result)
    installed acc
  = acc ++ map name (List.filter flag installed).
Proof.
  revert acc. induction installed as [|plugin installed IH]; intros acc; simpl.
  - now rewrite app_nil_r.
  - rewrite IH. destruct (flag plugin); simpl; [|reflexivity].
    now rewrite <- app_assoc.
Qed.

Lemma incompatible_names_spec (self : PM) :
  _get_incompatible_plugin_names self = incompatible_names self.
Proof. unfold _get_incompatible_plugin_names. apply names_loop. Qed.

Lemma deprecated_names_spec (self : PM) :
  _get_deprecated_plugin_names self = deprecated_names self.
Proof. unfold _get_deprecated_plugin_names. apply names_loop. Qed.

Lemma conflict_names (self : PM) :
  has_conflict self = true ->
  incompatible_names self <> [] \/ deprecated_names self <> [].
Proof.
  unfold has_conflict, incompatible_names, deprecated_names.
  induction (_installed_plugins self) as [|plugin installed IH]; simpl.
  - discriminate.
  - destruct (incompatible plugin); simpl; [left; discriminate|].
    destruct (deprecated plugin); simpl; [right; discriminate|].
    exact IH.
Qed.

End Conflicts.

(** C6.  When an installed plugin is marked incompatible or deprecated,
    [_on_apply_changes] opens with a Yes/No/Cancel message box; the boxes
    (one for the incompatible plugins, one for the deprecated ones) come
    before anything else; [apply_changes] is emitted last, with the names
    of each kind the user chose to archive and without those the user
    chose to keep; and a Cancel at either box returns without emitting
    it, the trace then holding the message boxes only. *)
Theorem conflict_choice
  (answer : PluginManager.ConflictKind -> PluginManager.StandardButton)
  (self : PluginManager.PM) :
  let t := PluginManager._on_apply_changes answer self in
  let cancelled :=
    cancels (incompatible_names self) (answer PluginManager.Incompatible)
    || cancels (deprecated_names self) (answer PluginManager.Deprecated) in
  (has_conflict self = true ->
   exists kind names, head t = Some (PluginManager.ConflictPrompt kind names))
  /\ (exists prompts : list PluginManager.Event,
        forallb is_ConflictPrompt prompts = true
        /\ t = prompts ++ match emitted t with
                          | Some archive => [PluginManager.ApplyChanges archive]
                          | None => []
                          end)
  /\ emitted t
     = if cancelled then None
       else Some (archived (incompatible_names self)
                    (answer PluginManager.Incompatible)
                  ++ archived (deprecated_names self)
                       (answer PluginManager.Deprecated)).
Proof.
  intros t cancelled. subst t cancelled.
  unfold PluginManager._on_apply_changes.
  rewrite incompatible_names_spec, deprecated_names_spec.
  split; [intros Hconflict; apply conflict_names in Hconflict|].
  - destruct (incompatible_names self) as [|i inc],
             (deprecated_names self) as [|d dep];
      try (destruct Hconflict as [H | H]; congruence);
      cbn; eauto.
  - destruct (incompatible_names self) as [|i inc],
             (deprecated_names self) as [|d dep],
             (answer PluginManager.Incompatible),
             (answer PluginManager.Deprecated);
      cbn; rewrite ?app_nil_r;
      (split; [|reflexivity]);
      first
        [ exists []; split; reflexivity
        | eexists [_]; split; cycle 1; reflexivity
        | eexists [_; _]; split; cycle 1; reflexivity ].
Qed.

(** Scenario C: [pluginA] is installed and incompatible, the user keeps
    it; the message box is shown and [apply_changes] carries no name. *)
Lemma conflict_choice_keep :
  head (PluginManager._on_apply_changes keep with_incompatible_plugin)
  = Some (PluginManager.ConflictPrompt PluginManager.Incompatible ["pluginA"])
  /\ emitted (PluginManager._on_apply_changes keep with_incompatible_plugin)
     = Some [].
Proof.
  destruct (conflict_choice keep with_incompatible_plugin)
    as (Hprompt & _ & Hemitted).
  split; [|exact Hemitted].
  destruct (Hprompt eq_refl) as (kind & names & Hhead).
  rewrite Hhead. vm_compute in Hhead. congruence.
Defined.

(** ** The update check at startup *)

(** C8.  Whatever the version import, [check_connect_version_update] or
    the reading of its result raise, the update check of [main_connect]
    returns: the exception is logged and [_pending_update_info] stays
    [None], exactly as after a check that reports no update, so the later
    statement shows no dialog and startup goes on. *)
Theorem update_check_never_blocks_startup
  (import_version : Py.result string)
  (check_connect_version_update : string -> Py.result (gmap string Main.value))
  (show_update_dialog : gmap string Main.value -> Py.result unit)
  (namespace : Main.Namespace) :
  let body := Main.check_body import_version check_connect_version_update
                namespace in
  let check := Main.update_check import_version check_connect_version_update
                 namespace in
  Py.returns (snd check)
  /\ (forall e : Py.exn,
        Main.skip_version_check namespace = false ->
        snd body = Py.Raise e ->
        check = (fst body ++ [Main.DebugError e], Py.Ok None))
  /\ (forall (current_version : string) (e : Py.exn),
        Main.skip_version_check namespace = false ->
        import_version = Py.Ok current_version ->
        check_connect_version_update current_version = Py.Raise e ->
        check = ([Main.DebugChecking current_version; Main.DebugError e],
                 Py.Ok None))
  /\ (forall (current_version : string) (update_info : gmap string Main.value)
             (has_update message : Main.value),
        import_version = Py.Ok current_version ->
        check_connect_version_update current_version = Py.Ok update_info ->
        update_info !! "has_update" = Some has_update ->
        Main.truthy has_update = false ->
        update_info !! "message" = Some message ->
        snd check = Py.Ok None)
  /\ Main.update_dialog show_update_dialog None = ([], Py.Ok tt)
  /\ Py.returns
       (snd (Main.startup_update import_version check_connect_version_update
               show_update_dialog namespace)).
Proof.
  intros body check.
  assert (Hreturns : Py.returns (snd check)).
  { subst check body. unfold Py.returns, Main.update_check.
    destruct (Main.skip_version_check namespace); cbn [negb].
    - exists None. reflexivity.
    - destruct (Main.check_body import_version check_connect_version_update
                  namespace) as [t [pending | e]]; cbn; eauto. }
  split; [exact Hreturns|].
  split.
  { intros e Hskip Hraise. subst check. unfold Main.update_check.
    rewrite Hskip. cbn [negb]. fold body.
    destruct body as [t [pending | e']]; cbn in *; [discriminate|].
    congruence. }
  split.
  { intros current_version e Hskip Himport Hcheck. subst check body.
    unfold Main.update_check, Main.check_body. rewrite Hskip, Himport.
    cbn. rewrite Hcheck. reflexivity. }
  split.
  { intros current_version update_info has_update message
      Himport Hcheck Hhas Hfalse Hmessage.
    subst check body. unfold Main.update_check, Main.check_body.
    destruct (Main.skip_version_check namespace); [reflexivity|].
    rewrite Himport. cbn. rewrite Hcheck. unfold Py.getitem. cbn.
    rewrite Hhas. cbn. rewrite Hfalse, Hmessage. reflexivity. }
  split; [reflexivity|].
  unfold Main.startup_update, Py.then_. fold check.
  destruct Hreturns as [pending Hpending].
  destruct check as [t r]. cbn in Hpending. subst r. cbn [snd].
  unfold Main.update_dialog.
  destruct (Main.pending_is_set pending); [|exists tt; reflexivity].
  unfold Py.try_catch, Py.call.
  destruct (show_update_dialog (default ∅ pending)) as [[]|e];
    exists tt; reflexivity.
Qed.

(** The release feed cannot be reached: the check logs the error and
    leaves nothing pending. *)
Lemma update_check_with_unreachable_feed :
  Main.update_check (Py.Ok "24.5.0") unreachable_feed interactive
  = ([Main.DebugChecking "24.5.0"; Main.DebugError connection_refused],
     Py.Ok None).
Proof.
  destruct (update_check_never_blocks_startup (Py.Ok "24.5.0")
              unreachable_feed succeeds interactive)
    as (_ & _ & Hfeed & _).
  exact (Hfeed "24.5.0" connection_refused eq_refl eq_refl eq_refl).
Defined.

(** ** Cancelling the download *)

Section Cancellation.

Import UpdateDialog.

Variable cancel_at : option nat.



Lemma written_app (t l : list Event) : written (t ++ l) = written t ++ written l.
Proof. apply omap_app. Qed.

Lemma shown_app (t l : list Event) : shown (t ++ l) = shown t ++ shown l.
Proof. apply omap_app. Qed.





Lemma callback_writes_nothing (downloaded total : nat) (st : State) :
  written (events (progress_callback cancel_at downloaded total st))
  = written (events st)
  /\ disk (progress_callback cancel_at downloaded total st) = disk st.
Proof.
  unfold progress_callback. destruct (cancelled st); cbn.
  - split; reflexivity.
  - rewrite !written_app.
    destruct (bool_decide (cancel_at = Some (S (callbacks st)))); cbn;
      rewrite !app_nil_r; split; reflexivity.
Qed.





End Cancellation.

Section Download.

Import UpdateDialog.

Variable cancel_at : option nat.










End Download.




(** ** The version comparator *)

Section ReleaseOrder.

Import Packaging.

Lemma dropwhile_zero_snoc (l : list N) (x : N) :
  dropwhile_zero (l ++ [x])
  = match dropwhile_zero l with
    | [] => if (x =? 0)%N then [] else [x]
    | l' => l' ++ [x]
    end.
Proof.
  induction l as [|y l IH]; simpl.
  - reflexivity.
  - destruct (y =? 0)%N; [exact IH | reflexivity].
Qed.

Lemma cmpkey_release_trim (release : list N) :
  cmpkey_release release = trim release.
Proof.
  unfold cmpkey_release. induction release as [|x r IH]; simpl.
  - reflexivity.
  - rewrite dropwhile_zero_snoc, <- IH.
    destruct (dropwhile_zero (rev r)) as [|y l] eqn:Hd; simpl.
    + destruct (x =? 0)%N; reflexivity.
    + rewrite rev_app_distr. simpl.
      destruct (rev l ++ [y]) eqn:Hr; [|reflexivity].
      destruct (rev l); discriminate.
Qed.

Lemma trim_nil (release : list N) :
  trim release = [] <-> forallb (fun x => (x =? 0)%N) release = true.
Proof.
  induction release as [|x r IH]; simpl.
  - tauto.
  - destruct (trim r) as [|y t].
    + destruct (x =? 0)%N; simpl; [tauto|].
      split; discriminate.
    + split; [discriminate|].
      intros H. apply andb_true_iff in H as [_ H].
      apply IH in H. discriminate.
Qed.

Lemma trim_cons_nonzero (x : N) (r : list N) :
  (x =? 0)%N = false -> trim (x :: r) = x :: trim r.
Proof. intros Hx. simpl. rewrite Hx. destruct (trim r); reflexivity. Qed.

(** Python's order on the trimmed tuples is the component-wise order with
    missing components read as zero. *)
Lemma tuple_gt_trim (a b : list N) :
  tuple_gt (trim a) (trim b) = numeric_gt a b.
Proof.
  revert b. induction a as [|x a IH]; intros b.
  - reflexivity.
  - destruct b as [|y b].
    + cbn [numeric_gt]. change (trim []) with (@nil N).
      destruct (trim (x :: a)) as [|z t] eqn:Ht.
      * apply trim_nil in Ht. rewrite Ht. reflexivity.
      * destruct (forallb (fun x => (x =? 0)%N) (x :: a)) eqn:Hz;
          [|reflexivity].
        apply trim_nil in Hz. congruence.
    + cbn [numeric_gt]. rewrite <- IH.
      destruct (N.ltb_spec y x) as [Hyx | Hyx].
      * rewrite (trim_cons_nonzero x a) by (apply N.eqb_neq; lia).
        destruct (trim (y :: b)) as [|z t] eqn:Ht; [reflexivity|].
        assert (z = y) as ->.
        { simpl in Ht. destruct (trim b); [destruct (y =? 0)%N|];
            congruence. }
        simpl. apply N.ltb_lt in Hyx. now rewrite Hyx.
      * destruct (N.ltb_spec x y) as [Hxy | Hxy].
        -- rewrite (trim_cons_nonzero y b) by (apply N.eqb_neq; lia).
           destruct (trim (x :: a)) as [|z t] eqn:Ht; [reflexivity|].
           assert (z = x) as ->.
           { simpl in Ht. destruct (trim a); [destruct (x =? 0)%N|];
               congruence. }
           simpl. apply N.ltb_lt in Hxy. rewrite Hxy.
           assert (Hno : (y <? x)%N = false) by (apply N.ltb_ge; lia).
           now rewrite Hno.
        -- assert (x = y) as -> by lia.
           assert (Hirr : (y <? y)%N = false) by apply N.ltb_irrefl.
           simpl. destruct (trim a) as [|za ta], (trim b) as [|zb tb];
             destruct (y =? 0)%N; simpl; rewrite ?Hirr; reflexivity.
Qed.

End ReleaseOrder.

(** C4.  With [packaging] importable, [_is_newer_version] on two dotted
    numeric versions is the component-wise numeric comparison of their
    release tuples; whenever the import or the parsing of either string
    raises, it is the comparison of the two strings; it never raises. *)
Theorem is_newer_version_agrees (Version : Type)
  (import_parse : Py.result unit)
  (parse_version : string -> Py.result Version)
  (version_gt : Version -> Version -> bool) :
  packaging_orders_releases parse_version version_gt ->
  (forall (available installed : string) (release_a release_i : list N),
      import_parse = Py.Ok tt ->
      Packaging.dotted_numeric available = Some release_a ->
      Packaging.dotted_numeric installed = Some release_i ->
      PluginManager._is_newer_version Version import_parse parse_version
        version_gt available installed
      = Py.Ok (Packaging.numeric_gt release_a release_i))
  /\ (forall (available installed : string),
        (exists e, import_parse = Py.Raise e)
        \/ (exists e, parse_version available = Py.Raise e)
        \/ (exists e, parse_version installed = Py.Raise e) ->
        PluginManager._is_newer_version Version import_parse parse_version
          version_gt available installed
        = Py.Ok (PyStr.gt available installed))
  /\ (forall (available installed : string),
        Py.returns
          (PluginManager._is_newer_version Version import_parse parse_version
             version_gt available installed)).
Proof.
  intros Hpackaging. unfold PluginManager._is_newer_version.
  split; [|split].
  - intros available installed release_a release_i Himport Ha Hi.
    destruct (Hpackaging available installed release_a release_i Ha Hi)
      as (va & vi & Hva & Hvi & Hgt).
    rewrite Himport. cbn. rewrite Hva. cbn. rewrite Hvi. cbn.
    rewrite Hgt, !cmpkey_release_trim, tuple_gt_trim. reflexivity.
  - intros available installed [[e He] | [[e He] | [e He]]].
    + rewrite He. reflexivity.
    + destruct import_parse as [[]|e']; [|reflexivity].
      cbn. rewrite He. reflexivity.
    + destruct import_parse as [[]|e']; [|reflexivity].
      cbn. destruct (parse_version available); [|reflexivity].
      cbn. rewrite He. reflexivity.
  - intros available installed.
    destruct import_parse as [[]|e']; [|eexists; reflexivity].
    cbn. destruct (parse_version available); [|eexists; reflexivity].
    cbn. destruct (parse_version installed); eexists; reflexivity.
Qed.

Lemma parse_dotted_orders_releases :
  packaging_orders_releases parse_dotted release_gt.
Proof.
  intros a i release_a release_i Ha Hi.
  exists release_a, release_i. unfold parse_dotted. rewrite Ha, Hi.
  repeat split; reflexivity.
Defined.

(** Version 1.10.0 is newer than 1.9, although the string ["1.10.0"] sorts
    before ["1.9"]. *)
Lemma is_newer_version_1_10 :
  PluginManager._is_newer_version (list N) (Py.Ok tt) parse_dotted release_gt
    "1.10.0" "1.9" = Py.Ok true
  /\ PyStr.gt "1.10.0" "1.9" = false.
Proof.
  split; [|reflexivity].
  exact (proj1 (is_newer_version_agrees (list N) (Py.Ok tt) parse_dotted
                  release_gt parse_dotted_orders_releases)
           "1.10.0" "1.9" [1; 10; 0]%N [1; 9]%N
           eq_refl eq_refl eq_refl).
Defined.

(** ** Release notes *)

Section Lines.

Import PyStr.

Lemma split_char_nonempty (sep : ascii) (s : string) : split_char sep s <> [].
Proof.
  induction s as [|c r IH]; simpl; [discriminate|].
  destruct (Ascii.eqb c sep); [discriminate|].
  destruct (split_char sep r); discriminate.
Qed.

Lemma split_lines_no_lf (s : string) :
  Forall (fun line => no_lf line = true) (split_lines s).
Proof.
  unfold split_lines. induction s as [|c r IH]; simpl.
  - repeat constructor.
  - destruct (Ascii.eqb c LF) eqn:Hc.
    + constructor; [reflexivity | exact IH].
    + destruct (split_char LF r) as [|h t]; [repeat constructor; simpl|].
      * now rewrite Hc.
      * inversion IH; subst. constructor; [simpl|assumption].
        rewrite Hc. assumption.
Qed.

Lemma split_lines_line (line rest : string) :
  no_lf line = true ->
  split_lines (line +:+ String LF rest) = line :: split_lines rest.
Proof.
  unfold split_lines. induction line as [|c r IH]; simpl; intros Hline.
  - reflexivity.
  - apply andb_true_iff in Hline as [Hc Hr]. apply negb_true_iff in Hc.
    rewrite Hc, (IH Hr). reflexivity.
Qed.

Lemma split_lines_single (line : string) :
  no_lf line = true -> split_lines line = [line].
Proof.
  unfold split_lines. induction line as [|c r IH]; simpl; intros Hline.
  - reflexivity.
  - apply andb_true_iff in Hline as [Hc Hr]. apply negb_true_iff in Hc.
    rewrite Hc, (IH Hr). reflexivity.
Qed.

Lemma join_cons (sep x y : string) (l : list string) :
  join sep (x :: y :: l) = x +:+ sep +:+ join sep (y :: l).
Proof. reflexivity. Qed.

(** Splitting a joined list of one-line texts gives the list back. *)
Lemma split_lines_join (l : list string) :
  l <> [] ->
  Forall (fun line => no_lf line = true) l ->
  split_lines (join UpdateDialog.NL l) = l.
Proof.
  intros Hne Hall. induction Hall as [|x l Hx Hall IH]; [congruence|].
  destruct l as [|y l].
  - apply split_lines_single, Hx.
  - rewrite join_cons.
    change (x +:+ UpdateDialog.NL +:+ join UpdateDialog.NL (y :: l))
      with (x +:+ String LF (join UpdateDialog.NL (y :: l))).
    rewrite (split_lines_line x _ Hx), IH; [reflexivity | discriminate].
Qed.

(** Joining the lines of a text gives the text back. *)
Lemma join_split_lines (s : string) :
  join UpdateDialog.NL (split_lines s) = s.
Proof.
  unfold split_lines. induction s as [|c r IH]; [reflexivity|].
  simpl. destruct (Ascii.eqb_spec c LF) as [-> | Hc].
  - pose proof (split_char_nonempty LF r) as Hne.
    destruct (split_char LF r) as [|h t]; [congruence|].
    rewrite join_cons, IH. reflexivity.
  - pose proof (split_char_nonempty LF r) as Hne.
    destruct (split_char LF r) as [|h [|h' t]]; [congruence| |].
    + cbn in *. now rewrite IH.
    + rewrite join_cons in *. rewrite <- IH. reflexivity.
Qed.

Lemma no_lf_app (a b : string) : no_lf (a +:+ b) = no_lf a && no_lf b.
Proof.
  induction a as [|c r IH]; simpl; [reflexivity|].
  now rewrite IH, andb_assoc.
Qed.

Lemma no_lf_lstrip (s : string) : no_lf s = true -> no_lf (lstrip s) = true.
Proof.
  induction s as [|c r IH]; simpl; [reflexivity|]. intros H.
  destruct (isspace c); [|exact H].
  apply andb_true_iff in H as [_ H]. auto.
Qed.

Lemma no_lf_rstrip (s : string) : no_lf s = true -> no_lf (rstrip s) = true.
Proof.
  induction s as [|c r IH]; simpl; [reflexivity|]. intros H.
  apply andb_true_iff in H as [Hc Hr]. specialize (IH Hr).
  destruct (rstrip r).
  - destruct (isspace c); simpl; [reflexivity|]. now rewrite Hc.
  - simpl in *. now rewrite Hc, IH.
Qed.

Lemma no_lf_strip (s : string) : no_lf s = true -> no_lf (strip s) = true.
Proof. intros H. apply no_lf_rstrip, no_lf_lstrip, H. Qed.

Lemma no_lf_drop (n : nat) (s : string) :
  no_lf s = true -> no_lf (drop n s) = true.
Proof.
  revert s. induction n as [|n IH]; intros s H; [exact H|].
  destruct s as [|c r]; [reflexivity|]. simpl in *.
  apply andb_true_iff in H as [_ H]. auto.
Qed.

Lemma lower_char_lf (c : ascii) :
  Ascii.eqb (lower_char c) LF = Ascii.eqb c LF.
Proof.
  destruct c as [[] [] [] [] [] [] [] []]; vm_compute; reflexivity.
Qed.

Lemma upper_char_lf (c : ascii) :
  Ascii.eqb (upper_char c) LF = Ascii.eqb c LF.
Proof.
  destruct c as [[] [] [] [] [] [] [] []]; vm_compute; reflexivity.
Qed.

Lemma no_lf_lower (s : string) : no_lf (lower s) = no_lf s.
Proof.
  induction s as [|c r IH]; simpl; [reflexivity|].
  now rewrite lower_char_lf, IH.
Qed.

Lemma no_lf_capitalize (s : string) : no_lf (capitalize s) = no_lf s.
Proof.
  destruct s as [|c r]; simpl; [reflexivity|].
  now rewrite upper_char_lf, no_lf_lower.
Qed.


End Lines.

Section Stripping.

Import PyStr.










Lemma prefix_cons (a b : ascii) (s1 s2 : string) :
  String.prefix (String a s1) (String b s2)
  = if Ascii.eqb a b then String.prefix s1 s2 else false.
Proof.
  cbn [String.prefix].
  destruct (Ascii.ascii_dec a b) as [Heq | Hne];
    destruct (Ascii.eqb_spec a b); congruence.
Qed.

Lemma prefix_nil (s : string) : String.prefix EmptyString s = true.
Proof. destruct s; reflexivity. Qed.

End Stripping.

Section Bullets.

Import PyStr UpdateDialog.






Lemma bullet_no_lf (raw b : string) :
  no_lf raw = true -> bullet_of_line raw = Some b -> no_lf b = true.
Proof.
  intros Hraw. unfold bullet_of_line.
  repeat match goal with
         | |- context [if ?c then _ else _] => destruct c
         end;
    intros H; try discriminate; injection H as <-;
    rewrite no_lf_app; apply andb_true_iff; split; try reflexivity.
  - apply no_lf_strip, (no_lf_drop 2 (strip raw)), no_lf_strip, Hraw.
  - apply no_lf_strip, Hraw.
Qed.

Lemma keyword_bullet_no_lf (raw b : string) :
  no_lf raw = true -> keyword_bullet raw = Some b -> no_lf b = true.
Proof.
  intros Hraw. unfold keyword_bullet.
  match goal with
  | |- context [if ?c then _ else _] => destruct c
  end; intros H; [|discriminate]. injection H as <-.
  rewrite no_lf_app, no_lf_capitalize, no_lf_lower. cbn [andb].
  change (no_lf bullet) with true. apply no_lf_strip, Hraw.
Qed.

Lemma omap_no_lf (f : string -> option string) (lines : list string) :
  (forall raw b, no_lf raw = true -> f raw = Some b -> no_lf b = true) ->
  Forall (fun line => no_lf line = true) lines ->
  Forall (fun line => no_lf line = true) (omap f lines).
Proof.
  intros Hf Hall. induction Hall as [|raw lines Hraw _ IH]; cbn.
  - constructor.
  - destruct (f raw) as [b|] eqn:Hb; [|exact IH].
    constructor; [exact (Hf raw b Hraw Hb) | exact IH].
Qed.

Lemma joined_bullets_count (bullets : list string) :
  bullets <> [] ->
  Forall (fun line => no_lf line = true) bullets ->
  line_count (join NL (take 5 bullets)) <= 5.
Proof.
  intros Hne Hall. unfold line_count.
  rewrite split_lines_join.
  - rewrite length_take. lia.
  - destruct bullets; [congruence | discriminate].
  - apply Forall_take, Hall.
Qed.

(** The structure of [_parse_markdown_to_bullets]: the bullets of the first
    loop if there are any, else those of the keyword loop if there are
    any, else the generic text. *)
Lemma parse_markdown_cases (text : string) :
  let lines := split_lines (strip text) in
  _parse_markdown_to_bullets text
  = match omap bullet_of_line lines, omap keyword_bullet lines with
    | (_ :: _) as bullet_points, _ => join NL (take 5 bullet_points)
    | [], (_ :: _) as bullet_points => join NL (take 5 bullet_points)
    | [], [] => generic_fallback
    end.
Proof.
  intros lines. unfold _parse_markdown_to_bullets. fold lines.
  destruct (omap bullet_of_line lines); [|reflexivity].
  destruct (omap keyword_bullet lines); reflexivity.
Qed.

Lemma parse_markdown_count (text : string) :
  line_count (_parse_markdown_to_bullets text) <= 5.
Proof.
  rewrite parse_markdown_cases.
  pose proof (split_lines_no_lf (strip text)) as Hlines.
  pose proof (omap_no_lf bullet_of_line _ bullet_no_lf Hlines) as Hfirst.
  pose proof (omap_no_lf keyword_bullet _ keyword_bullet_no_lf Hlines)
    as Hsecond.
  destruct (omap bullet_of_line (split_lines (strip text))) as [|b bs].
  - destruct (omap keyword_bullet (split_lines (strip text))) as [|k ks].
    + vm_compute. lia.
    + apply joined_bullets_count; [discriminate | exact Hsecond].
  - apply joined_bullets_count; [discriminate | exact Hfirst].
Qed.

(** On notes that are not blank [_format_release_notes] returns what
    [_parse_markdown_to_bullets] returns: its own cut to five lines never
    applies. *)
Lemma format_is_parse (release_notes : string) :
  nonempty release_notes = true ->
  nonempty (strip release_notes) = true ->
  _format_release_notes release_notes
  = _parse_markdown_to_bullets release_notes.
Proof.
  intros Hnotes Hstripped. unfold _format_release_notes.
  rewrite Hnotes, Hstripped. cbn [negb orb].
  pose proof (parse_markdown_count release_notes) as Hcount.
  unfold line_count in Hcount.
  assert (Hcut : (5 <? length (split_lines
                                 (_parse_markdown_to_bullets release_notes)))%nat
                 = false) by (apply Nat.ltb_ge; exact Hcount).
  rewrite Hcut. apply join_split_lines.
Qed.


End Bullets.

Section ScenarioD.

Import PyStr UpdateDialog.




End ScenarioD.




(** * Further properties *)

(** ** The launch hook on events *)

Section LaunchFacts.

Import Launch.

Variable pathsep : string.
Variable LOCATION_DIRECTORY : string.

Lemma append_path_strings (p k : string) (env : gmap string string) :
  append_path pathsep p k (VDict (VStr <$> env))
  = match Hook.append_path pathsep p k env with
    | Py.Ok env' => Py.Ok (VDict (VStr <$> env'))
    | Py.Raise e => Py.Raise e
    end.
Proof.
  unfold append_path, Hook.append_path, getitem, Py.getitem.
  rewrite lookup_fmap. destruct (env !! k) as [old|]; cbn.
  - now rewrite fmap_insert.
  - now rewrite fmap_insert.
Qed.

Lemma with_env_launch_event (event data options : gmap string value)
  (environment : value) :
  launch_event (with_env event data options environment)
    (<["options" := VDict (<["env" := environment]> options)]> data)
    (<["env" := environment]> options) environment.
Proof.
  unfold launch_event, with_env. now rewrite !lookup_insert_eq.
Qed.

Lemma with_env_again (event data options : gmap string value)
  (e1 e2 : value) :
  with_env (with_env event data options e1)
    (<["options" := VDict (<["env" := e1]> options)]> data)
    (<["env" := e1]> options) e2
  = with_env event data options e2.
Proof. unfold with_env. now rewrite !insert_insert_eq. Qed.

Lemma get_env (event data options : gmap string value) (environment : value) :
  launch_event event data options environment ->
  get_at ["data"] (VDict event) = Py.Ok (VDict data)
  /\ get_at ["data"; "options"] (VDict event) = Py.Ok (VDict options)
  /\ get_at ["data"; "options"; "env"] (VDict event) = Py.Ok environment.
Proof.
  intros (Hd & Ho & He). unfold get_at, getitem, Py.getitem.
  rewrite Hd. cbn. rewrite Ho. cbn. rewrite He. auto.
Qed.

Lemma update_env (event data options : gmap string value)
  (environment : value) (f : value -> Py.result value) :
  launch_event event data options environment ->
  update_at ["data"; "options"; "env"] f (VDict event)
  = match f environment with
    | Py.Ok environment' =>
        Py.Ok (VDict (with_env event data options environment'))
    | Py.Raise e => Py.Raise e
    end.
Proof.
  intros (Hd & Ho & He). unfold update_at, getitem, Py.getitem.
  rewrite Hd. cbn. rewrite Ho. cbn. rewrite He. cbn.
  destruct (f environment); reflexivity.
Qed.

Lemma append_both_strings (event data options : gmap string value)
  (env : gmap string string) :
  launch_event event data options (VDict (VStr <$> env)) ->
  exists env1 env2 : gmap string string,
    Hook.append_path pathsep LOCATION_DIRECTORY "FTRACK_EVENT_PLUGIN_PATH" env
    = Py.Ok env1
    /\ Hook.append_path pathsep LOCATION_DIRECTORY "PYTHONPATH" env1
       = Py.Ok env2
    /\ append_both pathsep LOCATION_DIRECTORY (VDict event)
       = (VDict (with_env event data options (VDict (VStr <$> env2))),
          ([InfoModified], Py.Ok tt)).
Proof.
  intros Hevent.
  destruct (Hook.append_path pathsep LOCATION_DIRECTORY
              "FTRACK_EVENT_PLUGIN_PATH" env) as [env1|e] eqn:H1.
  2:{ unfold Hook.append_path, Py.getitem in H1.
      destruct (env !! "FTRACK_EVENT_PLUGIN_PATH"); discriminate. }
  destruct (Hook.append_path pathsep LOCATION_DIRECTORY "PYTHONPATH" env1)
    as [env2|e] eqn:H2.
  2:{ unfold Hook.append_path, Py.getitem in H2.
      destruct (env1 !! "PYTHONPATH"); discriminate. }
  exists env1, env2. split; [reflexivity|]. split; [exact H2|].
  destruct (get_env _ _ _ _ Hevent) as (_ & _ & Hget).
  unfold append_both, and_then, eval, mutate, log.
  rewrite Hget. cbv beta iota. unfold Py.lift.
  rewrite (update_env _ _ _ _ _ Hevent), append_path_strings, H1.
  cbv beta iota. unfold Py.ret.
  rewrite (update_env _ _ _ _ _ (with_env_launch_event _ _ _ _)),
    append_path_strings, H2.
  cbv beta iota. unfold Py.tell. rewrite with_env_again. reflexivity.
Qed.

End LaunchFacts.

Section LaunchTheorems.

Import Launch.

Variable pathsep : string.
Variable LOCATION_DIRECTORY : string.

Lemma and_then_raise {A B : Type} (m : Step A) (k : A -> Step B)
  (event event1 : value) (t1 : list LogRecord) (e : Py.exn) :
  m event = (event1, (t1, Py.Raise e)) ->
  and_then m k event = (event1, (t1, Py.Raise e)).
Proof. intros Hm. unfold and_then. now rewrite Hm. Qed.

Lemma eval_raise {A : Type} (f : value -> Py.result A) (event : value)
  (e : Py.exn) :
  f event = Py.Raise e -> eval f event = (event, ([], @Py.Raise A e)).
Proof. intros Hf. unfold eval, Py.lift. now rewrite Hf. Qed.

(** The handler of [modify_application_launch] logs and returns. *)
Lemma failed_launch (event event1 : value) (t : list LogRecord) (e : Py.exn) :
  launch_body pathsep LOCATION_DIRECTORY event = (event1, (t, Py.Raise e)) ->
  modify_application_launch pathsep LOCATION_DIRECTORY event
  = (event1, (t ++ [ErrorModifying e; DebugEvent event1], Py.Ok tt)).
Proof.
  intros Hbody. unfold modify_application_launch, try_except.
  rewrite Hbody. reflexivity.
Qed.

Lemma passed_launch (event event1 : value) (t : list LogRecord) :
  launch_body pathsep LOCATION_DIRECTORY event = (event1, (t, Py.Ok tt)) ->
  modify_application_launch pathsep LOCATION_DIRECTORY event
  = (event1, (t, Py.Ok tt)).
Proof.
  intros Hbody. unfold modify_application_launch, try_except.
  rewrite Hbody. reflexivity.
Qed.

Lemma contains_key (d : gmap string value) (key : string) (x : value) :
  d !! key = Some x -> contains (VDict d) key = Py.Ok true.
Proof. intros H. unfold contains. now rewrite H. Qed.

Lemma contains_no_key (d : gmap string value) (key : string) :
  d !! key = None -> contains (VDict d) key = Py.Ok false.
Proof. intros H. unfold contains. now rewrite H. Qed.

End LaunchTheorems.

Section LaunchResults.

Import Launch.

Variable pathsep : string.
Variable LOCATION_DIRECTORY : string.

(** X1.  On an event that holds [data.options.env] with string values,
    [modify_application_launch] appends the location directory under
    [FTRACK_EVENT_PLUGIN_PATH] and then under [PYTHONPATH] as [append_path]
    does, changes nothing else of the event, logs the launch and the
    modification, and returns. *)
Theorem launch_event_gets_location (event data options : gmap string value)
  (env : gmap string string) :
  launch_event event data options (VDict (VStr <$> env)) ->
  exists env1 env2 : gmap string string,
    Hook.append_path pathsep LOCATION_DIRECTORY "FTRACK_EVENT_PLUGIN_PATH" env
    = Py.Ok env1
    /\ Hook.append_path pathsep LOCATION_DIRECTORY "PYTHONPATH" env1
       = Py.Ok env2
    /\ modify_application_launch pathsep LOCATION_DIRECTORY (VDict event)
       = (VDict (with_env event data options (VDict (VStr <$> env2))),
          ([DebugLaunch; InfoModified], Py.Ok tt)).
Proof.
  intros Hevent.
  destruct (append_both_strings pathsep LOCATION_DIRECTORY _ _ _ _ Hevent)
    as (env1 & env2 & H1 & H2 & Htail).
  exists env1, env2. split; [exact H1|]. split; [exact H2|].
  apply passed_launch.
  destruct (get_env _ _ _ _ Hevent) as (Hgd & Hgo & _).
  destruct Hevent as (Hd & Ho & He).
  unfold launch_body.
  change (and_then (eval (get_at ["data"; "options"; "env"])) _)
    with (append_both pathsep LOCATION_DIRECTORY).
  unfold and_then, eval, mutate, log, when, unit_step, Py.lift, Py.ret, Py.tell.
  repeat (progress (rewrite ?Hgd, ?Hgo, ?(contains_key _ _ _ Ho),
                      ?(contains_key _ _ _ He);
                    cbv beta iota; unfold is_dict, negb; cbv beta iota)).
  rewrite Htail. reflexivity.
Qed.

(** X2.  On an event whose [data] has no [options], the hook creates
    [options] and [env], and [env] then holds exactly the two keys, both
    bound to the location directory; the other entries of [data] and of
    the event stay as they were. *)
Theorem event_without_options_gets_environment
  (event data : gmap string value) :
  event !! "data" = Some (VDict data) ->
  data !! "options" = None ->
  modify_application_launch pathsep LOCATION_DIRECTORY (VDict event)
  = (VDict
       (<["data" :=
            VDict
              (<["options" :=
                   VDict
                     {["env" :=
                         VDict
                           (VStr <$>
                              {["FTRACK_EVENT_PLUGIN_PATH" := LOCATION_DIRECTORY;
                                "PYTHONPATH" := LOCATION_DIRECTORY]})]}]>
                 data)]> event),
     ([DebugApi; InfoModified], Py.Ok tt)).
Proof.
  intros Hd Ho. apply passed_launch.
  set (data1 := <["options" := VDict ∅]> data).
  set (event1 := <["data" := VDict data1]> event).
  assert (Hevent : launch_event
                     (with_env event1 data1 ∅ (VDict ∅))
                     (<["options" := VDict (<["env" := VDict ∅]> ∅)]> data1)
                     (<["env" := VDict ∅]> ∅) (VDict (VStr <$> ∅)))
    by (rewrite fmap_empty; apply with_env_launch_event).
  destruct (append_both_strings pathsep LOCATION_DIRECTORY _ _ _ _ Hevent)
    as (env1 & env2 & H1 & H2 & Htail).
  unfold launch_body.
  change (and_then (eval (get_at ["data"; "options"; "env"])) _)
    with (append_both pathsep LOCATION_DIRECTORY).
  unfold and_then, eval, mutate, log, when, unit_step, Py.lift, Py.ret, Py.tell.
  assert (Hg1 : get_at ["data"] (VDict event) = Py.Ok (VDict data))
    by (cbn; unfold Py.getitem; now rewrite Hd).
  assert (Hu1 : update_at ["data"] (setitem "options" (VDict ∅)) (VDict event)
                = Py.Ok (VDict event1))
    by (cbn; unfold Py.getitem; now rewrite Hd).
  assert (Hg2 : get_at ["data"; "options"] (VDict event1) = Py.Ok (VDict ∅)).
  { unfold get_at, getitem, Py.getitem. subst event1 data1.
    rewrite lookup_insert_eq. cbn. now rewrite lookup_insert_eq. }
  assert (Hu2 : update_at ["data"; "options"] (setitem "env" (VDict ∅))
                  (VDict event1)
                = Py.Ok (VDict (with_env event1 data1 ∅ (VDict ∅)))).
  { unfold update_at, getitem, Py.getitem, with_env. subst event1 data1.
    rewrite lookup_insert_eq. cbn. now rewrite lookup_insert_eq. }
  assert (Hc0 : contains (VDict event) "data" = Py.Ok true)
    by exact (contains_key _ _ _ Hd).
  rewrite Hg1. cbv beta iota.
  rewrite (contains_no_key _ _ Ho). cbv beta iota.
  rewrite Hc0. cbv beta iota. unfold negb. cbv beta iota.
  rewrite Hg1. cbv beta iota.
  rewrite (contains_no_key _ _ Ho). cbv beta iota.
  rewrite Hu1. cbv beta iota.
  rewrite Hg2. cbv beta iota.
  rewrite (contains_no_key ∅ "env" (lookup_empty _)). cbv beta iota.
  rewrite Hu2. cbv beta iota.
  rewrite Htail. cbn [app].
  assert (Henv : env2 = {["FTRACK_EVENT_PLUGIN_PATH" := LOCATION_DIRECTORY;
                          "PYTHONPATH" := LOCATION_DIRECTORY]}).
  { unfold Hook.append_path, Py.getitem in H1, H2.
    rewrite lookup_empty in H1. cbn in H1. injection H1 as <-.
    rewrite lookup_insert_ne in H2 by discriminate.
    rewrite lookup_empty in H2. cbn in H2. injection H2 as <-.
    rewrite insert_empty. apply insert_insert_ne. discriminate. }
  rewrite Henv. unfold with_env. subst event1 data1.
  rewrite !insert_insert_eq, insert_empty. reflexivity.
Qed.

Lemma malformed_body (event : gmap string value) :
  malformed event ->
  exists (t : list LogRecord) (e : Py.exn),
    launch_body pathsep LOCATION_DIRECTORY (VDict event)
    = (VDict event, (t, Py.Raise e))
    /\ (t = [] \/ t = [DebugApi]).
Proof.
  intros [Hd | [(v & Hd & Hv) | (data & v & Hd & Ho & Hv)]].
  - exists [], (Py.KeyError "data"). split; [|auto].
    unfold launch_body. apply and_then_raise, eval_raise.
    unfold get_at, getitem, Py.getitem. now rewrite Hd.
  - assert (Hg : get_at ["data"] (VDict event) = Py.Ok v)
      by (unfold get_at, getitem, Py.getitem; now rewrite Hd).
    assert (Hc0 : contains (VDict event) "data" = Py.Ok true)
      by exact (contains_key _ _ _ Hd).
    unfold launch_body.
    change (and_then (eval (get_at ["data"; "options"; "env"])) _)
      with (append_both pathsep LOCATION_DIRECTORY).
    unfold and_then, eval, mutate, log, when, unit_step, Py.lift, Py.ret,
      Py.tell.
    destruct v as [|s|d]; [| |discriminate Hv].
    + exists [], type_error. split; [|auto].
      rewrite Hg. reflexivity.
    + destruct (PyStr.contains "options" s) eqn:Hs.
      * exists [], type_error. split; [|auto].
        assert (Hgo : get_at ["data"; "options"] (VDict event)
                      = Py.Raise type_error)
          by (unfold get_at, getitem, Py.getitem; now rewrite Hd).
        rewrite Hg. cbv beta iota. unfold contains. rewrite Hs.
        cbv beta iota. rewrite Hgo. reflexivity.
      * exists [DebugApi], type_error. split; [|auto].
        assert (Hu : update_at ["data"] (setitem "options" (VDict ∅))
                       (VDict event) = Py.Raise type_error)
          by (unfold update_at, getitem, Py.getitem; now rewrite Hd).
        rewrite Hg. cbv beta iota. unfold contains at 1. rewrite Hs.
        cbv beta iota. rewrite Hc0. cbv beta iota. unfold negb.
        cbv beta iota. rewrite Hg. cbv beta iota.
        unfold contains. rewrite Hs. cbv beta iota.
        rewrite Hu. reflexivity.
  - assert (Hg : get_at ["data"] (VDict event) = Py.Ok (VDict data))
      by (unfold get_at, getitem, Py.getitem; now rewrite Hd).
    assert (Hgo : get_at ["data"; "options"] (VDict event) = Py.Ok v).
    { unfold get_at, getitem, Py.getitem. rewrite Hd. cbn. now rewrite Ho. }
    assert (Hc0 : contains (VDict event) "data" = Py.Ok true)
      by exact (contains_key _ _ _ Hd).
    assert (Hc1 : contains (VDict data) "options" = Py.Ok true)
      by exact (contains_key _ _ _ Ho).
    exists [DebugApi], type_error. split; [|auto].
    unfold launch_body.
    change (and_then (eval (get_at ["data"; "options"; "env"])) _)
      with (append_both pathsep LOCATION_DIRECTORY).
    unfold and_then, eval, mutate, log, when, unit_step, Py.lift, Py.ret,
      Py.tell.
    rewrite Hg. cbv beta iota. rewrite Hc1. cbv beta iota.
    rewrite Hgo. cbv beta iota. rewrite Hv. cbv beta iota.
    rewrite Hc0. cbv beta iota. unfold negb. cbv beta iota.
    rewrite Hg. cbv beta iota. rewrite Hc1. cbv beta iota.
    rewrite Hgo. cbv beta iota.
    destruct v as [|s|d]; [reflexivity| |discriminate Hv].
    unfold contains. destruct (PyStr.contains "env" s); cbv beta iota.
    + unfold append_both, and_then, eval, Py.lift.
      assert (Hge : get_at ["data"; "options"; "env"] (VDict event)
                    = Py.Raise type_error).
      { unfold get_at, getitem, Py.getitem. rewrite Hd. cbn.
        now rewrite Ho. }
      rewrite Hge. reflexivity.
    + assert (Hu : update_at ["data"; "options"] (setitem "env" (VDict ∅))
                     (VDict event) = Py.Raise type_error).
      { unfold update_at, getitem, Py.getitem. rewrite Hd. cbn.
        now rewrite Ho. }
      rewrite Hu. reflexivity.
Qed.

(** X3.  An event without [data], with a [data] that is not a dict, or
    with [options] that is not a dict is returned unchanged: the error is
    caught and logged together with the event, nothing is modified and the
    hook does not raise. *)
Theorem malformed_event_is_left_alone (event : gmap string value) :
  malformed event ->
  exists (t : list LogRecord) (e : Py.exn),
    modify_application_launch pathsep LOCATION_DIRECTORY (VDict event)
    = (VDict event,
       (t ++ [ErrorModifying e; DebugEvent (VDict event)], Py.Ok tt))
    /\ (t = [] \/ t = [DebugApi]).
Proof.
  intros Hbad. destruct (malformed_body event Hbad) as (t & e & Hbody & Ht).
  exists t, e. split; [|exact Ht]. apply failed_launch, Hbody.
Qed.

(** X4.  The two appends are not undone together: when [PYTHONPATH] is
    bound to something that is not a string, the hook logs the error and
    returns with [FTRACK_EVENT_PLUGIN_PATH] already changed and
    [PYTHONPATH] as it was. *)
Theorem second_append_fails_after_first
  (event data options envd env1 : gmap string value) (v : value) :
  launch_event event data options (VDict envd) ->
  append_path pathsep LOCATION_DIRECTORY "FTRACK_EVENT_PLUGIN_PATH"
    (VDict envd) = Py.Ok (VDict env1) ->
  envd !! "PYTHONPATH" = Some v ->
  (forall s, v <> VStr s) ->
  modify_application_launch pathsep LOCATION_DIRECTORY (VDict event)
  = (VDict (with_env event data options (VDict env1)),
     ([DebugLaunch; ErrorModifying type_error;
       DebugEvent (VDict (with_env event data options (VDict env1)))],
      Py.Ok tt))
  /\ env1 !! "PYTHONPATH" = Some v.
Proof.
  intros Hevent H1 Hv Hnot.
  assert (Hkept : env1 !! "PYTHONPATH" = Some v).
  { unfold append_path, getitem, Py.getitem, setitem in H1.
    destruct (envd !! "FTRACK_EVENT_PLUGIN_PATH") as [[|s|d]|];
      cbn in H1; try discriminate; injection H1 as <-;
      now rewrite lookup_insert_ne by discriminate. }
  split; [|exact Hkept].
  assert (H2 : append_path pathsep LOCATION_DIRECTORY "PYTHONPATH"
                 (VDict env1) = Py.Raise type_error).
  { unfold append_path, getitem, Py.getitem. rewrite Hkept. cbn.
    destruct v as [|s|d]; try reflexivity. destruct (Hnot s eq_refl). }
  apply (failed_launch _ _ _ _ [DebugLaunch]).
  destruct (get_env _ _ _ _ Hevent) as (Hgd & Hgo & Hge).
  pose proof Hevent as (Hd & Ho & He).
  unfold launch_body.
  change (and_then (eval (get_at ["data"; "options"; "env"])) _)
    with (append_both pathsep LOCATION_DIRECTORY).
  unfold and_then, eval, mutate, log, when, unit_step, Py.lift, Py.ret, Py.tell.
  repeat (progress (rewrite ?Hgd, ?Hgo, ?(contains_key _ _ _ Ho),
                      ?(contains_key _ _ _ He);
                    cbv beta iota; unfold is_dict, negb; cbv beta iota)).
  unfold append_both, and_then, eval, mutate, log, Py.lift, Py.ret, Py.tell.
  rewrite Hge. cbv beta iota.
  rewrite (update_env _ _ _ _ _ Hevent), H1. cbv beta iota.
  rewrite (update_env _ _ _ _ _ (with_env_launch_event _ _ _ _)), H2.
  reflexivity.
Qed.

End LaunchResults.

(** X1 on a launch event whose environment sets [PYTHONPATH]. *)
Lemma launch_event_gets_location_on_sample :
  launch_event sample_launch sample_data sample_options
    (Launch.VDict (Launch.VStr <$> sample_env))
  /\ exists env1 env2 : gmap string string,
       Hook.append_path ":" location "FTRACK_EVENT_PLUGIN_PATH" sample_env
       = Py.Ok env1
       /\ Hook.append_path ":" location "PYTHONPATH" env1 = Py.Ok env2
       /\ Launch.modify_application_launch ":" location
            (Launch.VDict sample_launch)
          = (Launch.VDict
               (with_env sample_launch sample_data sample_options
                  (Launch.VDict (Launch.VStr <$> env2))),
             ([Launch.DebugLaunch; Launch.InfoModified], Py.Ok tt)).
Proof.
  assert (Hevent : launch_event sample_launch sample_data sample_options
                     (Launch.VDict (Launch.VStr <$> sample_env)))
    by (repeat split; vm_compute; reflexivity).
  split; [exact Hevent|].
  exact (launch_event_gets_location ":" location sample_launch sample_data
           sample_options sample_env Hevent).
Defined.

(** X2 on an event of the API. *)
Lemma api_event_gets_environment :
  snd (Launch.modify_application_launch ":" location
         (Launch.VDict sample_api_event))
  = ([Launch.DebugApi; Launch.InfoModified], Py.Ok tt).
Proof.
  rewrite (event_without_options_gets_environment ":" location
             sample_api_event {["selection" := Launch.VNone]})
    by (vm_compute; reflexivity).
  reflexivity.
Defined.

(** X3 on the empty event. *)
Lemma empty_event_is_left_alone :
  exists (t : list Launch.LogRecord) (e : Py.exn),
    Launch.modify_application_launch ":" location (Launch.VDict ∅)
    = (Launch.VDict ∅,
       (t ++ [Launch.ErrorModifying e; Launch.DebugEvent (Launch.VDict ∅)],
        Py.Ok tt))
    /\ (t = [] \/ t = [Launch.DebugApi]).
Proof.
  apply (malformed_event_is_left_alone ":" location ∅).
  left. apply lookup_empty.
Defined.

(** X4 on an environment whose [PYTHONPATH] is [None]. *)
Lemma odd_pythonpath_is_half_applied :
  Launch.modify_application_launch ":" location (Launch.VDict odd_launch)
  = (Launch.VDict
       (with_env odd_launch odd_data odd_options
          (Launch.VDict
             (<["FTRACK_EVENT_PLUGIN_PATH" := Launch.VStr location]> odd_env))),
     ([Launch.DebugLaunch; Launch.ErrorModifying Launch.type_error;
       Launch.DebugEvent
         (Launch.VDict
            (with_env odd_launch odd_data odd_options
               (Launch.VDict
                  (<["FTRACK_EVENT_PLUGIN_PATH" := Launch.VStr location]>
                     odd_env))))],
      Py.Ok tt))
  /\ (<["FTRACK_EVENT_PLUGIN_PATH" := Launch.VStr location]> odd_env)
     !! "PYTHONPATH" = Some Launch.VNone.
Proof.
  apply (second_append_fails_after_first ":" location odd_launch odd_data
           odd_options odd_env).
  - repeat split; vm_compute; reflexivity.
  - vm_compute; reflexivity.
  - vm_compute; reflexivity.
  - intros s. discriminate.
Defined.

(** ** The plugin manager beyond the claims *)

Section ManagerFacts.

Import PluginManager.

Variable STATUSES : StatusCodes.
Variable process : Item -> Py.result unit.

Lemma welcomed_app (t1 t2 : list Event) :
  welcomed (t1 ++ t2) = welcomed t1 || welcomed t2.
Proof. apply existsb_app. Qed.

Lemma process_loop_never_welcomes (total : nat) (entries : list Entry)
  (n : nat) :
  welcomed (snd (process_loop process total entries n)) = false.
Proof.
  revert n. induction entries as [|e entries IH]; intros n.
  - reflexivity.
  - cbn [process_loop]. rewrite process_entry_round. specialize (IH (S n)).
    destruct (process_loop process total entries (S n)) as [m t].
    cbn [fst snd] in *. rewrite welcomed_app, IH.
    unfold round_events. destruct (process (item e)); reflexivity.
Qed.

Lemma auto_callback_never_welcomes (answer : StandardButton) (self : PM)
  (do_install do_update : bool) :
  welcomed
    (trace (_on_auto_install_update_callback STATUSES process answer self
              do_install do_update)) = false.
Proof.
  unfold _on_auto_install_update_callback.
  destruct (length (plugins_to_process STATUSES self do_install do_update)
            =? 0)%nat; [reflexivity|].
  pose proof (process_loop_never_welcomes
                (length (plugins_to_process STATUSES self do_install do_update))
                (plugins_to_process STATUSES self do_install do_update) 0)
    as Hloop.
  destruct (process_loop process _ _ 0) as [m t]. cbn [snd trace] in *.
  change (welcomed (LogProcessingBatch ?n :: ?l)) with (welcomed l).
  rewrite welcomed_app, Hloop.
  destruct (0 <? m)%nat, answer; reflexivity.
Qed.

Lemma gate_closes (answer : StandardButton) (self : PM) :
  _initialised
    (fst (_check_and_run_auto_operations STATUSES process answer self)) = true
  /\ welcomed
       (snd (_check_and_run_auto_operations STATUSES process answer self))
     = false.
Proof.
  unfold _check_and_run_auto_operations.
  destruct (_initialised self) eqn:Hinit; [split; [exact Hinit | reflexivity]|].
  change (enabled auto_install) with true.
  change (enabled auto_update) with true. cbn [orb].
  destruct (0 <? _count_plugins_to_process STATUSES self true true)%nat;
    cbn [fst snd]; split; try reflexivity.
  cbn [app]. change (welcomed (?a :: ?b :: ?c :: ?l)) with (welcomed l).
  rewrite welcomed_app, auto_callback_never_welcomes. reflexivity.
Qed.

Lemma gate_closes_after_fetch (answer : StandardButton) (disable : bool)
  (f : Fetched) (self : PM) :
  _initialised
    (fst (_on_plugin_fetch_callback STATUSES process answer disable f self))
  = true.
Proof.
  unfold _on_plugin_fetch_callback.
  destruct (gate_closes answer (populate f self)) as [Hset _].
  destruct (_check_and_run_auto_operations STATUSES process answer
              (populate f self)) as [self' t].
  cbn [fst snd] in *. rewrite Hset. cbn [negb andb fst]. exact Hset.
Qed.

End ManagerFacts.

(** X5.  Whatever the fetch delivers and whatever state the manager is in,
    [_on_plugin_fetch_callback] leaves [_initialised] set and never emits
    [show_welcome]: [_check_and_run_auto_operations] has set the flag
    before the test [not self._initialised] is reached. *)
Theorem fetch_callback_never_emits_show_welcome
  (STATUSES : PluginManager.StatusCodes)
  (process : PluginManager.Item -> Py.result unit)
  (answer : PluginManager.StandardButton) (disable_startup_widget : bool)
  (f : PluginManager.Fetched) (self : PluginManager.PM) :
  PluginManager._initialised
    (fst (PluginManager._on_plugin_fetch_callback STATUSES process answer
            disable_startup_widget f self)) = true
  /\ welcomed
       (snd (PluginManager._on_plugin_fetch_callback STATUSES process answer
               disable_startup_widget f self)) = false.
Proof.
  unfold PluginManager._on_plugin_fetch_callback.
  destruct (gate_closes STATUSES process answer (PluginManager.populate f self))
    as [Hset Hquiet].
  destruct (PluginManager._check_and_run_auto_operations STATUSES process
              answer (PluginManager.populate f self)) as [self' t].
  cbn [fst snd] in *. rewrite Hset. cbn [negb andb fst snd]. auto.
Qed.

(** X6.  A second delivery of the fetch callback with no [refresh] in
    between only repopulates the widget: it logs nothing, processes nothing
    and asks nothing. *)
Theorem second_fetch_callback_only_repopulates
  (STATUSES : PluginManager.StatusCodes)
  (process : PluginManager.Item -> Py.result unit)
  (answer1 answer2 : PluginManager.StandardButton) (disable1 disable2 : bool)
  (f1 f2 : PluginManager.Fetched) (self : PluginManager.PM) :
  let self1 :=
    fst (PluginManager._on_plugin_fetch_callback STATUSES process answer1
           disable1 f1 self) in
  PluginManager._on_plugin_fetch_callback STATUSES process answer2 disable2
    f2 self1
  = (PluginManager.populate f2 self1, []).
Proof.
  intros self1.
  assert (Hset : PluginManager._initialised self1 = true)
    by apply (gate_closes_after_fetch STATUSES process).
  unfold PluginManager._on_plugin_fetch_callback at 1,
    PluginManager._check_and_run_auto_operations.
  cbn [PluginManager._initialised PluginManager.populate]. rewrite Hset.
  cbn [PluginManager._initialised PluginManager.populate]. rewrite Hset.
  reflexivity.
Qed.

Section WelcomeFacts.

Import PluginManager.

Variable STATUSES : StatusCodes.
Variable process : Item -> Py.result unit.
Variable on_plugin_installed_callback : nat -> Py.result unit.

Lemma manager_events_map (t : list Event) :
  manager_events (map Welcome.Manager t) = t.
Proof.
  unfold manager_events.
  induction t as [|ev t IH]; [reflexivity | cbn; now rewrite IH].
Qed.

Lemma auto_callback_attempted (answer : StandardButton) (self : PM)
  (do_install do_update : bool) :
  attempted
    (trace (_on_auto_install_update_callback STATUSES process answer self
              do_install do_update))
  = List.filter (selected STATUSES do_install do_update) (plugin_model self).
Proof.
  rewrite <- entries_selected.
  unfold _on_auto_install_update_callback.
  set (entries := plugins_to_process STATUSES self do_install do_update).
  destruct (length entries =? 0)%nat eqn:Hzero.
  - apply Nat.eqb_eq, length_zero_iff_nil in Hzero. now rewrite Hzero.
  - pose proof (process_loop_attempted process (length entries) entries 0)
      as Hatt.
    destruct (process_loop process (length entries) entries 0) as [m t].
    cbn [snd trace] in *.
    change (attempted (LogProcessingBatch (length entries) :: ?x))
      with (attempted x).
    rewrite attempted_app, Hatt.
    destruct (0 <? m)%nat, answer; cbn; apply app_nil_r.
Qed.

Lemma install_loop_runs (items : list Item) (i : nat) :
  Forall (fun it => process it = Py.Ok tt) items ->
  (forall n, i < n <= i + length items ->
             on_plugin_installed_callback n = Py.Ok tt) ->
  exists t : list Welcome.Event,
    Welcome.install_loop process on_plugin_installed_callback items i
    = (t, Py.Ok tt)
    /\ attempted (manager_events t) = items
    /\ installed_indices t = seq (S i) (length items).
Proof.
  intros Hall. revert i.
  induction Hall as [|it items Hit _ IH]; intros i Hcb.
  - exists []. repeat split.
  - destruct (IH (S i)) as (t & Ht & Hatt & Hidx).
    { intros n Hn. apply Hcb. cbn [length]. lia. }
    exists (Welcome.Manager (ProcessCalled it)
            :: Welcome.PluginInstalled (i + 1) :: t).
    cbn [Welcome.install_loop]. unfold Py.seq, Py.then_, Py.call.
    rewrite Hit, Hcb by (cbn [length]; lia). rewrite Ht. cbn [fst snd app].
    split; [reflexivity|]. split.
    + change (attempted (manager_events (Welcome.Manager (ProcessCalled it)
                :: Welcome.PluginInstalled (i + 1) :: t)))
        with (it :: attempted (manager_events t)).
      now rewrite Hatt.
    + change (installed_indices (Welcome.Manager (ProcessCalled it)
                :: Welcome.PluginInstalled (i + 1) :: t))
        with ((i + 1) :: installed_indices t).
      rewrite Hidx. cbn [length seq]. f_equal. lia.
Qed.

Lemma install_loop_stops (before after : list Item) (k : Item)
  (error : Py.exn) (i : nat) :
  Forall (fun it => process it = Py.Ok tt) before ->
  (forall n, i < n <= i + length before ->
             on_plugin_installed_callback n = Py.Ok tt) ->
  process k = Py.Raise error ->
  exists t : list Welcome.Event,
    Welcome.install_loop process on_plugin_installed_callback
      (before ++ k :: after) i
    = (t, Py.Raise error)
    /\ attempted (manager_events t) = before ++ [k]
    /\ installed_indices t = seq (S i) (length before).
Proof.
  intros Hall. revert i.
  induction Hall as [|it before Hit _ IH]; intros i Hcb Hk.
  - exists [Welcome.Manager (ProcessCalled k)].
    cbn [app Welcome.install_loop]. unfold Py.seq, Py.then_, Py.call.
    rewrite Hk. repeat split.
  - destruct (IH (S i)) as (t & Ht & Hatt & Hidx); [|exact Hk|].
    { intros n Hn. apply Hcb. cbn [length]. lia. }
    exists (Welcome.Manager (ProcessCalled it)
            :: Welcome.PluginInstalled (i + 1) :: t).
    cbn [app Welcome.install_loop]. unfold Py.seq, Py.then_, Py.call.
    rewrite Hit, Hcb by (cbn [length]; lia). rewrite Ht. cbn [fst snd app].
    split; [reflexivity|]. split.
    + change (attempted (manager_events (Welcome.Manager (ProcessCalled it)
                :: Welcome.PluginInstalled (i + 1) :: t)))
        with (it :: attempted (manager_events t)).
      now rewrite Hatt.
    + change (installed_indices (Welcome.Manager (ProcessCalled it)
                :: Welcome.PluginInstalled (i + 1) :: t))
        with ((i + 1) :: installed_indices t).
      rewrite Hidx. cbn [length seq]. f_equal. lia.
Qed.

End WelcomeFacts.

(** X7.  [_on_show_welcome_callback] never executes the welcome dialog.
    With no downloadable plugin it only warns and hands nothing to the
    processor; otherwise it hands over exactly the rows that are NEW,
    UPDATE or DOWNLOAD, in model order. *)
Theorem show_welcome_callback_never_opens_dialog
  (STATUSES : PluginManager.StatusCodes)
  (process : PluginManager.Item -> Py.result unit)
  (answer : PluginManager.StandardButton) (self : PluginManager.PM)
  (downloadable_plugin_count : nat) :
  existsb is_WelcomeDialogExec
    (snd (Welcome._on_show_welcome_callback STATUSES process answer self
            downloadable_plugin_count)) = false
  /\ PluginManager.attempted
       (manager_events
          (snd (Welcome._on_show_welcome_callback STATUSES process answer self
                  downloadable_plugin_count)))
     = if (downloadable_plugin_count =? 0)%nat then []
       else List.filter (selected STATUSES true true)
              (PluginManager.plugin_model self).
Proof.
  unfold Welcome._on_show_welcome_callback.
  destruct (downloadable_plugin_count =? 0)%nat; [split; reflexivity|].
  cbv zeta. change (PluginManager.enabled "true") with true.
  cbn [orb snd]. split.
  - generalize (([PluginManager.LogAutoInstalling downloadable_plugin_count]
       ++ [PluginManager.LogAutoUpdating
             (PluginManager._count_plugin_updates self)]
       ++ PluginManager.trace
            (PluginManager._on_auto_install_update_callback STATUSES process
               answer self true true)
       ++ [PluginManager.LogAutoCompleted])).
    intros l. induction l as [|ev l IH]; [reflexivity | exact IH].
  - rewrite manager_events_map. cbn [app].
    change (PluginManager.attempted (?a :: ?b :: ?l))
      with (PluginManager.attempted l).
    rewrite attempted_app, auto_callback_attempted. apply app_nil_r.
Qed.

(** X8.  [_on_install_all_callback] hands every row of the model to the
    processor, checked or not and whatever its status, reports
    1, 2, ..., n to its callback and resets the selection, provided no
    call raises. *)
Theorem install_all_processes_every_row
  (process : PluginManager.Item -> Py.result unit)
  (on_plugin_installed_callback : nat -> Py.result unit)
  (self : PluginManager.PM) :
  Forall (fun it => process it = Py.Ok tt) (PluginManager.plugin_model self) ->
  (forall n, 1 <= n <= length (PluginManager.plugin_model self) ->
             on_plugin_installed_callback n = Py.Ok tt) ->
  exists t : list Welcome.Event,
    Welcome._on_install_all_callback process on_plugin_installed_callback self
    = (PluginManager._reset_plugin_list self, (t, Py.Ok tt))
    /\ PluginManager.attempted (manager_events t)
       = PluginManager.plugin_model self
    /\ installed_indices t
       = seq 1 (length (PluginManager.plugin_model self)).
Proof.
  intros Hall Hcb.
  destruct (install_loop_runs process on_plugin_installed_callback
              (PluginManager.plugin_model self) 0 Hall)
    as (t & Ht & Hatt & Hidx).
  { intros n Hn. apply Hcb. lia. }
  exists t. unfold Welcome._on_install_all_callback. rewrite Ht. auto.
Qed.

(** X8 on the two sample rows. *)
Lemma install_all_on_two_rows :
  exists t : list Welcome.Event,
    Welcome._on_install_all_callback succeeds succeeds two_rows
    = (PluginManager._reset_plugin_list two_rows, (t, Py.Ok tt))
    /\ PluginManager.attempted (manager_events t)
       = PluginManager.plugin_model two_rows
    /\ installed_indices t
       = seq 1 (length (PluginManager.plugin_model two_rows)).
Proof.
  apply install_all_processes_every_row.
  - repeat constructor.
  - intros n Hn. reflexivity.
Defined.

(** X9.  [_on_install_all_callback] has no [try]: the first row the
    processor fails on ends the loop with that error, the rows after it
    are not processed, the callback has been told of the rows before it
    only, and the selection is not reset. *)
Theorem install_all_stops_at_first_failure
  (process : PluginManager.Item -> Py.result unit)
  (on_plugin_installed_callback : nat -> Py.result unit)
  (self : PluginManager.PM) (before after : list PluginManager.Item)
  (k : PluginManager.Item) (error : Py.exn) :
  PluginManager.plugin_model self = before ++ k :: after ->
  Forall (fun it => process it = Py.Ok tt) before ->
  (forall n, 1 <= n <= length before ->
             on_plugin_installed_callback n = Py.Ok tt) ->
  process k = Py.Raise error ->
  exists t : list Welcome.Event,
    Welcome._on_install_all_callback process on_plugin_installed_callback self
    = (self, (t, Py.Raise error))
    /\ PluginManager.attempted (manager_events t) = before ++ [k]
    /\ installed_indices t = seq 1 (length before).
Proof.
  intros Hrows Hall Hcb Hk.
  destruct (install_loop_stops process on_plugin_installed_callback
              before after k error 0 Hall)
    as (t & Ht & Hatt & Hidx); [|exact Hk|].
  { intros n Hn. apply Hcb. lia. }
  exists t. unfold Welcome._on_install_all_callback. rewrite Hrows, Ht. auto.
Qed.

(** X9 with a processor that fails on the second row. *)
Lemma install_all_stops_at_plugin_b :
  exists t : list Welcome.Event,
    Welcome._on_install_all_callback (fails_on "plugin-b") succeeds two_rows
    = (two_rows, (t, Py.Raise disk_full))
    /\ PluginManager.attempted (manager_events t) = [row_a] ++ [row_b]
    /\ installed_indices t = seq 1 (length [row_a]).
Proof.
  apply (install_all_stops_at_first_failure (fails_on "plugin-b") succeeds
           two_rows [row_a] [] row_b disk_full).
  - reflexivity.
  - repeat constructor.
  - intros n Hn. reflexivity.
  - reflexivity.
Defined.

Section CountFacts.

Import PluginManager.

Variable STATUSES : StatusCodes.

Lemma count_updates_loop (items : list Item) (acc : nat) :
  fold_left
    (fun update_count item =>
       if (PLUGIN_STATUS item =? 2)%Z then S update_count else update_count)
    items acc
  = acc + length (List.filter (fun it => (PLUGIN_STATUS it =? 2)%Z) items).
Proof.
  revert acc. induction items as [|it items IH]; intros acc; cbn.
  - lia.
  - rewrite IH. destruct (PLUGIN_STATUS it =? 2)%Z; cbn; lia.
Qed.

Lemma filter_length_mono {A : Type} (p q : A -> bool) (l : list A) :
  (forall x, p x = true -> q x = true) ->
  length (List.filter p l) <= length (List.filter q l).
Proof.
  intros Hpq. induction l as [|x l IH]; cbn; [lia|].
  destruct (p x) eqn:Hp.
  - rewrite (Hpq x Hp). cbn. lia.
  - destruct (q x); cbn; lia.
Qed.

Lemma filter_length_le {A : Type} (p : A -> bool) (l : list A) :
  length (List.filter p l) <= length l.
Proof.
  induction l as [|x l IH]; cbn; [lia|]. destruct (p x); cbn; lia.
Qed.

End CountFacts.

(** X10.  When the status enumeration has [UPDATE = 2], the number
    [_count_plugin_updates] logs is the number [_count_plugins_to_process]
    gives for updates alone; it never exceeds the number of rows the
    automatic run processes, which never exceeds the number of rows. *)
Theorem update_count_is_within_batch
  (STATUSES : PluginManager.StatusCodes) (self : PluginManager.PM) :
  PluginManager.UPDATE STATUSES = 2%Z ->
  PluginManager._count_plugin_updates self
  = PluginManager._count_plugins_to_process STATUSES self false true
  /\ PluginManager._count_plugin_updates self
     <= PluginManager._count_plugins_to_process STATUSES self true true
  /\ PluginManager._count_plugins_to_process STATUSES self true true
     <= length (PluginManager.plugin_model self).
Proof.
  intros Hupdate. rewrite !count_selected.
  unfold PluginManager._count_plugin_updates. rewrite count_updates_loop.
  cbn [Nat.add]. split; [|split].
  - f_equal. apply filter_ext. intros it. unfold selected. rewrite Hupdate.
    now rewrite !andb_false_r, andb_true_r, orb_false_r.
  - apply filter_length_mono. intros it Hit. unfold selected.
    rewrite Hupdate, Hit.
    destruct (PluginManager.PLUGIN_STATUS it =? PluginManager.NEW STATUSES)%Z;
      reflexivity.
  - apply filter_length_le.
Qed.

(** X10 with the sample status codes. *)
Lemma update_count_on_two_rows :
  PluginManager._count_plugin_updates two_rows
  = PluginManager._count_plugins_to_process sample_statuses two_rows false true
  /\ PluginManager._count_plugin_updates two_rows
     <= PluginManager._count_plugins_to_process sample_statuses two_rows
          true true
  /\ PluginManager._count_plugins_to_process sample_statuses two_rows true true
     <= length (PluginManager.plugin_model two_rows).
Proof. apply update_count_is_within_batch. reflexivity. Defined.

Section ApplyFacts.

Import PluginManager.

Variable process : Item -> Py.result unit.
Variable archive_legacy_plugin : string -> Py.result unit.

Lemma archive_loop_stops (before after : list string) (plugin : string)
  (error : Py.exn) :
  Forall (fun p => archive_legacy_plugin p = Py.Ok tt) before ->
  archive_legacy_plugin plugin = Py.Raise error ->
  Py.for_each
    (fun plugin =>
       Py.call (ArchiveLegacyPlugin plugin) (archive_legacy_plugin plugin))
    (before ++ plugin :: after)
  = (map ArchiveLegacyPlugin (before ++ [plugin]), Py.Raise error).
Proof.
  intros Hall Hp. induction Hall as [|p before Hok _ IH]; cbn.
  - unfold Py.seq, Py.then_, Py.call. now rewrite Hp.
  - rewrite IH. unfold Py.seq, Py.then_, Py.call. now rewrite Hok.
Qed.



Lemma attempted_archive (archive : list string) :
  attempted (map ArchiveLegacyPlugin archive) = [].
Proof.
  unfold attempted.
  induction archive as [|p archive IH]; [reflexivity | exact IH].
Qed.



End ApplyFacts.



(** X12.  When archiving a legacy plugin raises, the plugins after it are
    not archived, no row is handed to the processor, [installation_failed]
    is emitted with the error as the last event, and the manager is left
    as it was. *)
Theorem archive_failure_installs_nothing
  (process : PluginManager.Item -> Py.result unit)
  (archive_legacy_plugin : string -> Py.result unit)
  (track_usage : list PluginManager.Item -> Py.result unit)
  (self : PluginManager.PM) (before after : list string) (plugin : string)
  (error : Py.exn) :
  Forall (fun p => archive_legacy_plugin p = Py.Ok tt) before ->
  archive_legacy_plugin plugin = Py.Raise error ->
  PluginManager.on_apply_changes_confirmed_callback process
    archive_legacy_plugin track_usage self (before ++ plugin :: after)
  = (self,
     PluginManager.InstallationStarted
     :: map PluginManager.ArchiveLegacyPlugin (before ++ [plugin])
     ++ [PluginManager.InstallationFailed error])
  /\ PluginManager.attempted
       (snd (PluginManager.on_apply_changes_confirmed_callback process
               archive_legacy_plugin track_usage self
               (before ++ plugin :: after))) = [].
Proof.
  intros Hbefore Hplugin.
  assert (Hrun :
    PluginManager.on_apply_changes_confirmed_callback process
      archive_legacy_plugin track_usage self (before ++ plugin :: after)
    = (self,
       PluginManager.InstallationStarted
       :: map PluginManager.ArchiveLegacyPlugin (before ++ [plugin])
       ++ [PluginManager.InstallationFailed error])).
  { unfold PluginManager.on_apply_changes_confirmed_callback.
    rewrite (archive_loop_stops archive_legacy_plugin before after plugin
               error Hbefore Hplugin).
    reflexivity. }
  split; [exact Hrun|]. rewrite Hrun. cbn [snd].
  change (PluginManager.attempted (PluginManager.InstallationStarted :: ?x))
    with (PluginManager.attempted x).
  rewrite attempted_app, attempted_archive. reflexivity.
Qed.

(** X12 with an archive step that fails. *)
Lemma failed_archive_installs_nothing :
  PluginManager.attempted
    (snd (PluginManager.on_apply_changes_confirmed_callback succeeds
            (fun _ => Py.Raise disk_full) succeeds two_rows
            ([] ++ "legacy-plugin" :: []))) = [].
Proof.
  apply (archive_failure_installs_nothing succeeds
           (fun _ => Py.Raise disk_full) succeeds two_rows [] []
           "legacy-plugin" disk_full).
  - constructor.
  - reflexivity.
Defined.



(** ** The download beyond the claims *)

Section StreamFacts.

Import UpdateDialog.

Variable cancel_at : option nat.

Lemma write_loop_disk (destination : string) (total : nat)
  (stream : list bytes) (downloaded : nat) (st : State) (content : bytes) :
  disk st !! destination = Some content ->
  disk (fst (write_loop cancel_at destination total stream downloaded st))
  = <[destination := content ++ concat stream]> (disk st).
Proof.
  revert downloaded st content.
  induction stream as [|chunk stream IH]; intros downloaded st content Hfile.
  - cbn. rewrite app_nil_r. symmetry. now apply insert_id.
  - destruct chunk as [|b chunk]; cbn [write_loop concat].
    + cbn [app]. apply IH, Hfile.
    + set (st1 := write destination (b :: chunk) st).
      set (st2 := if (0 <? total)%nat
                  then progress_callback cancel_at
                         (downloaded + length (b :: chunk)) total st1
                  else st1).
      assert (Hdisk2 : disk st2
                       = <[destination := content ++ b :: chunk]> (disk st)).
      { subst st2. destruct (0 <? total)%nat.
        - destruct (callback_writes_nothing cancel_at
                      (downloaded + length (b :: chunk)) total st1) as [_ ->].
          subst st1. unfold write. cbn [disk]. unfold bytes in *.
          now rewrite Hfile.
        - subst st1. unfold write. cbn [disk]. unfold bytes in *.
          now rewrite Hfile. }
      rewrite (IH _ st2 (content ++ b :: chunk)).
      * rewrite Hdisk2, insert_insert_eq. now rewrite <- app_assoc.
      * rewrite Hdisk2. apply lookup_insert_eq.
Qed.


End StreamFacts.

Section QuietStream.

Import UpdateDialog.

Lemma uncancelled_loop (destination : string) (total : nat)
  (stream : list bytes) (downloaded : nat) (st : State) :
  cancelled st = false ->
  let st' := fst (write_loop None destination total stream downloaded st) in
  cancelled st' = false
  /\ shown (events st')
     = shown (events st)
       ++ (if (0 <? total)%nat
           then map (fun d => Ratio d total) (running_totals downloaded stream)
           else []).
Proof.
  revert downloaded st.
  induction stream as [|chunk stream IH]; intros downloaded st Hc st'.
  - subst st'. cbn [write_loop fst running_totals map].
    split; [exact Hc|].
    destruct (0 <? total)%nat; now rewrite app_nil_r.
  - subst st'. destruct chunk as [|b chunk]; cbn [write_loop running_totals].
    + apply IH, Hc.
    + set (st1 := write destination (b :: chunk) st).
      set (st2 := if (0 <? total)%nat
                  then progress_callback None
                         (downloaded + length (b :: chunk)) total st1
                  else st1).
      assert (H2 : cancelled st2 = false
                   /\ events st2
                      = events st ++ Written (b :: chunk)
                        :: (if (0 <? total)%nat
                            then [UpdateProgress
                                    (Ratio (downloaded + length (b :: chunk))
                                       total); ProcessEvents]
                            else [])).
      { subst st2 st1. unfold progress_callback, write.
        cbn [cancelled events callbacks]. rewrite Hc.
        destruct (0 <? total)%nat; cbn [cancelled events].
        - split; [reflexivity|]. rewrite <- app_assoc. reflexivity.
        - split; reflexivity. }
      destruct H2 as [Hc2 Hev2].
      destruct (IH (downloaded + length (b :: chunk)) st2 Hc2)
        as (Hc' & Hshown).
      split; [exact Hc'|].
      rewrite Hshown, Hev2, shown_app.
      destruct (0 <? total)%nat; cbn [map]; rewrite <- app_assoc;
        reflexivity.
Qed.

End QuietStream.

(** X14.  Once the request, the size header and [open] have passed,
    [download_file_with_progress] leaves at the destination exactly the
    chunks of the stream one after the other, whatever the file held
    before, touches no other file, and returns [True] exactly when the
    stream did not break off; cancelling changes none of this. *)
Theorem download_file_holds_the_stream
  (cancel_at : option nat) (env : UpdateDialog.Environment)
  (destination : string) (st : UpdateDialog.State)
  (response : UpdateDialog.Response) (total : nat) :
  UpdateDialog.get env = Py.Ok response ->
  UpdateDialog.total_size response = Py.Ok total ->
  UpdateDialog.open_destination env = Py.Ok tt ->
  UpdateDialog.disk
    (fst (UpdateDialog.download_file_with_progress cancel_at env destination st))
  = <[destination := concat (UpdateDialog.chunks response)]>
      (UpdateDialog.disk st)
  /\ snd (UpdateDialog.download_file_with_progress cancel_at env destination st)
     = match UpdateDialog.stream_error response with
       | None => true
       | Some _ => false
       end.
Proof.
  intros Hget Htotal Hopen. unfold UpdateDialog.download_file_with_progress.
  rewrite Hget, Htotal, Hopen.
  set (st0 := {| UpdateDialog.disk :=
                   <[destination := []]> (UpdateDialog.disk st);
                 UpdateDialog.cancelled := UpdateDialog.cancelled st;
                 UpdateDialog.callbacks := UpdateDialog.callbacks st;
                 UpdateDialog.events := UpdateDialog.events st |}).
  pose proof (write_loop_disk cancel_at destination total
                (UpdateDialog.chunks response) 0 st0 []
                (lookup_insert_eq _ _ _)) as Hdisk.
  destruct (UpdateDialog.write_loop cancel_at destination total
              (UpdateDialog.chunks response) 0 st0)
    as [st1 downloaded].
  cbn [fst] in Hdisk. cbn [app] in Hdisk.
  replace (UpdateDialog.disk st0)
    with (<[destination := []]> (UpdateDialog.disk st)) in Hdisk
    by reflexivity.
  rewrite insert_insert_eq in Hdisk.
  destruct (UpdateDialog.stream_error response); cbn [fst snd];
    split; try reflexivity; exact Hdisk.
Qed.

(** X14 on the stream of three chunks. *)
Lemma three_chunks_on_disk :
  UpdateDialog.disk
    (fst (UpdateDialog.download_file_with_progress None online temp_dmg idle))
  = <[temp_dmg := concat (UpdateDialog.chunks three_chunks)]>
      (UpdateDialog.disk idle)
  /\ snd (UpdateDialog.download_file_with_progress None online temp_dmg idle)
     = match UpdateDialog.stream_error three_chunks with
       | None => true
       | Some _ => false
       end.
Proof.
  apply (download_file_holds_the_stream None online temp_dmg idle
           three_chunks 3); reflexivity.
Defined.

(** X15.  When the stream breaks off and Cancel is not clicked,
    [_on_auto_update_clicked] ends by showing 'Failed to download update.'
    and the temporary file is not removed: it stays on disk with the
    chunks received so far. *)
Theorem broken_download_stays_on_disk
  (env : UpdateDialog.Environment) (temp_file : string)
  (disk0 : gmap string UpdateDialog.bytes)
  (response : UpdateDialog.Response) (total : nat) (error : Py.exn) :
  UpdateDialog.get env = Py.Ok response ->
  UpdateDialog.total_size response = Py.Ok total ->
  UpdateDialog.open_destination env = Py.Ok tt ->
  UpdateDialog.stream_error response = Some error ->
  snd (UpdateDialog.download_update None env temp_file disk0)
  = UpdateDialog.DownloadFailed
  /\ UpdateDialog.disk
       (fst (UpdateDialog.download_update None env temp_file disk0))
     = <[temp_file := concat (UpdateDialog.chunks response)]> disk0
  /\ last (UpdateDialog.events
             (fst (UpdateDialog.download_update None env temp_file disk0)))
     = Some UpdateDialog.DownloadErrorDialog.
Proof.
  intros Hget Htotal Hopen Hbroken. unfold UpdateDialog.download_update.
  set (st0 := {| UpdateDialog.disk := <[temp_file := []]> disk0;
                 UpdateDialog.cancelled := false;
                 UpdateDialog.callbacks := 0;
                 UpdateDialog.events :=
                   [UpdateDialog.UpdateProgress (UpdateDialog.Fixed 0)] |}).
  assert (Hflag :
    UpdateDialog.cancelled
      (fst (UpdateDialog.download_file_with_progress None env temp_file st0))
    = false).
  { unfold UpdateDialog.download_file_with_progress.
    rewrite Hget, Htotal, Hopen.
    set (st1 := {| UpdateDialog.disk := _ |}).
    destruct (uncancelled_loop temp_file total (UpdateDialog.chunks response)
                0 st1 eq_refl) as [Hc _].
    destruct (UpdateDialog.write_loop None temp_file total
                (UpdateDialog.chunks response) 0 st1) as [st2 downloaded].
    rewrite Hbroken. exact Hc. }
  assert (Hrun :
    UpdateDialog.disk
      (fst (UpdateDialog.download_file_with_progress None env temp_file st0))
    = <[temp_file := concat (UpdateDialog.chunks response)]>
        (UpdateDialog.disk st0)
    /\ snd (UpdateDialog.download_file_with_progress None env temp_file st0)
       = false).
  { unfold UpdateDialog.download_file_with_progress.
    rewrite Hget, Htotal, Hopen.
    set (st1 := {| UpdateDialog.disk := _ |}).
    pose proof (write_loop_disk None temp_file total
                  (UpdateDialog.chunks response) 0 st1 []
                  (lookup_insert_eq _ _ _)) as Hdisk.
    destruct (UpdateDialog.write_loop None temp_file total
                (UpdateDialog.chunks response) 0 st1) as [st2 downloaded].
    rewrite Hbroken. cbn [fst snd UpdateDialog.emit UpdateDialog.disk] in *.
    split; [|reflexivity]. rewrite Hdisk. subst st1. cbn [UpdateDialog.disk].
    apply insert_insert_eq. }
  destruct Hrun as [Hdisk Hsuccess].
  destruct (UpdateDialog.download_file_with_progress None env temp_file st0)
    as [st1 success].
  cbn [fst snd] in *. subst success.
  unfold UpdateDialog.after_download. rewrite Hflag.
  cbn [fst snd UpdateDialog.emit UpdateDialog.disk UpdateDialog.events].
  split; [reflexivity|]. split.
  - rewrite Hdisk. subst st0. cbn [UpdateDialog.disk].
    apply insert_insert_eq.
  - now rewrite last_app.
Qed.

(** X15 on a stream that breaks off after two chunks. *)
Lemma two_chunks_stay_on_disk :
  snd (UpdateDialog.download_update None flaky temp_dmg ∅)
  = UpdateDialog.DownloadFailed
  /\ UpdateDialog.disk (fst (UpdateDialog.download_update None flaky temp_dmg ∅))
     = <[temp_dmg := concat (UpdateDialog.chunks broken_stream)]> ∅
  /\ last (UpdateDialog.events
             (fst (UpdateDialog.download_update None flaky temp_dmg ∅)))
     = Some UpdateDialog.DownloadErrorDialog.
Proof.
  apply (broken_download_stays_on_disk flaky temp_dmg ∅ broken_stream 3
           connection_refused); reflexivity.
Defined.



(** X17.  In a download that runs to its end without a click, the
    progress dialog is shown 0, then after every chunk that carries data
    the running total of bytes against the announced size, then 100, 10
    and 100 again. *)
Theorem progress_shows_running_totals
  (env : UpdateDialog.Environment) (temp_file : string)
  (disk0 : gmap string UpdateDialog.bytes)
  (response : UpdateDialog.Response) (total : nat) :
  UpdateDialog.get env = Py.Ok response ->
  UpdateDialog.total_size response = Py.Ok total ->
  UpdateDialog.open_destination env = Py.Ok tt ->
  UpdateDialog.stream_error response = None ->
  0 < total ->
  UpdateDialog.shown
    (UpdateDialog.events
       (fst (UpdateDialog.download_update None env temp_file disk0)))
  = UpdateDialog.Fixed 0
    :: map (fun d => UpdateDialog.Ratio d total)
         (running_totals 0 (UpdateDialog.chunks response))
    ++ [UpdateDialog.Fixed 100; UpdateDialog.Fixed 10; UpdateDialog.Fixed 100].
Proof.
  intros Hget Htotal Hopen Hstream Hpos.
  unfold UpdateDialog.download_update,
    UpdateDialog.download_file_with_progress.
  rewrite Hget, Htotal, Hopen.
  set (st1 := {| UpdateDialog.disk := _ |}).
  destruct (uncancelled_loop temp_file total (UpdateDialog.chunks response)
              0 st1 eq_refl) as [Hc Hshown].
  destruct (UpdateDialog.write_loop None temp_file total
              (UpdateDialog.chunks response) 0 st1) as [st2 downloaded].
  cbn [fst] in Hc, Hshown. rewrite Hstream.
  unfold UpdateDialog.after_download. rewrite Hc.
  cbn [fst UpdateDialog.emit UpdateDialog.events].
  rewrite shown_app, Hshown.
  apply Nat.ltb_lt in Hpos. rewrite Hpos. reflexivity.
Qed.

(** X17 on the stream of three chunks. *)
Lemma progress_of_three_chunks :
  UpdateDialog.shown
    (UpdateDialog.events
       (fst (UpdateDialog.download_update None online temp_dmg ∅)))
  = UpdateDialog.Fixed 0
    :: map (fun d => UpdateDialog.Ratio d 3)
         (running_totals 0 (UpdateDialog.chunks three_chunks))
    ++ [UpdateDialog.Fixed 100; UpdateDialog.Fixed 10; UpdateDialog.Fixed 100].
Proof.
  apply (progress_shows_running_totals online temp_dmg ∅ three_chunks 3);
    try reflexivity.
  lia.
Defined.

(** ** Release notes beyond the claims *)

Section BulletFacts.

Import PyStr UpdateDialog.

Lemma bullet_starts (text : string) : startswith (bullet +:+ text) bullet = true.
Proof.
  unfold startswith, bullet. destruct text; vm_compute; reflexivity.
Qed.

Lemma bullet_of_line_starts (raw b : string) :
  bullet_of_line raw = Some b -> startswith b bullet = true.
Proof.
  unfold bullet_of_line. intros H.
  repeat match type of H with
         | (if ?c then _ else _) = Some _ => destruct c
         end;
    try discriminate; injection H as <-; apply bullet_starts.
Qed.

Lemma keyword_bullet_starts (raw b : string) :
  keyword_bullet raw = Some b -> startswith b bullet = true.
Proof.
  unfold keyword_bullet. intros H.
  destruct (_ && _); [|discriminate]. injection H as <-. apply bullet_starts.
Qed.

Lemma omap_starts (f : string -> option string) (lines : list string) :
  (forall raw b, f raw = Some b -> startswith b bullet = true) ->
  Forall (fun line => startswith line bullet = true) (omap f lines).
Proof.
  intros Hf. induction lines as [|raw lines IH]; cbn.
  - constructor.
  - destruct (f raw) as [b|] eqn:Hb; [|exact IH].
    constructor; [exact (Hf raw b Hb) | exact IH].
Qed.

Lemma joined_bullets_lines (bullets : list string) :
  bullets <> [] ->
  Forall (fun line => no_lf line = true) bullets ->
  Forall (fun line => startswith line bullet = true) bullets ->
  Forall (fun line => startswith line bullet = true)
    (split_lines (join NL (take 5 bullets))).
Proof.
  intros Hne Hlf Hall. rewrite split_lines_join.
  - apply Forall_take, Hall.
  - destruct bullets; [congruence | discriminate].
  - apply Forall_take, Hlf.
Qed.

End BulletFacts.

(** X18.  Whatever the release notes are, every line of the text
    [_format_release_notes] returns starts with the bullet sign and a
    space. *)
Theorem release_notes_lines_are_bullets (release_notes : string) :
  Forall (fun line => PyStr.startswith line UpdateDialog.bullet = true)
    (PyStr.split_lines (UpdateDialog._format_release_notes release_notes)).
Proof.
  destruct (UpdateDialog.nonempty release_notes) eqn:Hnotes;
    [destruct (UpdateDialog.nonempty (PyStr.strip release_notes)) eqn:Hstrip|].
  - rewrite (format_is_parse release_notes Hnotes Hstrip).
    pose proof (parse_markdown_cases release_notes) as Hcases.
    cbv zeta in Hcases. rewrite Hcases. clear Hcases.
    pose proof (split_lines_no_lf (PyStr.strip release_notes)) as Hlf.
    pose proof (omap_no_lf UpdateDialog.bullet_of_line _ bullet_no_lf Hlf)
      as Hlf1.
    pose proof (omap_no_lf UpdateDialog.keyword_bullet _ keyword_bullet_no_lf
                  Hlf) as Hlf2.
    pose proof (omap_starts UpdateDialog.bullet_of_line
                  (PyStr.split_lines (PyStr.strip release_notes))
                  bullet_of_line_starts) as Hb1.
    pose proof (omap_starts UpdateDialog.keyword_bullet
                  (PyStr.split_lines (PyStr.strip release_notes))
                  keyword_bullet_starts) as Hb2.
    destruct (omap UpdateDialog.bullet_of_line
                (PyStr.split_lines (PyStr.strip release_notes)))
      as [|b1 l1].
    + destruct (omap UpdateDialog.keyword_bullet
                  (PyStr.split_lines (PyStr.strip release_notes)))
        as [|b2 l2].
      * vm_compute. repeat constructor.
      * apply joined_bullets_lines; [discriminate | exact Hlf2 | exact Hb2].
    + apply joined_bullets_lines; [discriminate | exact Hlf1 | exact Hb1].
  - unfold UpdateDialog._format_release_notes. rewrite Hnotes, Hstrip.
    vm_compute. repeat constructor.
  - unfold UpdateDialog._format_release_notes. rewrite Hnotes.
    vm_compute. repeat constructor.
Qed.

(** ** The download URL *)

Section UrlFacts.

Import PyStrExt.

Lemma endswith_refl (p : string) : endswith p p = true.
Proof. destruct p; cbn [endswith]; now rewrite String.eqb_refl. Qed.

Lemma endswith_cons (c : ascii) (s p : string) :
  endswith s p = true -> endswith (String c s) p = true.
Proof. intros H. cbn [endswith]. rewrite H. apply orb_true_r. Qed.

Lemma endswith_app (pre s p : string) :
  endswith s p = true -> endswith (pre +:+ s) p = true.
Proof.
  intros H. induction pre as [|c pre IH]; [exact H|].
  change (String c pre +:+ s) with (String c (pre +:+ s)).
  apply endswith_cons, IH.
Qed.

Lemma endswith_inv (s p : string) :
  endswith s p = true -> exists pre, s = pre +:+ p.
Proof.
  induction s as [|c s IH]; cbn [endswith]; intros H.
  - rewrite orb_false_r in H. apply String.eqb_eq in H. subst p.
    now exists EmptyString.
  - apply orb_true_iff in H as [H | H].
    + apply String.eqb_eq in H. subst p. now exists EmptyString.
    + destruct (IH H) as [pre ->]. now exists (String c pre).
Qed.

Lemma app_nil_string (s : string) : s +:+ EmptyString = s.
Proof.
  induction s as [|c s IH]; [reflexivity|].
  change (String c s +:+ EmptyString) with (String c (s +:+ EmptyString)).
  now rewrite IH.
Qed.

Variable new : string.

Lemma prefix_dmg (s : string) :
  String.prefix ".dmg" s = true -> exists rest, s = ".dmg" +:+ rest.
Proof.
  intros H.
  destruct s as [|a [|b [|c [|d rest]]]];
    rewrite ?prefix_cons in H;
    repeat match type of H with
           | (if Ascii.eqb ?x ?y then _ else _) = true =>
               destruct (Ascii.eqb_spec x y); [subst|discriminate]
           end;
    try discriminate.
  now exists rest.
Qed.

(** An occurrence of [.dmg] is replaced and the scan goes on behind it. *)
Lemma replace_dmg_here (rest : string) :
  replace_from ".dmg" new 0 (".dmg" +:+ rest)
  = new +:+ replace_from ".dmg" new 0 rest.
Proof.
  change (".dmg" +:+ rest)
    with (String "." (String "d" (String "m" (String "g" rest)))).
  cbn [replace_from]. rewrite !prefix_cons, prefix_nil.
  destruct rest; reflexivity.
Qed.

Lemma replace_dmg_end (n : nat) (pre : string) :
  String.length pre <= n ->
  endswith (replace_from ".dmg" new 0 (pre +:+ ".dmg")) new = true.
Proof.
  revert pre. induction n as [|n IH]; intros pre Hlen.
  - destruct pre; [|cbn in Hlen; lia].
    change (EmptyString +:+ ".dmg") with (".dmg" +:+ EmptyString).
    rewrite replace_dmg_here. cbn [replace_from].
    rewrite app_nil_string. apply endswith_refl.
  - destruct (String.prefix ".dmg" (pre +:+ ".dmg")) eqn:Hp.
    + destruct (prefix_dmg _ Hp) as [rest Hrest].
      rewrite Hrest, replace_dmg_here.
      destruct pre as [|a [|b [|c [|d pre']]]].
      * vm_compute in Hrest. injection Hrest as <-. cbn [replace_from].
        rewrite app_nil_string. apply endswith_refl.
      * vm_compute in Hrest. discriminate Hrest.
      * vm_compute in Hrest. discriminate Hrest.
      * vm_compute in Hrest. discriminate Hrest.
      * assert (Hrest' : rest = pre' +:+ ".dmg")
          by (cbv [String.append] in Hrest; injection Hrest; auto).
        subst rest.
        apply endswith_app, IH. cbn [String.length] in Hlen. lia.
    + destruct pre as [|a pre]; [discriminate Hp|].
      change (String a pre +:+ ".dmg") with (String a (pre +:+ ".dmg")) in *.
      cbn [replace_from]. rewrite Hp.
      apply endswith_cons, IH. cbn [String.length] in Hlen. lia.
Qed.

Lemma replace_dmg (s : string) :
  endswith s ".dmg" = true -> endswith (replace ".dmg" new s) new = true.
Proof.
  intros H. destruct (endswith_inv _ _ H) as [pre ->].
  apply (replace_dmg_end (String.length pre)). lia.
Qed.

End UrlFacts.

Section UrlChoice.

Import PyStrExt DownloadUrl.

Lemma guarded_entry (b : bool) (urls : gmap string string) (key : string)
  (rest : option string) :
  (if b && bool_decide (is_Some (urls !! key)) then urls !! key else rest)
  = if b then match urls !! key with Some url => Some url | None => rest end
    else rest.
Proof.
  destruct b; [|reflexivity]. destruct (urls !! key); reflexivity.
Qed.

Lemma endswith_any_app (pre ext : string) (exts : list string) :
  In ext exts -> endswith_any (pre +:+ ext) exts = true.
Proof.
  intros Hin. apply existsb_exists. exists ext. split; [exact Hin|].
  apply endswith_app, endswith_refl.
Qed.

End UrlChoice.

Lemma platform_entry_found (system : string)
  (update_info : DownloadUrl.UpdateInfo) (url : string) :
  platform_entry system update_info = Some url ->
  DownloadUrl._get_platform_specific_download_url system update_info
  = Some url.
Proof.
  unfold platform_entry, platform_key,
    DownloadUrl._get_platform_specific_download_url.
  destruct (DownloadUrl.download_urls update_info) as [urls|];
    [|discriminate].
  rewrite !guarded_entry.
  destruct (String.eqb system "darwin") eqn:Hdarwin.
  { intros ->. reflexivity. }
  destruct (String.eqb system "windows") eqn:Hwindows.
  { intros ->. reflexivity. }
  destruct (String.eqb system "linux") eqn:Hlinux.
  { intros ->. reflexivity. }
  discriminate.
Qed.

Lemma fallback_url_cases (system : string)
  (update_info : DownloadUrl.UpdateInfo) :
  platform_entry system update_info = None ->
  match DownloadUrl._get_platform_specific_download_url system update_info with
  | None => DownloadUrl.download_url update_info = EmptyString
  | Some url =>
      DownloadUrl.download_url update_info <> EmptyString
      /\ match installer_extensions system with
         | Some extensions => PyStrExt.endswith_any url extensions = true
         | None => url = DownloadUrl.download_url update_info
         end
  end.
Proof.
  intros Hentry.
  assert (Hplatform :
    match DownloadUrl.download_urls update_info with
    | Some platform_urls =>
        if String.eqb system "darwin"
           && bool_decide (is_Some (platform_urls !! "macos"))
        then platform_urls !! "macos"
        else if String.eqb system "windows"
                && bool_decide (is_Some (platform_urls !! "windows"))
        then platform_urls !! "windows"
        else if String.eqb system "linux"
                && bool_decide (is_Some (platform_urls !! "linux"))
        then platform_urls !! "linux"
        else None
    | None => None
    end = None).
  { unfold platform_entry, platform_key in Hentry.
    destruct (DownloadUrl.download_urls update_info) as [urls|];
      [|reflexivity].
    rewrite !guarded_entry.
    destruct (String.eqb_spec system "darwin") as [->|_];
      [now rewrite Hentry|].
    destruct (String.eqb_spec system "windows") as [->|_];
      [now rewrite Hentry|].
    destruct (String.eqb_spec system "linux") as [->|_];
      [now rewrite Hentry|].
    reflexivity. }
  unfold DownloadUrl._get_platform_specific_download_url.
  cbv zeta. rewrite Hplatform. clear Hplatform Hentry.
  unfold installer_extensions.
  destruct (DownloadUrl.download_url update_info) as [|c base] eqn:Hbase;
    [reflexivity|].
  cbn [UpdateDialog.nonempty negb].
  set (base_url := String c base).
  destruct (String.eqb system "windows").
  { destruct (PyStrExt.endswith base_url ".dmg") eqn:Hdmg.
    - split; [discriminate|]. unfold PyStrExt.endswith_any.
      cbn [existsb]. now rewrite (replace_dmg ".exe" base_url Hdmg).
    - destruct (PyStrExt.endswith_any _ [".exe"; ".msi"]) eqn:Hext;
        cbn [negb]; (split; [discriminate|]); [exact Hext|].
      apply endswith_any_app. now left. }
  destruct (String.eqb system "linux").
  { destruct (PyStrExt.endswith base_url ".dmg") eqn:Hdmg.
    - split; [discriminate|]. unfold PyStrExt.endswith_any.
      cbn [existsb]. now rewrite (replace_dmg ".tar.gz" base_url Hdmg).
    - destruct (PyStrExt.endswith_any _
                  [".tar.gz"; ".deb"; ".rpm"; ".appimage"]) eqn:Hext;
        cbn [negb]; (split; [discriminate|]); [exact Hext|].
      apply endswith_any_app. now left. }
  destruct (String.eqb system "darwin").
  { destruct (PyStrExt.endswith base_url ".dmg") eqn:Hdmg; cbn [negb];
      (split; [discriminate|]).
    - unfold PyStrExt.endswith_any. cbn [existsb]. now rewrite Hdmg.
    - apply endswith_any_app. now left. }
  split; [discriminate | reflexivity].
Qed.

(** X19.  When [download_urls] has an entry for the system (key [macos]
    for darwin, [windows], [linux]), [_get_platform_specific_download_url]
    returns that entry, whatever [download_url] holds. *)
Theorem platform_entry_is_returned (system : string)
  (update_info : DownloadUrl.UpdateInfo) (url : string) :
  platform_entry system update_info = Some url ->
  DownloadUrl._get_platform_specific_download_url system update_info
  = Some url.
Proof. apply platform_entry_found. Qed.

(** X19 on darwin with an entry for macos. *)
Lemma macos_entry_is_returned :
  DownloadUrl._get_platform_specific_download_url "darwin" with_macos_url
  = Some "https://example.com/connect-24.5.0.dmg".
Proof.
  apply platform_entry_is_returned. vm_compute. reflexivity.
Defined.

(** X20.  Without an entry for the system the result is derived from
    [download_url]: nothing when that is empty; otherwise a URL that ends
    with [.exe] or [.msi] on windows, with [.tar.gz], [.deb], [.rpm] or
    [.appimage] on linux, with [.dmg] on darwin, and [download_url] itself
    on any other system. *)
Theorem fallback_url_has_installer_extension (system : string)
  (update_info : DownloadUrl.UpdateInfo) :
  platform_entry system update_info = None ->
  match DownloadUrl._get_platform_specific_download_url system update_info with
  | None => DownloadUrl.download_url update_info = EmptyString
  | Some url =>
      DownloadUrl.download_url update_info <> EmptyString
      /\ match installer_extensions system with
         | Some extensions => PyStrExt.endswith_any url extensions = true
         | None => url = DownloadUrl.download_url update_info
         end
  end.
Proof. apply fallback_url_cases. Qed.

(** X20 on windows with the URL of a disk image. *)
Lemma windows_fallback_of_dmg :
  match DownloadUrl._get_platform_specific_download_url "windows"
          with_dmg_url with
  | None => DownloadUrl.download_url with_dmg_url = EmptyString
  | Some url =>
      DownloadUrl.download_url with_dmg_url <> EmptyString
      /\ match installer_extensions "windows" with
         | Some extensions => PyStrExt.endswith_any url extensions = true
         | None => url = DownloadUrl.download_url with_dmg_url
         end
  end.
Proof.
  apply fallback_url_has_installer_extension. reflexivity.
Defined.

(** ** The entry point *)

Section EntryFacts.

Import EntryPoint.

Lemma flag_is_no_script : PyStrExt.endswith standalone_flag ".py" = false.
Proof. vm_compute. reflexivity. Qed.

Lemma script_is_nonempty (s : string) :
  PyStrExt.endswith s ".py" = true -> UpdateDialog.nonempty s = true.
Proof. destruct s; [vm_compute; discriminate | reflexivity]. Qed.

Lemma pre_parse_late (args : list string) (index : nat) :
  2 <= index ->
  match pre_parse args index with
  | Py.Ok (_, script) => script = None
  | Py.Raise _ => True
  end.
Proof.
  revert index. induction args as [|arg rest IH]; intros index Hindex.
  - reflexivity.
  - cbn [pre_parse]. destruct (String.eqb arg standalone_flag).
    + destruct rest; [exact I | reflexivity].
    + destruct (index =? 1)%nat eqn:Hone;
        [apply Nat.eqb_eq in Hone; lia|].
      cbn [andb]. apply IH. lia.
Qed.

Lemma pre_parse_flag (before rest : list string) (index : nat) :
  Forall (fun arg => arg <> standalone_flag) before ->
  (forall j arg, before !! j = Some arg -> index + j = 1 ->
                 PyStrExt.endswith arg ".py" = false) ->
  pre_parse (before ++ standalone_flag :: rest) index
  = match rest with
    | next :: _ => Py.Ok (Some next, None)
    | [] => Py.Raise index_error
    end.
Proof.
  intros Hflag. revert index.
  induction Hflag as [|arg before Harg _ IH]; intros index Hscript.
  - cbn [app pre_parse]. now rewrite String.eqb_refl.
  - cbn [app pre_parse].
    destruct (String.eqb_spec arg standalone_flag) as [Heq|_];
      [contradiction|].
    destruct (index =? 1)%nat eqn:Hone.
    + apply Nat.eqb_eq in Hone.
      rewrite (Hscript 0 arg eq_refl) by lia. cbn [andb].
      apply IH. intros j a Hj Hsum. lia.
    + cbn [andb]. apply IH. intros j a Hj Hsum.
      apply (Hscript (S j) a Hj). lia.
Qed.

Lemma scan_reaches_flag (before rest : list string) :
  scan_passes before ->
  pre_parse (before ++ standalone_flag :: rest) 0
  = match rest with
    | next :: _ => Py.Ok (Some next, None)
    | [] => Py.Raise index_error
    end.
Proof.
  intros [Hflag Hscript]. apply pre_parse_flag; [exact Hflag|].
  intros j arg Hj Hsum. apply Hscript. now replace 1 with j by lia.
Qed.

End EntryFacts.

(** X21.  [main] runs a script exactly when [sys.argv[1]] ends with [.py]
    and [sys.argv[0]] is not [--run-framework-standalone]; the script is
    then [sys.argv[1]], whatever follows it on the command line. *)
Theorem script_mode_iff (pathsep : ascii) (argv : list string)
  (pythonpath : option string) (sys_path : EntryPoint.SysPath)
  (script : string) :
  EntryPoint.main pathsep argv pythonpath sys_path
  = Py.Ok (EntryPoint.ExecScript script)
  <-> exists (program : string) (rest : list string),
        argv = program :: script :: rest
        /\ program <> EntryPoint.standalone_flag
        /\ PyStrExt.endswith script ".py" = true.
Proof.
  unfold EntryPoint.main. split.
  - destruct argv as [|program [|arg rest]]; cbn [EntryPoint.pre_parse].
    + discriminate.
    + destruct (String.eqb program EntryPoint.standalone_flag);
        cbn; discriminate.
    + destruct (String.eqb_spec program EntryPoint.standalone_flag)
        as [_|Hprogram].
      { cbn [mbind result_bind Py.bind EntryPoint.truthy].
        destruct (UpdateDialog.nonempty arg); [|discriminate].
        destruct pythonpath; [|discriminate].
        destruct (EntryPoint.bootstrap_loop _ _ _). discriminate. }
      cbn [Nat.eqb andb].
      destruct (String.eqb arg EntryPoint.standalone_flag).
      { destruct rest as [|next rest]; [discriminate|].
        cbn [mbind result_bind Py.bind EntryPoint.truthy].
        destruct (UpdateDialog.nonempty next); [|discriminate].
        destruct pythonpath; [|discriminate].
        destruct (EntryPoint.bootstrap_loop _ _ _). discriminate. }
      destruct (PyStrExt.endswith arg ".py") eqn:Hpy.
      * cbn [mbind result_bind Py.bind EntryPoint.truthy].
        rewrite (script_is_nonempty arg Hpy). intros [= <-].
        exists program, rest. auto.
      * pose proof (pre_parse_late rest 2 (le_n 2)) as Hlate.
        destruct (EntryPoint.pre_parse rest 2) as [[module late]|e];
          [|discriminate].
        subst late. cbn [mbind result_bind Py.bind EntryPoint.truthy].
        destruct (EntryPoint.truthy module); [|discriminate].
        destruct module; [|discriminate].
        destruct pythonpath; [|discriminate].
        destruct (EntryPoint.bootstrap_loop _ _ _). discriminate.
  - intros (program & rest & -> & Hprogram & Hpy).
    cbn [EntryPoint.pre_parse].
    destruct (String.eqb_spec program EntryPoint.standalone_flag)
      as [Heq|_]; [contradiction|].
    destruct (String.eqb_spec script EntryPoint.standalone_flag) as [Heq|_].
    { rewrite Heq, flag_is_no_script in Hpy. discriminate. }
    cbn [Nat.eqb andb]. rewrite Hpy.
    cbn [mbind result_bind Py.bind EntryPoint.truthy].
    now rewrite (script_is_nonempty script Hpy).
Qed.

(** X22.  A flag that is the last argument makes [main] raise
    [IndexError]; a flag followed by the empty string is ignored and
    [main_connect] runs, no script being looked for. *)
Theorem standalone_flag_without_module (pathsep : ascii)
  (before after : list string) (pythonpath : option string)
  (sys_path : EntryPoint.SysPath) :
  scan_passes before ->
  EntryPoint.main pathsep (before ++ [EntryPoint.standalone_flag])
    pythonpath sys_path
  = Py.Raise EntryPoint.index_error
  /\ EntryPoint.main pathsep
       (before ++ EntryPoint.standalone_flag :: EmptyString :: after)
       pythonpath sys_path
     = Py.Ok EntryPoint.MainConnect.
Proof.
  intros Hscan. unfold EntryPoint.main.
  rewrite !(scan_reaches_flag before _ Hscan). split; reflexivity.
Qed.

(** X22 with the program name before the flag. *)
Lemma flag_needs_a_module :
  EntryPoint.main ":" (["ftrack-connect"] ++ [EntryPoint.standalone_flag])
    None []
  = Py.Raise EntryPoint.index_error
  /\ EntryPoint.main ":"
       (["ftrack-connect"]
        ++ EntryPoint.standalone_flag :: EmptyString :: ["--silent"])
       None []
     = Py.Ok EntryPoint.MainConnect.
Proof.
  assert (Hscan : scan_passes ["ftrack-connect"]).
  { split.
    - repeat constructor. intros H. vm_compute in H. discriminate H.
    - intros arg H. discriminate H. }
  exact (standalone_flag_without_module ":" ["ftrack-connect"] ["--silent"]
           None [] Hscan).
Defined.

(** X23.  With the flag and a module name but [PYTHONPATH] not set,
    [main] raises [AttributeError] and imports nothing. *)
Theorem standalone_needs_pythonpath (pathsep : ascii)
  (before after : list string) (module : string)
  (sys_path : EntryPoint.SysPath) :
  scan_passes before ->
  module <> EmptyString ->
  EntryPoint.main pathsep
    (before ++ EntryPoint.standalone_flag :: module :: after) None sys_path
  = Py.Raise EntryPoint.attribute_error.
Proof.
  intros Hscan Hmodule. unfold EntryPoint.main.
  rewrite (scan_reaches_flag before _ Hscan).
  cbn [mbind result_bind Py.bind EntryPoint.truthy].
  destruct module; [contradiction | reflexivity].
Qed.

(** X23 with the program name before the flag. *)
Lemma standalone_without_pythonpath :
  EntryPoint.main ":"
    (["ftrack-connect"]
     ++ EntryPoint.standalone_flag :: "framework.standalone" :: [])
    None []
  = Py.Raise EntryPoint.attribute_error.
Proof.
  assert (Hscan : scan_passes ["ftrack-connect"]).
  { split.
    - repeat constructor. intros H. vm_compute in H. discriminate H.
    - intros arg H. discriminate H. }
  apply (standalone_needs_pythonpath ":" ["ftrack-connect"] []
           "framework.standalone" [] Hscan).
  discriminate.
Defined.

Section BootstrapFacts.

Import EntryPoint.

Lemma in_path_spec (path : string) (sys_path : SysPath) :
  in_path path sys_path = false <-> ~ In (Some path) sys_path.
Proof.
  unfold in_path. induction sys_path as [|entry sys_path IH]; cbn [existsb In].
  - tauto.
  - rewrite orb_false_iff, IH, bool_decide_eq_false. split.
    + intros [Hne Hnot] [Heq | Hin]; auto.
    + intros Hnot. split; intros H; apply Hnot; auto.
Qed.

Lemma bootstrap_step (path : string) (rest : list string)
  (dependencies_path : option string) (sys_path : SysPath) :
  bootstrap_loop (path :: rest) dependencies_path sys_path
  = if PyStr.contains "dependencies" path
    then bootstrap_loop rest (Some path) sys_path
    else if negb (in_path path sys_path)
    then bootstrap_loop rest dependencies_path (sys_path ++ [Some path])
    else bootstrap_loop rest dependencies_path sys_path.
Proof.
  unfold bootstrap_loop. cbn [fold_left].
  destruct (PyStr.contains "dependencies" path); [reflexivity|].
  destruct (negb (in_path path sys_path)); reflexivity.
Qed.

Lemma bootstrap_loop_spec (entries : list string)
  (dependencies_path : option string) (sys_path : SysPath) :
  exists added : SysPath,
    bootstrap_loop entries dependencies_path sys_path
    = (match last (List.filter is_dependencies entries) with
       | Some path => Some path
       | None => dependencies_path
       end,
       sys_path ++ added)
    /\ List.NoDup added
    /\ forall entry,
         In entry added
         <-> exists path,
               entry = Some path /\ In path entries
               /\ is_dependencies path = false
               /\ ~ In (Some path) sys_path.
Proof.
  revert dependencies_path sys_path.
  induction entries as [|path rest IH]; intros dependencies_path sys_path.
  - exists []. rewrite app_nil_r. split; [reflexivity|].
    split; [constructor|]. intros entry. split; [intros []|].
    intros (p & _ & [] & _).
  - rewrite bootstrap_step. cbn [List.filter]. unfold is_dependencies at 1.
    destruct (PyStr.contains "dependencies" path) eqn:Hdep.
    + destruct (IH (Some path) sys_path) as (added & Hrun & Hnodup & Hin).
      exists added. rewrite Hrun, last_cons.
      split; [now destruct (last (List.filter is_dependencies rest))|].
      split; [exact Hnodup|]. intros entry. rewrite Hin. split.
      * intros (p & -> & Hp & Hnd & Hnew). exists p. cbn [In]. auto.
      * intros (p & -> & [<- | Hp] & Hnd & Hnew).
        -- unfold is_dependencies in Hnd. congruence.
        -- exists p. auto.
    + destruct (in_path path sys_path) eqn:Hold; cbn [negb].
      * destruct (IH dependencies_path sys_path)
          as (added & Hrun & Hnodup & Hin).
        exists added. rewrite Hrun. split; [reflexivity|].
        split; [exact Hnodup|]. intros entry. rewrite Hin. split.
        -- intros (p & -> & Hp & Hnd & Hnew). exists p. cbn [In]. auto.
        -- intros (p & -> & [<- | Hp] & Hnd & Hnew).
           ++ apply in_path_spec in Hnew. congruence.
           ++ exists p. auto.
      * destruct (IH dependencies_path (sys_path ++ [Some path]))
          as (added & Hrun & Hnodup & Hin).
        exists (Some path :: added). rewrite Hrun, <- app_assoc.
        split; [reflexivity|]. split.
        -- constructor; [|exact Hnodup]. intros Hdup.
           apply Hin in Hdup as (p & [= <-] & _ & _ & Hnew).
           apply Hnew, in_or_app. right. now left.
        -- intros entry. cbn [In]. rewrite Hin. split.
           ++ intros [<- | (p & -> & Hp & Hnd & Hnew)].
              ** exists path. apply in_path_spec in Hold. auto.
              ** exists p. repeat split; auto.
                 intros Hsp. apply Hnew, in_or_app. now left.
           ++ intros (p & -> & [<- | Hp] & Hnd & Hnew); [now left|].
              destruct (String.eqb_spec path p) as [<- | Hne]; [now left|].
              right. exists p. repeat split; auto.
              intros Hsp. apply in_app_or in Hsp as [Hsp | [[= Heq] | []]];
                auto.
Qed.

End BootstrapFacts.

(** X24.  In standalone mode [main] puts at the front of [sys.path] the
    last entry of [PYTHONPATH] that contains [dependencies] ([None] when
    there is none), keeps the entries [sys.path] had in their order, and
    appends after them, once each, exactly the other entries of
    [PYTHONPATH] that [sys.path] did not hold; then it imports the
    module. *)
Theorem standalone_bootstraps_sys_path (pathsep : ascii)
  (before after : list string) (module value : string)
  (sys_path : EntryPoint.SysPath) :
  scan_passes before ->
  module <> EmptyString ->
  exists added : EntryPoint.SysPath,
    EntryPoint.main pathsep
      (before ++ EntryPoint.standalone_flag :: module :: after)
      (Some value) sys_path
    = Py.Ok (EntryPoint.ImportModule module
               (last (List.filter is_dependencies
                        (PyStr.split_char pathsep value))
                :: sys_path ++ added))
    /\ List.NoDup added
    /\ forall entry,
         In entry added
         <-> exists path,
               entry = Some path
               /\ In path (PyStr.split_char pathsep value)
               /\ is_dependencies path = false
               /\ ~ In (Some path) sys_path.
Proof.
  intros Hscan Hmodule.
  destruct (bootstrap_loop_spec (PyStr.split_char pathsep value) None sys_path)
    as (added & Hrun & Hnodup & Hin).
  exists added. split; [|split; [exact Hnodup | exact Hin]].
  unfold EntryPoint.main. rewrite (scan_reaches_flag before _ Hscan).
  cbn [mbind result_bind Py.bind EntryPoint.truthy].
  destruct module as [|c module]; [contradiction|].
  cbn [UpdateDialog.nonempty]. rewrite Hrun.
  now destruct (last (List.filter is_dependencies
                        (PyStr.split_char pathsep value))).
Qed.

(** X24 with a [PYTHONPATH] of two entries. *)
Lemma standalone_with_dependencies :
  exists added : EntryPoint.SysPath,
    EntryPoint.main ":"
      (["ftrack-connect"]
       ++ EntryPoint.standalone_flag :: "framework.standalone" :: [])
      (Some "/opt/plugin/dependencies:/opt/site") [Some "/usr/lib"]
    = Py.Ok (EntryPoint.ImportModule "framework.standalone"
               (last (List.filter is_dependencies
                        (PyStr.split_char ":"
                           "/opt/plugin/dependencies:/opt/site"))
                :: [Some "/usr/lib"] ++ added))
    /\ List.NoDup added
    /\ forall entry,
         In entry added
         <-> exists path,
               entry = Some path
               /\ In path
                    (PyStr.split_char ":" "/opt/plugin/dependencies:/opt/site")
               /\ is_dependencies path = false
               /\ ~ In (Some path) [Some "/usr/lib"].
Proof.
  assert (Hscan : scan_passes ["ftrack-connect"]).
  { split.
    - repeat constructor. intros H. vm_compute in H. discriminate H.
    - intros arg H. discriminate H. }
  apply (standalone_bootstraps_sys_path ":" ["ftrack-connect"] []
           "framework.standalone" "/opt/plugin/dependencies:/opt/site"
           [Some "/usr/lib"] Hscan).
  discriminate.
Defined.

(** ** How the automatic update starts and ends *)

Section StartFacts.

Import PyStrExt.

Lemma installer_url_nonempty (system url : string) (extensions : list string) :
  installer_extensions system = Some extensions ->
  endswith_any url extensions = true ->
  UpdateDialog.nonempty url = true.
Proof.
  unfold installer_extensions. intros Hext Hurl.
  destruct url; [|reflexivity].
  destruct (String.eqb system "windows");
    [injection Hext as <-; vm_compute in Hurl; discriminate|].
  destruct (String.eqb system "linux");
    [injection Hext as <-; vm_compute in Hurl; discriminate|].
  destruct (String.eqb system "darwin");
    [injection Hext as <-; vm_compute in Hurl; discriminate|].
  discriminate.
Qed.

End StartFacts.

(** X25.  [_on_auto_update_clicked] falls back to the manual download with
    the progress dialog already shown exactly when [download_url] is not
    empty and [download_urls] holds the empty string for the system; in
    every other case with a non-empty [download_url] a download starts. *)
Theorem manual_fallback_behind_progress_dialog (system : string)
  (update_info : DownloadUrl.UpdateInfo) :
  AutoUpdateStart.start system update_info
  = AutoUpdateStart.ManualDownloadBehindProgress
  <-> DownloadUrl.download_url update_info <> EmptyString
      /\ platform_entry system update_info = Some EmptyString.
Proof.
  unfold AutoUpdateStart.start.
  destruct (platform_entry system update_info) as [entry|] eqn:Hentry.
  - rewrite (platform_entry_found system update_info entry Hentry).
    destruct (DownloadUrl.download_url update_info) as [|c base];
      cbn [UpdateDialog.nonempty negb].
    + split; [discriminate | intros [H _]; congruence].
    + destruct entry as [|c' entry]; cbn [UpdateDialog.nonempty negb].
      * split; [split; [discriminate | reflexivity] | reflexivity].
      * split; [discriminate | intros [_ H]; discriminate].
  - pose proof (fallback_url_cases system update_info Hentry) as Hcases.
    destruct (DownloadUrl._get_platform_specific_download_url system
                update_info) as [url|].
    + destruct Hcases as [Hbase Hurl].
      assert (Hne : UpdateDialog.nonempty url = true).
      { destruct (installer_extensions system) as [extensions|] eqn:Hext.
        - exact (installer_url_nonempty system url extensions Hext Hurl).
        - subst url.
          destruct (DownloadUrl.download_url update_info);
            [congruence | reflexivity]. }
      rewrite Hne.
      destruct (DownloadUrl.download_url update_info);
        cbn [UpdateDialog.nonempty negb];
        (split; [discriminate | intros [_ H]; discriminate]).
    + rewrite Hcases. cbn [UpdateDialog.nonempty negb].
      split; [discriminate | intros [H _]; congruence].
Qed.

Section InstallFacts.

Import DeferredInstall.

Variable create_script : string -> Py.result string.
Variable write_script : Py.result unit.
Variable close_script : Py.result unit.
Variable chmod : string -> Py.result unit.
Variable popen : list string -> Py.result unit.
Variable run : list string -> Py.result unit.

(** X26.  [_start_deferred_installation] starts the waiting script at most
    once, and hands the installer to the system directly exactly when the
    platform is darwin, windows or linux and the script has not been
    started successfully; on any other platform it launches nothing. *)
Theorem installer_is_launched_once (system installer_path : string) :
  let t :=
    fst (_start_deferred_installation create_script write_script close_script
           chmod popen run system installer_path) in
  scripts_started t <= 1
  /\ installers_opened t
     = if supported system && negb (script_runs popen t) then 1 else 0.
Proof.
  unfold _start_deferred_installation, bash_script, supported.
  destruct (String.eqb_spec system "darwin") as [->|_];
    [|destruct (String.eqb_spec system "windows") as [->|_];
      [|destruct (String.eqb_spec system "linux") as [->|_]]];
    unfold Py.try_catch, Py.then_, Py.seq, Py.then_, Py.call, Py.tell,
      Py.lift.
  - destruct (create_script ".sh") as [script|e0]; cbn [fst snd app];
      [destruct write_script as [[]|e1]; cbn [fst snd app];
       destruct close_script as [[]|e2]; cbn [fst snd app];
       destruct (chmod script) as [[]|e3]; cbn [fst snd app];
       destruct (popen ["bash"; script]) as [[]|e4] eqn:Hp;
       cbn [fst snd app]|];
      cbn; rewrite ?Hp; cbn; split; try reflexivity; lia.
  - destruct (create_script ".bat") as [script|e0]; cbn [fst snd app];
      [destruct write_script as [[]|e1]; cbn [fst snd app];
       destruct close_script as [[]|e2]; cbn [fst snd app];
       destruct (popen [script]) as [[]|e4] eqn:Hp;
       cbn [fst snd app]|];
      cbn; rewrite ?Hp; cbn; split; try reflexivity; lia.
  - destruct (create_script ".sh") as [script|e0]; cbn [fst snd app];
      [destruct write_script as [[]|e1]; cbn [fst snd app];
       destruct close_script as [[]|e2]; cbn [fst snd app];
       destruct (chmod script) as [[]|e3]; cbn [fst snd app];
       destruct (popen ["bash"; script]) as [[]|e4] eqn:Hp;
       cbn [fst snd app]|];
      cbn; rewrite ?Hp; cbn; split; try reflexivity; lia.
  - cbn. split; [lia | reflexivity].
Qed.

End InstallFacts.

